(** * Vast.ai data collection script: a shallow embedding of [collect_data.py]

    The script fetches GPU offers over HTTP, projects every offer onto a
    fixed record, appends the records to a JSON file and prints summary
    statistics of the latest batch.

    The embedding follows the script function by function.  Python values
    are the values JSON decoding produces ([None], booleans, integers,
    binary64 floats, strings, lists and string-keyed dictionaries);
    exceptions are an error type; the environment, the HTTP endpoint, the
    wall clock and the file system are a [world] record threaded through a
    state-and-exception monad.  The [json] module is an interface.
    [print_summary] returns the lines it prints and how it ends; [main]
    takes the summary it calls as a parameter, so that its properties
    hold for any summary, the one of the script included.  The other
    console output is not modelled and printing is taken to succeed;
    what a printed line evaluates ([len] of a value, [datetime.now()])
    is.

    - [Py], [DateTime]: the Python values and built-ins the script uses.
    - [CollectData]: the script.
    - [Spec], [Examples]: the vocabulary of the statements and the
      concrete inputs they are run on.
    - [NumFacts] to [SortFacts]: numbers, rounding, dictionaries, sorting.
    - [ReporterFacts], [ProjectorFacts], [FetcherFacts], [StoreFacts]:
      the properties of the four stages and of [main].
    - [CollectorFacts], [SummaryFacts], [PrinterFacts], [RunFacts]: one
      collection, the summary as a whole and as printed, whole runs.
    - [Scenarios]: the properties on concrete inputs. *)

From Stdlib Require Import ZArith List String Ascii Bool Lia Permutation Sorted.
From Stdlib Require Import SpecFloat DecimalString.
Import ListNotations.

Local Open Scope string_scope.
Local Open Scope list_scope.
Local Open Scope Z_scope.

(* ================================================================== *)
(** * Python values and built-ins *)
(* ================================================================== *)

Module Py.

(** ** Exceptions *)

Inductive exn : Type :=
| KeyError (key : string)
| TypeError
| AttributeError
| ValueError (msg : string)
| JSONDecodeError
| ZeroDivisionError
| OverflowError
| FileNotFoundError
| FileExistsError
| IsADirectoryError
| NotADirectoryError
| IndexError
| ConnectionError
| Exception (msg : string).

(** [except ValueError] also catches [json.JSONDecodeError], its subclass. *)
Definition is_ValueError (e : exn) : bool :=
  match e with
  | ValueError _ | JSONDecodeError => true
  | _ => false
  end.

Inductive result (A : Type) : Type :=
| Ok (a : A)
| Err (e : exn).
Arguments Ok {A} a.
Arguments Err {A} e.

Definition rbind {A B} (r : result A) (k : A -> result B) : result B :=
  match r with
  | Ok a => k a
  | Err e => Err e
  end.

Declare Scope result_scope.
Delimit Scope result_scope with result.
Notation "'let?' x ':=' r 'in' k" := (rbind r (fun x => k))
  (at level 10, x name, r at level 100, k at level 200) : result_scope.
Local Open Scope result_scope.

(** ** Floats: IEEE 754 binary64, as a [spec_float] *)

Definition float := spec_float.
Definition prec : Z := 53.
Definition emax : Z := 1024.

Definition float_mul : float -> float -> float := SFmul prec emax.

(** The double nearest to the rational [n / d] (round half to even). *)
Definition float_of_ratio (n : Z) (d : positive) : float :=
  match n with
  | Z0 => S754_zero false
  | Zpos p => SFdiv prec emax (S754_finite false p 0) (S754_finite false d 0)
  | Zneg p => SFdiv prec emax (S754_finite true p 0) (S754_finite false d 0)
  end.

(** [float(n)] for a Python int. *)
Definition float_of_int (n : Z) : float := float_of_ratio n 1.

Definition float_is_inf (f : float) : bool :=
  match f with S754_infinity _ => true | _ => false end.

(** [a / b] on Python ints: the correctly rounded quotient. *)
Definition int_truediv (a b : Z) : result float :=
  match b with
  | Z0 => Err ZeroDivisionError
  | Zpos d =>
      let q := float_of_ratio a d in
      if float_is_inf q then Err OverflowError else Ok q
  | Zneg d =>
      let q := float_of_ratio (- a) d in
      if float_is_inf q then Err OverflowError else Ok q
  end.

(** Nearest integer to [n / d], ties to even ([d > 0], [n >= 0]). *)
Definition round_half_even (n d : Z) : Z :=
  let q := n / d in
  let r := n mod d in
  match 2 * r ?= d with
  | Lt => q
  | Gt => q + 1
  | Eq => if Z.even q then q else q + 1
  end.

(** [round(x, ndigits)] on a float, for [ndigits >= 0]: the exact value
    of [x] is rounded half-even to [ndigits] decimals and the double
    nearest to that decimal is returned; zeros, infinities and NaN round
    to themselves, and a result of zero keeps the sign of [x]. *)
Definition float_round (x : float) (ndigits : Z) : float :=
  match x with
  | S754_finite s m e =>
      let p10 := 10 ^ ndigits in
      let num := Zpos m * p10 in
      let n :=
        if 0 <=? e then num * 2 ^ e
        else round_half_even num (2 ^ (- e)) in
      match n with
      | Zpos p =>
          SFdiv prec emax (S754_finite s p 0)
            (S754_finite false (Z.to_pos p10) 0)
      | _ => S754_zero s
      end
  | _ => x
  end.

(** ** Values *)

#[warnings="-register-all"]
Inductive value : Type :=
| VNone
| VBool (b : bool)
| VInt (n : Z)
| VFloat (f : float)
| VStr (s : string)
| VList (l : list value)
| VDict (d : list (string * value)).

(** [bool(v)] *)
Definition truthy (v : value) : bool :=
  match v with
  | VNone => false
  | VBool b => b
  | VInt n => negb (n =? 0)
  | VFloat f => match f with S754_zero _ => false | _ => true end
  | VStr s => negb (String.eqb s "")
  | VList l => match l with [] => false | _ => true end
  | VDict d => match d with [] => false | _ => true end
  end.

(** ** Exact numeric comparison

    Python compares ints, bools and floats by their exact mathematical
    value.  A finite number is kept as [m * 2^e]. *)

Inductive num : Type :=
| NNan
| NInf (neg : bool)
| NFin (m e : Z).

Definition num_of_float (f : float) : num :=
  match f with
  | S754_zero _ => NFin 0 0
  | S754_infinity s => NInf s
  | S754_nan => NNan
  | S754_finite s m e => NFin (cond_Zopp s (Zpos m)) e
  end.

Definition num_of_value (v : value) : option num :=
  match v with
  | VBool b => Some (NFin (if b then 1 else 0) 0)
  | VInt n => Some (NFin n 0)
  | VFloat f => Some (num_of_float f)
  | _ => None
  end.

Definition fin_compare (m1 e1 m2 e2 : Z) : comparison :=
  let e := Z.min e1 e2 in
  (m1 * 2 ^ (e1 - e)) ?= (m2 * 2 ^ (e2 - e)).

(** [None] when the operands are unordered (a NaN is involved). *)
Definition num_compare (x y : num) : option comparison :=
  match x, y with
  | NNan, _ | _, NNan => None
  | NInf s1, NInf s2 =>
      Some (match s1, s2 with
            | true, false => Lt
            | false, true => Gt
            | _, _ => Eq
            end)
  | NInf s, NFin _ _ => Some (if s then Lt else Gt)
  | NFin _ _, NInf s => Some (if s then Gt else Lt)
  | NFin m1 e1, NFin m2 e2 => Some (fin_compare m1 e1 m2 e2)
  end.

(** Identity-or-equality on numbers: every JSON-decoded NaN is the one
    object [json.decoder.NaN], so a NaN is the same key as itself. *)
Definition num_same (x y : num) : bool :=
  match x, y with
  | NNan, NNan => true
  | _, _ => match num_compare x y with Some Eq => true | _ => false end
  end.

Definition num_ltb (x y : num) : bool :=
  match num_compare x y with Some Lt => true | _ => false end.

Fixpoint assoc {A} (d : list (string * A)) (k : string) : option A :=
  match d with
  | [] => None
  | (k', v) :: d' => if String.eqb k' k then Some v else assoc d' k
  end.

(** [a is b or a == b], the comparison containers apply to their
    elements and dictionaries to their keys. *)
Fixpoint py_same (a b : value) {struct a} : bool :=
  match a, b with
  | VNone, VNone => true
  | VStr s, VStr t => String.eqb s t
  | VList l, VList m =>
      (fix all2 (l m : list value) {struct l} : bool :=
         match l, m with
         | [], [] => true
         | x :: l', y :: m' => py_same x y && all2 l' m'
         | _, _ => false
         end) l m
  | VDict d, VDict d' =>
      (List.length d =? List.length d')%nat &&
      (fix all (d : list (string * value)) {struct d} : bool :=
         match d with
         | [] => true
         | (k, v) :: r =>
             match assoc d' k with
             | Some w => py_same v w && all r
             | None => false
             end
         end) d
  | (VBool _ | VInt _ | VFloat _), (VBool _ | VInt _ | VFloat _) =>
      match num_of_value a, num_of_value b with
      | Some x, Some y => num_same x y
      | _, _ => false
      end
  | _, _ => false
  end.

(** [a == b]: as [py_same], except that a float NaN is not equal to
    itself. *)
Definition py_eqb (a b : value) : bool :=
  match a, b with
  | VFloat S754_nan, _ | _, VFloat S754_nan => false
  | _, _ => py_same a b
  end.

(** [a < b]; [TypeError] when the operand types are not ordered. *)
Fixpoint py_lt (a b : value) {struct a} : result bool :=
  match a, b with
  | VStr s, VStr t => Ok (String.ltb s t)
  | VList l, VList m =>
      (fix lex (l m : list value) {struct l} : result bool :=
         match l, m with
         | [], [] => Ok false
         | [], _ :: _ => Ok true
         | _ :: _, [] => Ok false
         | x :: l', y :: m' => if py_same x y then lex l' m' else py_lt x y
         end) l m
  | (VBool _ | VInt _ | VFloat _), (VBool _ | VInt _ | VFloat _) =>
      match num_of_value a, num_of_value b with
      | Some x, Some y => Ok (num_ltb x y)
      | _, _ => Err TypeError
      end
  | _, _ => Err TypeError
  end.

(** ** Built-ins on values *)

(** [round(v, ndigits)] for [ndigits >= 0]: an int (or bool) rounds to
    itself as an int. *)
Definition py_round (v : value) (ndigits : Z) : result value :=
  match v with
  | VFloat f => Ok (VFloat (float_round f ndigits))
  | VInt n => Ok (VInt n)
  | VBool b => Ok (VInt (if b then 1 else 0))
  | _ => Err TypeError
  end.

(** Insertion of [x] in front of the first element it is smaller than. *)
Fixpoint insert_sorted (x : value) (l : list value) : result (list value) :=
  match l with
  | [] => Ok [x]
  | y :: l' =>
      let? b := py_lt x y in
      if b then Ok (x :: y :: l')
      else let? r := insert_sorted x l' in Ok (y :: r)
  end.

(** [sorted(l)]: a stable sort by [<], here by insertion from the left.
    It returns what [list.sort] returns whenever [<] is a strict weak
    order on the elements (numbers without NaN, strings); it raises when
    a comparison it makes raises.  With a NaN among the elements the
    order [list.sort] leaves depends on the runs it finds and merges,
    and is not what the insertion gives: the statements on the order of
    a sorted list are made for numbers without NaN. *)
Fixpoint sorted_from (acc l : list value) : result (list value) :=
  match l with
  | [] => Ok acc
  | x :: l' => let? acc' := insert_sorted x acc in sorted_from acc' l'
  end.

Definition sorted (l : list value) : result (list value) := sorted_from [] l.

(** [min(l)]: the first smallest element. *)
Fixpoint min_from (cur : value) (l : list value) : result value :=
  match l with
  | [] => Ok cur
  | x :: l' =>
      let? b := py_lt x cur in
      min_from (if b then x else cur) l'
  end.

Definition py_min (l : list value) : result value :=
  match l with
  | [] => Err (ValueError "min() arg is an empty sequence")
  | x :: l' => min_from x l'
  end.

(** [max(l)]: the first largest element ([x > cur] is [cur < x]). *)
Fixpoint max_from (cur : value) (l : list value) : result value :=
  match l with
  | [] => Ok cur
  | x :: l' =>
      let? b := py_lt cur x in
      max_from (if b then x else cur) l'
  end.

Definition py_max (l : list value) : result value :=
  match l with
  | [] => Err (ValueError "max() arg is an empty sequence")
  | x :: l' => max_from x l'
  end.

(** [l[i]] for [0 <= i]. *)
Definition list_index (l : list value) (i : Z) : result value :=
  match nth_error l (Z.to_nat i) with
  | Some v => Ok v
  | None => Err IndexError
  end.

(** [d[k]] *)
Definition py_subscript (r : value) (k : string) : result value :=
  match r with
  | VDict d =>
      match assoc d k with
      | Some v => Ok v
      | None => Err (KeyError k)
      end
  | _ => Err TypeError
  end.

(** [d.get(k, default)] *)
Definition py_get (r : value) (k : string) (default : value) : result value :=
  match r with
  | VDict d =>
      Ok (match assoc d k with
          | Some v => v
          | None => default
          end)
  | _ => Err AttributeError
  end.

(** [a + b] with a list as [b], the one use the script makes of [+] on
    values: a list on the left is extended, anything else raises. *)
Definition py_add (a b : value) : result value :=
  match a, b with
  | VList l, VList m => Ok (VList (l ++ m))
  | _, _ => Err TypeError
  end.

(** Strings are UTF-8 byte strings; iterating one yields its code
    points, a lead byte with the continuation bytes that follow it. *)
Definition is_continuation (c : ascii) : bool :=
  let n := nat_of_ascii c in
  ((128 <=? n) && (n <? 192))%nat.

Fixpoint code_points (s : string) : list string :=
  match s with
  | EmptyString => []
  | String c s' =>
      let rest := code_points s' in
      match s' with
      | String c' _ =>
          if is_continuation c' then
            match rest with
            | cp :: rest' => String c cp :: rest'
            | [] => [String c EmptyString]
            end
          else String c EmptyString :: rest
      | EmptyString => String c EmptyString :: rest
      end
  end.

(** [len(v)] *)
Definition py_len (v : value) : result Z :=
  match v with
  | VList l => Ok (Z.of_nat (List.length l))
  | VDict d => Ok (Z.of_nat (List.length d))
  | VStr s => Ok (Z.of_nat (List.length (code_points s)))
  | _ => Err TypeError
  end.

(** The items a [for] loop over [v] visits. *)
Definition py_iter (v : value) : result (list value) :=
  match v with
  | VList l => Ok l
  | VDict d => Ok (map (fun kv => VStr (fst kv)) d)
  | VStr s => Ok (map VStr (code_points s))
  | _ => Err TypeError
  end.

(** [str(n)] and ["%0wd" % n]. *)
Definition str_of_int (n : Z) : string := NilZero.string_of_int (Z.to_int n).

Fixpoint zeros (k : nat) : string :=
  match k with
  | O => EmptyString
  | S k' => String "0" (zeros k')
  end.

Definition zero_pad (width : nat) (n : Z) : string :=
  let s := str_of_int n in
  String.append (zeros (width - String.length s)) s.

(** ** Dictionaries keyed by arbitrary hashable values

    The counters of the summary are built with the GPU name of a record
    as key, which is whatever value the record holds.  Insertion order is
    kept, and a key is found by hash and [py_same]. *)

Definition hashable (v : value) : bool :=
  match v with
  | VList _ | VDict _ => false
  | _ => true
  end.

Definition check_hashable (v : value) : result unit :=
  if hashable v then Ok tt else Err TypeError.

Definition kdict (A : Type) : Type := list (value * A).

Fixpoint kd_find {A} (d : kdict A) (k : value) : option A :=
  match d with
  | [] => None
  | (k', v) :: d' => if py_same k' k then Some v else kd_find d' k
  end.

Definition kd_get {A} (d : kdict A) (k : value) (default : A) : A :=
  match kd_find d k with
  | Some v => v
  | None => default
  end.

Definition kd_mem {A} (d : kdict A) (k : value) : bool :=
  match kd_find d k with
  | Some _ => true
  | None => false
  end.

(** [d[k] = v]: an existing key keeps its place and its first spelling. *)
Fixpoint kd_set {A} (d : kdict A) (k : value) (v : A) : kdict A :=
  match d with
  | [] => [(k, v)]
  | (k', w) :: d' =>
      if py_same k' k then (k', v) :: d' else (k', w) :: kd_set d' k v
  end.

(** ** Formatting

    [format(v, spec)] for the two kinds of format specification the
    script uses: a fixed number of decimals (['.2f']) and left
    alignment in a column (['<20']). *)

Fixpoint spaces (k : nat) : string :=
  match k with
  | O => EmptyString
  | S k' => String " " (spaces k')
  end.

(** [s.ljust(width)]: the length of a string counts code points. *)
Definition ljust (width : nat) (s : string) : string :=
  String.append s (spaces (width - List.length (code_points s))).

Definition sign_str (s : bool) : string := if s then "-" else "".

(** [format(x, '.<ndigits>f')] on a float: the exact value is rounded
    half-even to [ndigits] decimals; a negative number that rounds to
    zero keeps its sign. *)
Definition float_fixed (ndigits : nat) (x : float) : string :=
  match x with
  | S754_nan => "nan"
  | S754_infinity s => String.append (sign_str s) "inf"
  | S754_zero s =>
      String.append (sign_str s) (String.append "0." (zeros ndigits))
  | S754_finite s m e =>
      let p10 := 10 ^ Z.of_nat ndigits in
      let num := Zpos m * p10 in
      let n :=
        if 0 <=? e then num * 2 ^ e
        else round_half_even num (2 ^ (- e)) in
      String.append (sign_str s)
        (String.append (str_of_int (n / p10))
           (String.append "." (zero_pad ndigits (n mod p10))))
  end.

(** Positive fractions [(n, d)], compared exactly. *)
Definition qcompare (a b : Z * Z) : comparison :=
  (fst a * snd b) ?= (fst b * snd a).

(** [c * 2^e] and [c * 10^k] as fractions. *)
Definition scale2 (c e : Z) : Z * Z :=
  if 0 <=? e then (c * 2 ^ e, 1) else (c, 2 ^ (- e)).

Definition scale10 (c k : Z) : Z * Z :=
  if 0 <=? k then (c * 10 ^ k, 1) else (c, 10 ^ (- k)).

(** The decimals that read back as the double [m * 2^e]: those between
    the midpoints to its two neighbours, the midpoints included when
    [m] is even.  The neighbour below a power of two is half as far. *)
Definition reads_back (m : positive) (e : Z) (c : Z * Z) : bool :=
  let below :=
    if (Zpos m =? 2 ^ 52) && (-1074 <? e)
    then scale2 (4 * Zpos m - 1) (e - 2)
    else scale2 (4 * Zpos m - 2) (e - 2) in
  let above := scale2 (4 * Zpos m + 2) (e - 2) in
  let closed := Z.even (Zpos m) in
  match qcompare below c, qcompare c above with
  | Lt, Lt => true
  | Eq, (Lt | Eq) | Lt, Eq => closed
  | _, _ => false
  end.

(** The position of the decimal point of [x > 0]: the least [d] with
    [x < 10^d], searched upwards from an under-estimate made with the
    binary logarithms. *)
Fixpoint decimal_point_from (fuel : nat) (x : Z * Z) (d : Z) : Z :=
  match fuel with
  | O => d
  | S fuel' =>
      match qcompare x (scale10 1 d) with
      | Lt => d
      | _ => decimal_point_from fuel' x (d + 1)
      end
  end.

Definition decimal_point (x : Z * Z) : Z :=
  decimal_point_from 8 x
    ((Z.log2 (fst x) - Z.log2 (snd x) - 1) * 30103 / 100000 - 1).

(** Of the two [n]-digit decimals around [m * 2^e], the nearest that
    reads back, if there is one: its digits and its power of ten. *)
Definition candidate (m : positive) (e d n : Z) : option (Z * Z) :=
  let x := scale2 (Zpos m) e in
  let k := d - n in
  let xs := if 0 <=? k then (fst x, snd x * 10 ^ k)
            else (fst x * 10 ^ (- k), snd x) in
  let lo := fst xs / snd xs in
  let hi := lo + 1 in
  let ok_lo := reads_back m e (scale10 lo k) in
  let ok_hi := reads_back m e (scale10 hi k) in
  let nearest :=
    match 2 * (fst xs mod snd xs) ?= snd xs with
    | Lt => lo
    | Gt => hi
    | Eq => if Z.even lo then lo else hi
    end in
  if ok_lo && ok_hi then Some (nearest, k)
  else if ok_lo then Some (lo, k)
  else if ok_hi then Some (hi, k)
  else None.

(** The shortest digits that read back, the nearest to the double
    among those of that length; seventeen digits always do. *)
Fixpoint shortest_from (fuel : nat) (m : positive) (e d n : Z) : Z * Z :=
  match fuel with
  | O => (Zpos m, e)
  | S fuel' =>
      match candidate m e d n with
      | Some c => c
      | None => shortest_from fuel' m e d (n + 1)
      end
  end.

Fixpoint strip_zeros (fuel : nat) (c : Z * Z) : Z * Z :=
  match fuel with
  | O => c
  | S fuel' =>
      if (fst c mod 10 =? 0) && negb (fst c =? 0)
      then strip_zeros fuel' (fst c / 10, snd c + 1)
      else c
  end.

Definition shortest (m : positive) (e : Z) : Z * Z :=
  strip_zeros 17
    (shortest_from 17 m e (decimal_point (scale2 (Zpos m) e)) 1).

(** [repr(x)] of a float, which is also [str(x)]: the shortest digits
    that read back, in positional notation when the decimal point
    falls within them or up to four places before and sixteen places
    after their start, in exponent notation otherwise. *)
Definition float_repr (x : float) : string :=
  match x with
  | S754_nan => "nan"
  | S754_infinity s => String.append (sign_str s) "inf"
  | S754_zero s => String.append (sign_str s) "0.0"
  | S754_finite s m e =>
      let (D, k) := shortest m e in
      let digits := str_of_int D in
      let n := String.length digits in
      let decpt := k + Z.of_nat n in
      String.append (sign_str s)
        (if (decpt <=? -4) || (16 <? decpt) then
           let ex := decpt - 1 in
           String.append (String.substring 0 1 digits)
             (String.append
                (if (1 <? n)%nat
                 then String.append "." (String.substring 1 (n - 1) digits)
                 else "")
                (String.append "e"
                   (String.append (if ex <? 0 then "-" else "+")
                      (zero_pad 2 (Z.abs ex)))))
         else if decpt <=? 0 then
           String.append "0."
             (String.append (zeros (Z.to_nat (- decpt))) digits)
         else if decpt <? Z.of_nat n then
           String.append (String.substring 0 (Z.to_nat decpt) digits)
             (String.append "."
                (String.substring (Z.to_nat decpt) (n - Z.to_nat decpt)
                   digits))
         else
           String.append digits
             (String.append (zeros (Z.to_nat decpt - n)) ".0"))
  end.

(** [format(v, '<width')]: a string is padded as it is, a number in
    the text [str] gives it, a bool as the int it is; [None], lists and
    dictionaries take no format specification. *)
Definition format_left (width : nat) (v : value) : result string :=
  match v with
  | VStr s => Ok (ljust width s)
  | VInt n => Ok (ljust width (str_of_int n))
  | VBool b => Ok (ljust width (if b then "1" else "0"))
  | VFloat f => Ok (ljust width (float_repr f))
  | _ => Err TypeError
  end.

(** [format(v, '.<ndigits>f')]: an int is converted to a float first. *)
Definition format_fixed (ndigits : nat) (v : value) : result string :=
  match v with
  | VFloat f => Ok (float_fixed ndigits f)
  | VInt n =>
      let f := float_of_int n in
      if float_is_inf f then Err OverflowError
      else Ok (float_fixed ndigits f)
  | VBool b => Ok (float_fixed ndigits (float_of_int (if b then 1 else 0)))
  | VStr _ =>
      Err (ValueError "Unknown format code 'f' for object of type 'str'")
  | _ => Err TypeError
  end.

(** ** Sorting with a key

    [sorted(l, key=key, reverse=reverse)]: the keys are computed first,
    in the order of the list; the sort compares keys only and is
    stable.  A reversed sort keeps the order of elements with equal
    keys as well: the list is reversed, sorted and reversed again. *)

Fixpoint with_keys {A} (key : A -> result value) (l : list A)
  : result (list (value * A)) :=
  match l with
  | [] => Ok []
  | x :: l' =>
      let? k := key x in
      let? r := with_keys key l' in
      Ok ((k, x) :: r)
  end.

Fixpoint insert_keyed {A} (x : value * A) (l : list (value * A))
  : result (list (value * A)) :=
  match l with
  | [] => Ok [x]
  | y :: l' =>
      let? b := py_lt (fst x) (fst y) in
      if b then Ok (x :: y :: l')
      else let? r := insert_keyed x l' in Ok (y :: r)
  end.

Fixpoint sort_keyed_from {A} (acc l : list (value * A))
  : result (list (value * A)) :=
  match l with
  | [] => Ok acc
  | x :: l' => let? acc' := insert_keyed x acc in sort_keyed_from acc' l'
  end.

Definition sorted_by {A} (key : A -> result value) (reverse : bool)
  (l : list A) : result (list A) :=
  let? keyed := with_keys key l in
  let? s := sort_keyed_from [] (if reverse then rev keyed else keyed) in
  Ok (map snd (if reverse then rev s else s)).

End Py.

(* ================================================================== *)
(** * [datetime] *)
(* ================================================================== *)

Module DateTime.

Record datetime : Type := mk_datetime {
  year : Z;
  month : Z;
  day : Z;
  hour : Z;
  minute : Z;
  second : Z;
  microsecond : Z
}.

Definition is_leap (y : Z) : bool :=
  (y mod 4 =? 0) && (negb (y mod 100 =? 0) || (y mod 400 =? 0)).

Definition days_before_year (y : Z) : Z :=
  let y1 := y - 1 in
  y1 * 365 + y1 / 4 - y1 / 100 + y1 / 400.

Definition days_before_month (y m : Z) : Z :=
  nth (Z.to_nat m) [-1; 0; 31; 59; 90; 120; 151; 181; 212; 243; 273; 304; 334] 0
  + (if (2 <? m) && is_leap y then 1 else 0).

Definition toordinal (d : datetime) : Z :=
  days_before_year (year d) + days_before_month (year d) (month d) + day d.

(** [d.weekday()]: 0 is Monday, 6 is Sunday. *)
Definition weekday (d : datetime) : Z := (toordinal d + 6) mod 7.

(** [d.strftime("%Y-%m-%d")], for a four-digit year. *)
Definition strftime_date (d : datetime) : string :=
  String.append (Py.zero_pad 4 (year d))
    (String.append "-" (String.append (Py.zero_pad 2 (month d))
      (String.append "-" (Py.zero_pad 2 (day d))))).

(** [d.isoformat()] of a naive datetime: the microseconds are printed
    only when they are not zero. *)
Definition isoformat (d : datetime) : string :=
  String.append (strftime_date d)
    (String.append "T" (String.append (Py.zero_pad 2 (hour d))
      (String.append ":" (String.append (Py.zero_pad 2 (minute d))
        (String.append ":" (String.append (Py.zero_pad 2 (second d))
          (if microsecond d =? 0 then EmptyString
           else String.append "." (Py.zero_pad 6 (microsecond d))))))))).

End DateTime.

(* ================================================================== *)
(** * The script *)
(* ================================================================== *)

Module CollectData.
Import Py DateTime.
Local Open Scope result_scope.

(** ** The outside world *)

(** A [requests.Response]: [json] is what [response.json()] does, the
    decoded body or the exception it raises. *)
Record response : Type := mk_response {
  status_code : Z;
  text : string;
  json : result value
}.

Record request : Type := mk_request {
  url : string;
  headers : list (string * string);
  payload : value
}.

(** The [json] module on files: [json.dump(v, f, indent=i)] writes a
    document, [json.load(f)] decodes one or raises. *)
Class JsonText (doc : Type) : Type := {
  json_dump : value -> Z -> doc;
  json_load : doc -> result value
}.

Inductive node (doc : Type) : Type :=
| File (content : doc)
| Dir.
Arguments File {doc} content.
Arguments Dir {doc}.

Section Script.

Context {doc : Type} {codec : JsonText doc}.

Record world : Type := mk_world {
  environ : string -> option string;  (* os.environ *)
  server : nat -> result response;    (* outcome of the n-th POST *)
  sent : list request;                (* the POSTs made so far *)
  clock : nat -> datetime;            (* the n-th reading of the clock *)
  ticks : nat;                        (* clock readings made so far *)
  fs : string -> option (node doc)   (* paths relative to the cwd *)
}.

(** State and exceptions: a raise keeps the effects made before it. *)
Definition M (A : Type) : Type := world -> result A * world.

Definition ret {A} (a : A) : M A := fun w => (Ok a, w).

Definition raise {A} (e : exn) : M A := fun w => (Err e, w).

Definition bind {A B} (m : M A) (k : A -> M B) : M B :=
  fun w =>
    match m w with
    | (Ok a, w') => k a w'
    | (Err e, w') => (Err e, w')
    end.

Definition lift {A} (r : result A) : M A := fun w => (r, w).

(** [try: m except Exception as e: h e] *)
Definition try_except {A} (m : M A) (h : exn -> M A) : M A :=
  fun w =>
    match m w with
    | (Ok a, w') => (Ok a, w')
    | (Err e, w') => h e w'
    end.

Notation "'do' x <- m ; k" := (bind m (fun x => k))
  (at level 10, x name, m at level 100, k at level 200).

(** ** Configuration *)

Definition VAST_API_URL : string := "https://console.vast.ai/api/v0/bundles/".
Definition DATA_DIR : string := "data".
Definition DATA_FILE : string := "data/vast_historical_data.json".

(** ** Primitive effects *)

Definition environ_get (name : string) : M (option string) :=
  fun w => (Ok (environ w name), w).

(** [requests.post(url, headers=..., json=...)] *)
Definition requests_post (u : string) (h : list (string * string))
  (p : value) : M response :=
  fun w =>
    (server w (List.length (sent w)),
     mk_world (environ w) (server w) (sent w ++ [mk_request u h p])
       (clock w) (ticks w) (fs w)).

(** [datetime.now()] *)
Definition datetime_now : M datetime :=
  fun w =>
    (Ok (clock w (ticks w)),
     mk_world (environ w) (server w) (sent w) (clock w) (S (ticks w)) (fs w)).

Definition set_fs (w : world) (f : string -> option (node doc)) : world :=
  mk_world (environ w) (server w) (sent w) (clock w) (ticks w) f.

Definition fs_update (f : string -> option (node doc)) (p : string)
  (n : node doc) : string -> option (node doc) :=
  fun q => if String.eqb q p then Some n else f q.

(** What [DATA_FILE] resolves to: nothing unless [DATA_DIR] is a
    directory. *)
Definition data_file_node (w : world) : option (node doc) :=
  match fs w DATA_DIR with
  | Some Dir => fs w DATA_FILE
  | _ => None
  end.

(** [DATA_FILE.exists()] *)
Definition data_file_exists : M bool :=
  fun w =>
    (Ok (match data_file_node w with Some _ => true | None => false end), w).

(** [open(DATA_FILE, 'r')] followed by reading the text. *)
Definition read_data_file : M doc :=
  fun w =>
    match fs w DATA_DIR with
    | Some Dir =>
        match fs w DATA_FILE with
        | Some (File c) => (Ok c, w)
        | Some Dir => (Err IsADirectoryError, w)
        | None => (Err FileNotFoundError, w)
        end
    | Some (File _) => (Err NotADirectoryError, w)
    | None => (Err FileNotFoundError, w)
    end.

(** [DATA_DIR.mkdir(exist_ok=True)] *)
Definition mkdir_data_dir : M unit :=
  fun w =>
    match fs w DATA_DIR with
    | None => (Ok tt, set_fs w (fs_update (fs w) DATA_DIR Dir))
    | Some Dir => (Ok tt, w)
    | Some (File _) => (Err FileExistsError, w)
    end.

(** [open(DATA_FILE, 'w')] followed by writing the text [c]. *)
Definition write_data_file (c : doc) : M unit :=
  fun w =>
    match fs w DATA_DIR with
    | Some Dir =>
        match fs w DATA_FILE with
        | Some Dir => (Err IsADirectoryError, w)
        | _ => (Ok tt, set_fs w (fs_update (fs w) DATA_FILE (File c)))
        end
    | Some (File _) => (Err NotADirectoryError, w)
    | None => (Err FileNotFoundError, w)
    end.

(** ** Data collection functions *)

Definition nl : string := String (ascii_of_nat 10) EmptyString.

Definition api_key_missing : string :=
  String.append "VAST_API_KEY not found!" (String.append nl
    (String.append "Set it with: export VAST_API_KEY='your-api-key'"
      (String.append nl
        "Get your key from: https://cloud.vast.ai/account/"))).

Definition get_api_key : M string :=
  do api_key <- environ_get "VAST_API_KEY";
  match api_key with
  | Some k =>
      if String.eqb k "" then raise (ValueError api_key_missing) else ret k
  | None => raise (ValueError api_key_missing)
  end.

Definition fetch_headers (api_key : string) : list (string * string) :=
  [("Accept", "application/json");
   ("Content-Type", "application/json");
   ("Authorization", String.append "Bearer " api_key)].

Definition fetch_payload : value :=
  VDict [("limit", VInt 2000);
         ("verified", VDict [("eq", VBool true)]);
         ("rentable", VDict [("eq", VBool true)]);
         ("order", VList [VList [VStr "dph_total"; VStr "asc"]])].

Definition api_error_message (r : response) : string :=
  String.append "API Error: "
    (String.append (str_of_int (status_code r))
      (String.append " - " (text r))).

Definition fetch_vast_offers (api_key : string) : M value :=
  do r <- requests_post VAST_API_URL (fetch_headers api_key) fetch_payload;
  if negb (status_code r =? 200) then
    raise (Exception (api_error_message r))
  else
    do data <- lift (json r);
    do offers <- lift (py_get data "offers" (VList []));
    do _ <- lift (py_len offers);  (* printed: the number of offers *)
    ret offers.

(** [offer.get(k)] on the entries of an offer. *)
Definition get (d : list (string * value)) (k : string) : value :=
  match assoc d k with
  | Some v => v
  | None => VNone
  end.

(** [offer.get(k, default)] *)
Definition get_or (d : list (string * value)) (k : string)
  (default : value) : value :=
  match assoc d k with
  | Some v => v
  | None => default
  end.

(** The body of [process_offer] once [now] is read. *)
Definition process_offer_at (now : datetime) (offer : value) : result value :=
  match offer with
  | VDict o =>
      Ok (VDict [
        (* Timestamp *)
        ("timestamp", VStr (isoformat now));
        ("date", VStr (strftime_date now));
        ("hour", VInt (hour now));
        ("day_of_week", VInt (weekday now));
        ("is_weekend", VBool (5 <=? weekday now));
        (* GPU Information *)
        ("gpu_name", get o "gpu_name");
        ("num_gpus", get o "num_gpus");
        ("gpu_ram", get o "gpu_ram");
        ("gpu_total_ram", get o "gpu_totalram");
        ("total_flops", get o "total_flops");
        ("dlperf", get o "dlperf");
        ("dlperf_per_dphtotal", get o "dlperf_per_dphtotal");
        (* Host Information *)
        ("machine_id", get o "machine_id");
        ("host_id", get o "host_id");
        ("reliability", get_or o "reliability2" (get o "reliability"));
        ("geolocation", get o "geolocation");
        ("datacenter", get_or o "datacenter" (VBool false));
        ("verified", get_or o "verified" (VBool false));
        (* Network *)
        ("inet_down", get o "inet_down");
        ("inet_up", get o "inet_up");
        ("static_ip", get_or o "static_ip" (VBool false));
        ("direct_port_count", get o "direct_port_count");
        (* CPU & Storage *)
        ("cpu_cores", get o "cpu_cores");
        ("cpu_ghz", get o "cpu_ghz");
        ("cpu_name", get o "cpu_name");
        ("disk_space", get o "disk_space");
        ("disk_bw", get o "disk_bw");
        (* Pricing *)
        ("dph_total", get o "dph_total");
        ("dph_base", get o "dph_base");
        ("storage_cost", get o "storage_cost");
        ("inet_up_cost", get o "inet_up_cost");
        ("inet_down_cost", get o "inet_down_cost");
        (* Rental Status *)
        ("rented", get_or o "rented" (VBool false));
        ("num_renting", get_or o "num_renting" (VInt 0));
        (* Duration *)
        ("duration", get o "duration");
        ("min_bid", get o "min_bid");
        (* Other *)
        ("cuda_max_good", get o "cuda_max_good");
        ("compute_cap", get o "compute_cap");
        ("pci_gen", get o "pci_gen");
        ("pcie_bw", get o "pcie_bw")
      ])
  | _ => Err AttributeError
  end.

Definition process_offer (offer : value) : M value :=
  do now <- datetime_now;
  lift (process_offer_at now offer).

(** The loop of [collect_data]: an offer whose projection raises is
    skipped. *)
Fixpoint process_offers (offers : list value) (records : list value)
  : M (list value) :=
  match offers with
  | [] => ret records
  | offer :: rest =>
      do records' <-
        try_except
          (do record <- process_offer offer; ret (records ++ [record]))
          (fun _ => ret records);
      process_offers rest records'
  end.

Definition collect_data : M value :=
  do api_key <- get_api_key;
  do offers <- fetch_vast_offers api_key;
  do items <- lift (py_iter offers);
  do records <- process_offers items [];
  ret (VList records).

Definition load_existing_data : M value :=
  do present <- data_file_exists;
  if present then
    do c <- read_data_file;
    lift (json_load c)
  else ret (VList []).

Definition save_data (records : value) : M unit :=
  do _ <- mkdir_data_dir;
  do _ <- write_data_file (json_dump records 2);
  do _ <- lift (py_len records);  (* printed: the number of records *)
  ret tt.

End Script.

Arguments world doc : clear implicits.
Arguments M doc A : clear implicits.

(** ** Summary statistics *)

(** The three dictionaries the first loop of [get_summary_stats] fills. *)
Record counters : Type := mk_counters {
  gpu_counts : kdict Z;
  rented_counts : kdict Z;
  price_by_gpu : kdict (list value)
}.

(** [[r for r in records if r["timestamp"] == latest_timestamp]] *)
Fixpoint latest_batch (latest_timestamp : value) (records : list value)
  : result (list value) :=
  match records with
  | [] => Ok []
  | r :: rest =>
      let? t := py_subscript r "timestamp" in
      let? batch := latest_batch latest_timestamp rest in
      Ok (if py_eqb t latest_timestamp then r :: batch else batch)
  end.

(** The body of the loop over the latest batch. *)
Definition count_record (st : counters) (r : value) : result counters :=
  let? gpu := py_get r "gpu_name" (VStr "Unknown") in
  let? _ := check_hashable gpu in
  let gc := kd_set (gpu_counts st) gpu (kd_get (gpu_counts st) gpu 0 + 1) in
  let? rented := py_get r "rented" VNone in
  let rc :=
    if truthy rented then
      kd_set (rented_counts st) gpu (kd_get (rented_counts st) gpu 0 + 1)
    else rented_counts st in
  let pb :=
    if kd_mem (price_by_gpu st) gpu then price_by_gpu st
    else kd_set (price_by_gpu st) gpu [] in
  let? price := py_get r "dph_total" VNone in
  let? pb' :=
    if truthy price then
      let? p := py_subscript r "dph_total" in
      Ok (kd_set pb gpu (kd_get pb gpu [] ++ [p]))
    else Ok pb in
  Ok (mk_counters gc rc pb').

Fixpoint count_records (st : counters) (batch : list value)
  : result counters :=
  match batch with
  | [] => Ok st
  | r :: rest =>
      let? st' := count_record st r in
      count_records st' rest
  end.

(** [round(rented / total * 100, 1) if total > 0 else 0] *)
Definition rental_rate (rented total : Z) : result value :=
  if 0 <? total then
    let? q := int_truediv rented total in
    py_round (VFloat (float_mul q (float_of_int 100))) 1
  else Ok (VInt 0).

(** [round(min(prices), 3) if prices else None] *)
Definition price_min (prices : list value) : result value :=
  match prices with
  | [] => Ok VNone
  | _ => let? p := py_min prices in py_round p 3
  end.

(** [round(prices[len(prices)//2], 3) if prices else None] *)
Definition price_median (prices : list value) : result value :=
  match prices with
  | [] => Ok VNone
  | _ =>
      let? p := list_index prices (Z.of_nat (List.length prices) / 2) in
      py_round p 3
  end.

(** [round(max(prices), 3) if prices else None] *)
Definition price_max (prices : list value) : result value :=
  match prices with
  | [] => Ok VNone
  | _ => let? p := py_max prices in py_round p 3
  end.

(** The dictionary stored under one GPU name; [prices] is sorted. *)
Definition stats_entry (total rented : Z) (prices : list value)
  : result value :=
  let? rate := rental_rate rented total in
  let? pmin := price_min prices in
  let? pmed := price_median prices in
  let? pmax := price_max prices in
  Ok (VDict [("total", VInt total);
             ("rented", VInt rented);
             ("available", VInt (total - rented));
             ("rental_rate", rate);
             ("price_min", pmin);
             ("price_median", pmed);
             ("price_max", pmax)]).

(** [gpu_counts[gpu]] *)
Definition kd_subscript {A} (d : kdict A) (k : value) : result A :=
  match kd_find d k with
  | Some v => Ok v
  | None => Err (KeyError "")
  end.

(** The loop over the keys of [gpu_counts]. *)
Fixpoint build_stats (st : counters) (gpus : list value)
  (stats : kdict value) : result (kdict value) :=
  match gpus with
  | [] => Ok stats
  | gpu :: rest =>
      let rented := kd_get (rented_counts st) gpu 0 in
      let? total := kd_subscript (gpu_counts st) gpu in
      let? prices := sorted (kd_get (price_by_gpu st) gpu []) in
      let? entry := stats_entry total rented prices in
      build_stats st rest (kd_set stats gpu entry)
  end.

Definition get_summary_stats (records : list value) : result (kdict value) :=
  match records with
  | [] => Ok []
  | _ =>
      let? latest_timestamp := py_subscript (last records VNone) "timestamp" in
      let? batch := latest_batch latest_timestamp records in
      let? st := count_records (mk_counters [] [] []) batch in
      build_stats st (map fst (gpu_counts st)) []
  end.

(** ** Printing the summary

    What [print_summary] prints, one string per call of [print], and
    how it ends: a row that cannot be formatted raises after the rows
    before it have been printed. *)

Fixpoint repeat_string (s : string) (k : nat) : string :=
  match k with
  | O => EmptyString
  | S k' => String.append s (repeat_string s k')
  end.

Definition summary_title : string := "📊 DATA COLLECTION SUMMARY".

Definition summary_columns : string :=
  String.append (ljust 20 "GPU") (String.append " "
    (String.append (ljust 8 "Total") (String.append " "
      (String.append (ljust 8 "Rented") (String.append " "
        (String.append (ljust 8 "Rate") (String.append " "
          (ljust 20 "Price Range")))))))).

Definition summary_header : list string :=
  [String.append nl (repeat_string "=" 70);
   summary_title;
   repeat_string "=" 70;
   summary_columns;
   repeat_string "-" 70].

(** The sort key [lambda x: x[1]['total']]. *)
Definition total_of (item : value * value) : result value :=
  py_subscript (snd item) "total".

(** [f"${data['price_min']:.2f} - ${data['price_max']:.2f}"
    if data['price_min'] else "N/A"] *)
Definition price_range (data : value) : result string :=
  let? shown := py_subscript data "price_min" in
  if truthy shown then
    let? pmin := py_subscript data "price_min" in
    let? lo := format_fixed 2 pmin in
    let? pmax := py_subscript data "price_max" in
    let? hi := format_fixed 2 pmax in
    Ok (String.append "$" (String.append lo
          (String.append " - $" hi)))
  else Ok "N/A".

(** The row of one GPU. *)
Definition summary_row (gpu data : value) : result string :=
  let? range := price_range data in
  let? c1 := format_left 20 gpu in
  let? total := py_subscript data "total" in
  let? c2 := format_left 8 total in
  let? rented := py_subscript data "rented" in
  let? c3 := format_left 8 rented in
  let? rate := py_subscript data "rental_rate" in
  let? c4 := format_left 7 rate in
  Ok (String.append c1 (String.append " "
        (String.append c2 (String.append " "
          (String.append c3 (String.append " "
            (String.append c4 (String.append "% "
              (ljust 20 range))))))))).

(** The loop over [sorted_gpus]: the rows printed and how it ends. *)
Fixpoint print_rows (rows : list (value * value))
  : list string * result unit :=
  match rows with
  | [] => ([], Ok tt)
  | (gpu, data) :: rest =>
      match summary_row gpu data with
      | Ok line =>
          let (out, r) := print_rows rest in (line :: out, r)
      | Err e => ([], Err e)
      end
  end.

Definition print_summary (stats : kdict value)
  : list string * result unit :=
  match sorted_by total_of true stats with
  | Err e => (summary_header, Err e)
  | Ok by_total =>
      let sorted_gpus := firstn 15 by_total in
      match print_rows sorted_gpus with
      | (rows, Ok _) =>
          (summary_header ++ rows ++ [repeat_string "=" 70], Ok tt)
      | (rows, Err e) => (summary_header ++ rows, Err e)
      end
  end.

(** ** Main *)

Section Main.

Context {doc : Type} {codec : JsonText doc}.

(** [print_summary] only formats and prints; it touches neither the
    records nor the file, and is kept abstract: it returns or raises. *)
Variable print_summary : kdict value -> result unit.

Notation "'do' x <- m ; k" := (bind m (fun x => k))
  (at level 10, x name, m at level 100, k at level 200).

Definition main_body : M doc unit :=
  do new_records <- collect_data;
  if negb (truthy new_records) then ret tt
  else
    do existing_data <- load_existing_data;
    do _ <- lift (py_len existing_data);  (* printed: existing records *)
    do all_records <- lift (py_add existing_data new_records);
    do _ <- save_data all_records;
    do stats <- lift (match all_records with
                      | VList l => get_summary_stats l
                      | _ => Err TypeError
                      end);
    do _ <- lift (print_summary stats);
    do _ <- lift (py_len all_records);  (* printed: total records *)
    ret tt.

(** The banner reads the clock before anything is tried; then
    [except ValueError] swallows the error and [except Exception]
    re-raises it. *)
Definition main : M doc unit :=
  do _ <- datetime_now;
  try_except main_body
    (fun e => if is_ValueError e then ret tt else raise e).

End Main.

End CollectData.

(* ================================================================== *)
(** * Specification vocabulary *)
(* ================================================================== *)

Module Spec.
Import Py DateTime CollectData.

(** ** Well-formed values

    A value is well formed when it is the image of a JSON document: the
    keys of every dictionary are pairwise distinct and every float is a
    valid binary64. *)

Fixpoint distinct (ks : list string) : bool :=
  match ks with
  | [] => true
  | k :: ks' => negb (existsb (String.eqb k) ks') && distinct ks'
  end.

Fixpoint wf_value (v : value) : bool :=
  match v with
  | VFloat f => valid_binary prec emax f
  | VList l => forallb wf_value l
  | VDict d =>
      distinct (map fst d) &&
      forallb (fun kv => match kv with (_, x) => wf_value x end) d
  | _ => true
  end.

(** ** Numbers and their order *)

(** The exact number a numeric value stands for. *)
Definition to_num (v : value) : num :=
  match num_of_value v with
  | Some x => x
  | None => NNan
  end.

(** Numbers, the values prices take. *)
Definition is_number (v : value) : bool :=
  match v with
  | VInt _ | VFloat _ | VBool _ => true
  | _ => false
  end.

Definition numbers (l : list value) : Prop :=
  Forall (fun v => is_number v = true) l.

(** [a <= b] in the sense [sorted] establishes: not [b < a]. *)
Definition ascending_pair (a b : value) : Prop := py_lt b a = Ok false.

Inductive ascending : list value -> Prop :=
| ascending_nil : ascending []
| ascending_one : forall a, ascending [a]
| ascending_cons : forall a b l,
    ascending_pair a b -> ascending (b :: l) -> ascending (a :: b :: l).

(** ** Categories of the latest batch

    The reporter groups the records of a batch by the value found under
    ["gpu_name"]; these functions name the records and prices of one
    group without going through the counters of the implementation. *)

Definition gpu_of (r : value) : value :=
  match r with
  | VDict d => get_or d "gpu_name" (VStr "Unknown")
  | _ => VNone
  end.

Definition field (r : value) (k : string) : value :=
  match r with
  | VDict d => get d k
  | _ => VNone
  end.

Definition in_category (g r : value) : bool := py_same (gpu_of r) g.

(** The records of category [g]. *)
Definition category (g : value) (batch : list value) : list value :=
  filter (in_category g) batch.

(** The records of category [g] whose ["rented"] is true. *)
Definition category_rented (g : value) (batch : list value) : list value :=
  filter (fun r => truthy (field r "rented")) (category g batch).

(** The prices of category [g] that [bool()] takes as true, in batch
    order: neither [None] nor a zero. *)
Definition category_prices (g : value) (batch : list value) : list value :=
  map (fun r => field r "dph_total")
    (filter (fun r => truthy (field r "dph_total")) (category g batch)).

(** The prices of category [g] that are not [None], in batch order. *)
Definition category_nonnull_prices (g : value) (batch : list value)
  : list value :=
  map (fun r => field r "dph_total")
    (filter (fun r => match field r "dph_total" with
                      | VNone => false
                      | _ => true
                      end) (category g batch)).

(** The records that carry the timestamp [ts]. *)
Definition with_timestamp (ts : value) (records : list value) : list value :=
  filter (fun r => py_eqb (field r "timestamp") ts) records.

(** A record the reporter can summarise: a dictionary with a
    timestamp, whose GPU name is hashable and whose price, when [bool()]
    takes it as true, is a number. *)
Definition reportable (r : value) : bool :=
  match r with
  | VDict d =>
      match assoc d "timestamp" with Some _ => true | None => false end
      && hashable (gpu_of r)
      && (negb (truthy (field r "dph_total"))
          || is_number (field r "dph_total"))
  | _ => false
  end.

Definition all_reportable (l : list value) : Prop :=
  Forall (fun r => reportable r = true) l.

(** ** Dictionaries keyed by values *)

(** The representation invariant of a dictionary keyed by values. *)
Definition keys_hashable {A} (d : kdict A) : Prop :=
  Forall (fun kv => hashable (fst kv) = true) d.

(** No two keys of the dictionary are the same key. *)
Fixpoint kd_distinct {A} (d : kdict A) : Prop :=
  match d with
  | [] => True
  | (k, _) :: d' => kd_find d' k = None /\ kd_distinct d'
  end.

Definition counters_hashable (st : counters) : Prop :=
  keys_hashable (gpu_counts st) /\ keys_hashable (rented_counts st) /\
  keys_hashable (price_by_gpu st).

(** ** Projection policy

    The output fields that copy one input field and are [None] when it
    is absent, as (output name, input name). *)
Definition copied_fields : list (string * string) :=
  [("gpu_name", "gpu_name"); ("num_gpus", "num_gpus"); ("gpu_ram", "gpu_ram");
   ("gpu_total_ram", "gpu_totalram"); ("total_flops", "total_flops");
   ("dlperf", "dlperf"); ("dlperf_per_dphtotal", "dlperf_per_dphtotal");
   ("machine_id", "machine_id"); ("host_id", "host_id");
   ("geolocation", "geolocation"); ("inet_down", "inet_down");
   ("inet_up", "inet_up"); ("direct_port_count", "direct_port_count");
   ("cpu_cores", "cpu_cores"); ("cpu_ghz", "cpu_ghz");
   ("cpu_name", "cpu_name"); ("disk_space", "disk_space");
   ("disk_bw", "disk_bw"); ("dph_total", "dph_total");
   ("dph_base", "dph_base"); ("storage_cost", "storage_cost");
   ("inet_up_cost", "inet_up_cost"); ("inet_down_cost", "inet_down_cost");
   ("duration", "duration"); ("min_bid", "min_bid");
   ("cuda_max_good", "cuda_max_good"); ("compute_cap", "compute_cap");
   ("pci_gen", "pci_gen"); ("pcie_bw", "pcie_bw")].

(** The boolean flags, [False] when absent. *)
Definition flag_fields : list string :=
  ["datacenter"; "verified"; "static_ip"; "rented"].

(** The records the loop of [collect_data] builds from [offers] when
    the clock has been read [n] times: the clock is read once per offer,
    also for an offer whose projection raises and is skipped. *)
Fixpoint project_from (clock : nat -> datetime) (n : nat)
  (offers : list value) : list value :=
  match offers with
  | [] => []
  | offer :: rest =>
      match process_offer_at (clock n) offer with
      | Ok record => record :: project_from clock (S n) rest
      | Err _ => project_from clock (S n) rest
      end
  end.

(** ** The store

    [save_data] can write when ["data"] is not a regular file and the
    dataset path is not a directory. *)
Definition storable {doc} (w : world doc) : Prop :=
  (forall c, fs w DATA_DIR <> Some (File c)) /\ fs w DATA_FILE <> Some Dir.

(** A computation that leaves the file system as it found it. *)
Definition keeps_fs {doc A} (m : M doc A) : Prop :=
  forall w, fs (snd (m w)) = fs w.

(** ** Offers and runs *)

Definition is_dict (v : value) : bool :=
  match v with
  | VDict _ => true
  | _ => false
  end.

(** The keys of an offer that [process_offer] reads. *)
Definition input_fields : list string :=
  ["reliability2"; "reliability"; "num_renting"] ++ flag_fields ++
  map snd copied_fields.

(** The request [fetch_vast_offers] sends. *)
Definition request_of (api_key : string) : request :=
  mk_request VAST_API_URL (fetch_headers api_key) fetch_payload.

(** The world once one request has been sent and the clock has been
    read [n] more times. *)
Definition after_request {doc} (w : world doc) (api_key : string) (n : nat)
  : world doc :=
  mk_world (environ w) (server w) (sent w ++ [request_of api_key])
    (clock w) (ticks w + n) (fs w).

(** How [main] ends when its body raises [e]: [except ValueError]
    prints and returns, [except Exception] prints and raises again. *)
Definition outcome_of (e : exn) : result unit :=
  if is_ValueError e then Ok tt else Err e.

(** ** Entries of the summary *)

(** The count an entry holds under ["total"]. *)
Definition entry_total (entry : value) : Z :=
  match field entry "total" with
  | VInt n => n
  | _ => 0
  end.

Definition sum_totals (stats : kdict value) : Z :=
  fold_right (fun kv acc => entry_total (snd kv) + acc) 0 stats.

(** An entry whose ["total"] is an int, as the reporter builds them. *)
Definition counted (item : value * value) : Prop :=
  total_of item = Ok (VInt (entry_total (snd item))).

(** A number that is not a NaN. *)
Definition ordered_number (v : value) : bool :=
  match v with
  | VFloat S754_nan => false
  | VInt _ | VFloat _ | VBool _ => true
  | _ => false
  end.

(** A price ['.2f'] can format when it is a number: an int has to be
    in the range of the floats. *)
Definition printable_price (v : value) : bool :=
  match v with
  | VInt n => negb (float_is_inf (float_of_int n))
  | _ => true
  end.

(** A record that holds a timestamp. *)
Definition has_timestamp (r : value) : bool :=
  match r with
  | VDict d =>
      match assoc d "timestamp" with
      | Some _ => true
      | None => false
      end
  | _ => false
  end.

(** The keys of an entry of the summary, in the order they are set. *)
Definition entry_keys : list string :=
  ["total"; "rented"; "available"; "rental_rate"; "price_min";
   "price_median"; "price_max"].

(** ** Order by an integer key *)

Definition key_ascending {A} (k : A -> Z) (a b : A) : Prop := k a <= k b.

Definition key_descending {A} (k : A -> Z) (a b : A) : Prop := k b <= k a.

(** An element with the key the sort gives it. *)
Definition with_int_key {A} (k : A -> Z) (x : A) : value * A :=
  (VInt (k x), x).

Definition has_int_key {A} (k : A -> Z) (n : Z) (x : A) : bool := k x =? n.

(** ** Reference arithmetic

    What rounding means, said with exact integers and the IEEE
    operations of the Standard Library, not with the definitions of
    [Py]. *)

Definition exact_int (n : Z) : spec_float :=
  match n with
  | Z0 => S754_zero false
  | Zpos p => S754_finite false p 0
  | Zneg p => S754_finite true p 0
  end.

(** The double nearest to [n / d]. *)
Definition nearest_double (n : Z) (d : positive) : spec_float :=
  SFdiv 53 1024 (exact_int n) (S754_finite false d 0).

(** The double 100.0, and [x * 100.0]. *)
Definition hundred : spec_float := S754_finite false 7036874417766400 (-46).

Definition times_hundred (x : spec_float) : spec_float :=
  SFmul 53 1024 x hundred.

(** [N] is the integer nearest to [n / d], the even one when two
    integers are equally near. *)
Definition nearest_even (n d N : Z) : Prop :=
  2 * Z.abs (n - N * d) < d \/
  (2 * Z.abs (n - N * d) = d /\ Z.even N = true).

(** [r] is [x] rounded to [ndigits] decimals: the double nearest to
    [N / 10^ndigits], where [N] is the integer nearest to the exact
    value of [|x| * 10^ndigits], with the sign of [x]; zeros,
    infinities and NaN are left as they are. *)
Definition rounded_to (ndigits : Z) (x r : spec_float) : Prop :=
  match x with
  | S754_finite s m e =>
      exists N : Z,
        0 <= N /\
        (if 0 <=? e
         then nearest_even (Zpos m * 2 ^ e * 10 ^ ndigits) 1 N
         else nearest_even (Zpos m * 10 ^ ndigits) (2 ^ (- e)) N) /\
        r = (if N =? 0 then S754_zero s
             else nearest_double (cond_Zopp s N) (Z.to_pos (10 ^ ndigits)))
  | _ => r = x
  end.

End Spec.

(* ================================================================== *)
(** * Concrete worlds and inputs *)
(* ================================================================== *)

Module Examples.
Import Py DateTime CollectData Spec.

(** A codec that keeps the document a text denotes: dumping stores the
    value, loading returns it. *)
#[export] Instance value_codec : JsonText value := {|
  json_dump := fun v _ => v;
  json_load := fun v => Ok v
|}.

Definition key_env (name : string) : option string :=
  if String.eqb name "VAST_API_KEY" then Some "secret" else None.

(** A clock that advances one microsecond per reading, from
    2026-11-04 07:05:09. *)
Definition ticking_clock (n : nat) : datetime :=
  mk_datetime 2026 11 4 7 5 9 (Z.of_nat n).

Definition empty_fs : string -> option (node value) := fun _ => None.

Definition respond (r : response) : nat -> result response := fun _ => Ok r.

Definition a_record (ts : string) (gpu : string) (price : value)
  (rented : bool) : value :=
  VDict [("timestamp", VStr ts); ("gpu_name", VStr gpu);
         ("dph_total", price); ("rented", VBool rented)].

(** Four records of one category, priced 10, 20, 30 and 40. *)
Definition four_prices : list value :=
  [a_record "t" "RTX 4090" (VInt 10) false;
   a_record "t" "RTX 4090" (VInt 20) false;
   a_record "t" "RTX 4090" (VInt 30) true;
   a_record "t" "RTX 4090" (VInt 40) false].

(** Two records of one category, one of them priced 0. *)
Definition free_and_paid : list value :=
  [a_record "t" "RTX 3090" (VInt 0) false;
   a_record "t" "RTX 3090" (VInt 5) false].

(** A response of status 200 whose body is not JSON. *)
Definition html_response : response :=
  mk_response 200 "<html>Bad Gateway</html>" (Err JSONDecodeError).

Definition html_world : world value :=
  mk_world key_env (respond html_response) [] ticking_clock 0 empty_fs.

(** A response of status 503. *)
Definition unavailable_response : response :=
  mk_response 503 "Service Unavailable" (Err JSONDecodeError).

Definition unavailable_world : world value :=
  mk_world key_env (respond unavailable_response) [] ticking_clock 0 empty_fs.

Definition an_offer_entries : list (string * value) :=
  [("gpu_name", VStr "RTX 4090"); ("dph_total", VInt 1);
   ("reliability", VInt 1)].

Definition an_offer : value := VDict an_offer_entries.

Definition rtx4090 : value := VStr "RTX 4090".
Definition rtx3090 : value := VStr "RTX 3090".

(** A response carrying twice the same offer. *)
Definition two_offers_response : response :=
  mk_response 200 "" (Ok (VDict [("offers", VList [an_offer; an_offer])])).

Definition two_offers_world : world value :=
  mk_world key_env (respond two_offers_response) [] ticking_clock 0 empty_fs.

(** A file system holding a dataset of one earlier record. *)
Definition old_dataset : list value :=
  [a_record "2026-11-03T07:00:00" "RTX 3090" (VInt 2) true].

Definition one_record_fs : string -> option (node value) :=
  fs_update (fs_update empty_fs DATA_DIR Dir) DATA_FILE
    (File (VList old_dataset)).

Definition appending_world : world value :=
  mk_world key_env (respond two_offers_response) [] ticking_clock 0
    one_record_fs.

Definition quiet_summary : kdict value -> result unit := fun _ => Ok tt.

(** The records [main] collects in [appending_world], after its banner
    has read the clock. *)
Definition two_records : list value :=
  Eval cbv in
    match fst (collect_data (snd (datetime_now appending_world))) with
    | Ok (VList l) => l
    | _ => []
    end.

(** The summaries of [four_prices] and of [free_and_paid]. *)
Definition four_prices_entry : value :=
  VDict [("total", VInt 4); ("rented", VInt 1); ("available", VInt 3);
         ("rental_rate", VFloat (float_of_int 25));
         ("price_min", VInt 10); ("price_median", VInt 30);
         ("price_max", VInt 40)].

Definition free_and_paid_entry : value :=
  VDict [("total", VInt 2); ("rented", VInt 0); ("available", VInt 2);
         ("rental_rate", VFloat (S754_zero false));
         ("price_min", VInt 5); ("price_median", VInt 5);
         ("price_max", VInt 5)].

(** The timestamps of a list of records. *)
Definition timestamps_of (records : value) : list value :=
  match records with
  | VList l => map (fun r => field r "timestamp") l
  | _ => []
  end.

(** [get_summary_stats(records)[gpu][k]] *)
Definition reported (records : list value) (gpu : value) (k : string)
  : result value :=
  rbind (get_summary_stats records) (fun stats =>
  rbind (kd_subscript stats gpu) (fun entry =>
  py_subscript entry k)).

(** ** More worlds *)

(** A codec over texts that may be corrupt: [None] is a text that
    does not decode. *)
#[export] Instance option_codec : JsonText (option value) | 10 := {|
  json_dump := fun v _ => Some v;
  json_load := fun c =>
    match c with
    | Some v => Ok v
    | None => Err JSONDecodeError
    end
|}.

Definition no_key_env (name : string) : option string := None.

Definition no_key_world : world value :=
  mk_world no_key_env (respond two_offers_response) [] ticking_clock 0
    one_record_fs.

Definition html_dataset_world : world value :=
  mk_world key_env (respond html_response) [] ticking_clock 0 one_record_fs.

Definition unavailable_dataset_world : world value :=
  mk_world key_env (respond unavailable_response) [] ticking_clock 0
    one_record_fs.

(** An answer whose offers are not dictionaries. *)
Definition no_dict_offers : list value := [VInt 1; VStr "x"].

Definition no_dict_response : response :=
  mk_response 200 "" (Ok (VDict [("offers", VList no_dict_offers)])).

Definition no_dict_world : world value :=
  mk_world key_env (respond no_dict_response) [] ticking_clock 0
    one_record_fs.

(** A dataset file that does not decode. *)
Definition corrupt_fs : string -> option (node (option value)) :=
  fs_update (fs_update (fun _ => None) DATA_DIR Dir) DATA_FILE (File None).

Definition corrupt_world : world (option value) :=
  mk_world key_env (respond two_offers_response) [] ticking_clock 0
    corrupt_fs.

(** A regular file named ["data"]. *)
Definition blocked_fs : string -> option (node value) :=
  fs_update empty_fs DATA_DIR (File VNone).

Definition blocked_world : world value :=
  mk_world key_env (respond two_offers_response) [] ticking_clock 0
    blocked_fs.

(** An offer without a GPU name, and the record made of it at the
    second reading of the clock. *)
Definition nameless_offer : value := VDict [("dph_total", VInt 1)].

Definition nameless_response : response :=
  mk_response 200 "" (Ok (VDict [("offers", VList [nameless_offer])])).

Definition nameless_world : world value :=
  mk_world key_env (respond nameless_response) [] ticking_clock 0 empty_fs.

Definition nameless_entries : list (string * value) :=
  Eval cbv in
    match process_offer_at (ticking_clock 1) nameless_offer with
    | Ok (VDict d) => d
    | _ => []
    end.

Definition nameless_stats : kdict value :=
  Eval cbv in
    match get_summary_stats [VDict nameless_entries] with
    | Ok stats => stats
    | Err _ => []
    end.

(** The same offer with a key the projector does not read. *)
Definition an_offer_with_id : list (string * value) :=
  an_offer_entries ++ [("id", VInt 7)].

(** Two GPU names in one batch, and their summary. *)
Definition two_gpus : list value := four_prices ++ free_and_paid.

Definition two_gpus_stats : kdict value :=
  [(rtx4090, four_prices_entry); (rtx3090, free_and_paid_entry)].

(** A dataset with a record that has lost its timestamp. *)
Definition untimed_dataset : list value :=
  VDict [("gpu_name", VStr "RTX 3090")] :: four_prices.

(** The records of a second run in [two_offers_world]. *)
Definition two_more_records : list value :=
  Eval cbv in project_from ticking_clock 4 [an_offer; an_offer].

End Examples.

(* ================================================================== *)
(** * Facts about numbers and keys *)
(* ================================================================== *)

Module NumFacts.
Import Py.

(** Two finite numbers can be compared at any common scale below both
    exponents. *)
Lemma fin_compare_scale (m1 e1 m2 e2 c : Z) :
  c <= e1 -> c <= e2 ->
  fin_compare m1 e1 m2 e2 = (m1 * 2 ^ (e1 - c) ?= m2 * 2 ^ (e2 - c)).
Proof.
  intros H1 H2. unfold fin_compare.
  set (e := Z.min e1 e2).
  assert (He1 : e <= e1) by (subst e; lia).
  assert (He2 : e <= e2) by (subst e; lia).
  assert (Hc : c <= e) by (subst e; lia).
  replace (e1 - c) with ((e1 - e) + (e - c)) by lia.
  replace (e2 - c) with ((e2 - e) + (e - c)) by lia.
  rewrite !Z.pow_add_r by lia.
  rewrite !Z.mul_assoc.
  apply Zmult_compare_compat_r.
  apply Z.lt_gt, Z.pow_pos_nonneg; lia.
Qed.

Lemma fin_compare_refl (m e : Z) : fin_compare m e m e = Eq.
Proof. unfold fin_compare. apply Z.compare_refl. Qed.

Lemma fin_compare_antisym (m1 e1 m2 e2 : Z) :
  fin_compare m2 e2 m1 e1 = CompOpp (fin_compare m1 e1 m2 e2).
Proof.
  unfold fin_compare. rewrite (Z.min_comm e2 e1). apply Z.compare_antisym.
Qed.

Lemma fin_compare_eq_trans (m1 e1 m2 e2 m3 e3 : Z) :
  fin_compare m1 e1 m2 e2 = Eq -> fin_compare m2 e2 m3 e3 = Eq ->
  fin_compare m1 e1 m3 e3 = Eq.
Proof.
  set (c := Z.min e1 (Z.min e2 e3)).
  rewrite (fin_compare_scale m1 e1 m2 e2 c) by (subst c; lia).
  rewrite (fin_compare_scale m2 e2 m3 e3 c) by (subst c; lia).
  rewrite (fin_compare_scale m1 e1 m3 e3 c) by (subst c; lia).
  rewrite !Z.compare_eq_iff. congruence.
Qed.

Lemma num_same_refl (x : num) : num_same x x = true.
Proof.
  destruct x as [|s|m e]; simpl; try reflexivity.
  - destruct s; reflexivity.
  - now rewrite fin_compare_refl.
Qed.

Lemma num_same_sym (x y : num) : num_same x y = num_same y x.
Proof.
  destruct x as [|[]|m e], y as [|[]|m' e']; simpl; try reflexivity.
  rewrite (fin_compare_antisym m e m' e').
  destruct (fin_compare m e m' e'); reflexivity.
Qed.

Lemma num_same_trans (x y z : num) :
  num_same x y = true -> num_same y z = true -> num_same x z = true.
Proof.
  destruct x as [|[]|m e], y as [|[]|m' e'], z as [|[]|m'' e''];
    simpl; try discriminate; try reflexivity.
  destruct (fin_compare m e m' e') eqn:H1; try discriminate.
  destruct (fin_compare m' e' m'' e'') eqn:H2; try discriminate.
  now rewrite (fin_compare_eq_trans _ _ _ _ _ _ H1 H2).
Qed.

(** [<] on numbers is asymmetric. *)
Lemma num_ltb_asym (x y : num) : num_ltb x y = true -> num_ltb y x = false.
Proof.
  unfold num_ltb.
  destruct x as [|[]|m e], y as [|[]|m' e']; simpl; try discriminate;
    try reflexivity.
  rewrite (fin_compare_antisym m e m' e').
  destruct (fin_compare m e m' e'); simpl; congruence.
Qed.

(** On hashable values [py_same] is an equivalence. *)
Lemma py_same_refl (a : value) : hashable a = true -> py_same a a = true.
Proof.
  destruct a; intros H; try discriminate H;
    try exact (num_same_refl _); try reflexivity.
  apply String.eqb_refl.
Qed.

Lemma py_same_sym (a b : value) :
  hashable a = true -> hashable b = true -> py_same a b = py_same b a.
Proof.
  destruct a, b; intros Ha Hb; try discriminate Ha; try discriminate Hb;
    try exact (num_same_sym _ _); try reflexivity.
  apply String.eqb_sym.
Qed.

Lemma py_same_trans (a b c : value) :
  hashable a = true -> hashable b = true -> hashable c = true ->
  py_same a b = true -> py_same b c = true -> py_same a c = true.
Proof.
  destruct a, b, c; intros Ha Hb Hc;
    try discriminate Ha; try discriminate Hb; try discriminate Hc;
    try exact (num_same_trans _ _ _); try (intros; reflexivity);
    try (intros H; discriminate H); try (intros _ H; discriminate H).
  cbn. rewrite !String.eqb_eq. congruence.
Qed.

(** Same keys agree on every third key. *)
Lemma py_same_congr (a b c : value) :
  hashable a = true -> hashable b = true -> hashable c = true ->
  py_same a b = true -> py_same a c = py_same b c.
Proof.
  intros Ha Hb Hc Hab.
  destruct (py_same a c) eqn:Hac, (py_same b c) eqn:Hbc; try reflexivity.
  - rewrite (py_same_sym a b Ha Hb) in Hab.
    now rewrite (py_same_trans b a c Hb Ha Hc Hab Hac) in Hbc.
  - now rewrite (py_same_trans a b c Ha Hb Hc Hab Hbc) in Hac.
Qed.

End NumFacts.

(* ================================================================== *)
(** * Facts about binary64 rounding *)
(* ================================================================== *)

Module FloatFacts.
Import Py.

(** The number of binary digits, through [Z.log2]. *)
Lemma Zdigits2_log2 (p : positive) : Zdigits2 (Zpos p) = Z.log2 (Zpos p) + 1.
Proof.
  unfold Zdigits2. 
  assert (H : forall q, Zpos (digits2_pos q) = Zpos (Pos.size q)).
  { induction q; simpl; try reflexivity; now injection IHq as ->. }
  rewrite H. destruct p; simpl; lia.
Qed.

Lemma Zdigits2_le (x y : Z) : 0 <= x <= y -> Zdigits2 x <= Zdigits2 y.
Proof.
  intros [Hx Hxy]. destruct x as [|p|p]; [|
    destruct y as [|q|q]; try lia | lia].
  - destruct y; simpl; lia.
  - rewrite !Zdigits2_log2. apply Z.add_le_mono_r, Z.log2_le_mono. exact Hxy.
Qed.

Lemma Zdigits2_pow2 (x k : Z) :
  0 <= k -> 0 <= x <= 2 ^ k -> Zdigits2 x <= k + 1.
Proof.
  intros Hk [Hx Hxk]. destruct x as [|p|p]; [simpl; lia| |lia].
  rewrite Zdigits2_log2. apply Z.add_le_mono_r.
  rewrite <- (Z.log2_pow2 k Hk). now apply Z.log2_le_mono.
Qed.

Lemma Zdigits2_succ (x : Z) : 0 <= x -> Zdigits2 (x + 1) <= Zdigits2 x + 1.
Proof.
  intros Hx. destruct x as [|p|p]; [simpl; lia| |lia].
  change (Z.pos p + 1) with (Z.succ (Z.pos p)).
  assert (H : Z.succ (Z.pos p) = Z.pos (Pos.succ p)) by lia. rewrite H.
  rewrite !Zdigits2_log2. rewrite <- H.
  pose proof (Z.log2_succ_le (Z.pos p)). lia.
Qed.

Lemma shr_1_m (mrs : shr_record) :
  0 <= shr_m mrs -> 0 <= shr_m (shr_1 mrs) <= shr_m mrs.
Proof.
  destruct mrs as [m r s]. simpl. destruct m as [|[p|p|]|p]; simpl; lia.
Qed.

Lemma iter_shr_1_m (p : positive) (mrs : shr_record) :
  0 <= shr_m mrs -> 0 <= shr_m (iter_pos shr_1 p mrs) <= shr_m mrs.
Proof.
  revert mrs. induction p as [p IH|p IH|]; intros mrs H; simpl.
  - pose proof (shr_1_m mrs H) as H1.
    pose proof (IH _ (proj1 H1)) as H2.
    pose proof (IH _ (proj1 H2)) as H3. lia.
  - pose proof (IH _ H) as H2.
    pose proof (IH _ (proj1 H2)) as H3. lia.
  - now apply shr_1_m.
Qed.

Lemma shr_fexp_spec (m e : Z) (l : location) :
  0 <= m ->
  snd (shr_fexp prec emax m e l) = Z.max e (fexp prec emax (Zdigits2 m + e)) /\
  0 <= shr_m (fst (shr_fexp prec emax m e l)) <= m.
Proof.
  intros Hm. unfold shr_fexp, shr.
  assert (Hrec : shr_m (shr_record_of_loc m l) = m)
    by (destruct l as [|[]]; reflexivity).
  destruct (fexp prec emax (Zdigits2 m + e) - e) as [|p|p] eqn:Hn; simpl.
  - rewrite Hrec. lia.
  - split; [lia|]. rewrite <- Hrec at 3. apply iter_shr_1_m.
    rewrite Hrec. exact Hm.
  - rewrite Hrec. lia.
Qed.

Lemma round_nearest_even_le (m : Z) (l : location) :
  0 <= m -> 0 <= round_nearest_even m l <= m + 1.
Proof.
  intros Hm. destruct l as [|[]]; simpl; try lia.
  destruct (Z.even m); lia.
Qed.

Lemma fexp_le (x : Z) : x <= 1024 -> fexp prec emax x <= 971.
Proof. unfold fexp, SpecFloat.emin, prec, emax. lia. Qed.

Lemma binary_round_aux_finite (s : bool) (mx ex : Z) (lx : location) :
  0 <= mx -> -1074 <= ex <= 0 -> Zdigits2 mx + ex <= 1 ->
  float_is_inf (binary_round_aux prec emax s mx ex lx) = false.
Proof.
  intros Hm He Hd. unfold binary_round_aux.
  destruct (shr_fexp_spec mx ex lx Hm) as [E1 M1].
  destruct (shr_fexp prec emax mx ex lx) as [mrs1 e1]. simpl in E1, M1.
  set (m1 := round_nearest_even (shr_m mrs1) (loc_of_shr_record mrs1)).
  assert (Hm1 : 0 <= m1 <= mx + 1).
  { pose proof (round_nearest_even_le (shr_m mrs1) (loc_of_shr_record mrs1)
                  (proj1 M1)). unfold m1. lia. }
  destruct (shr_fexp_spec m1 e1 loc_Exact (proj1 Hm1)) as [E2 M2].
  destruct (shr_fexp prec emax m1 e1 loc_Exact) as [mrs2 e2]. simpl in E2, M2.
  destruct (shr_m mrs2) as [|p|p]; try reflexivity.
  assert (He2 : e2 <= emax - prec).
  { assert (D1 : Zdigits2 m1 <= Zdigits2 mx + 1).
    { eapply Z.le_trans; [apply Zdigits2_le; split; [apply Hm1|apply Hm1]|].
      now apply Zdigits2_succ. }
    assert (F1 : fexp prec emax (Zdigits2 mx + ex) <= -52)
      by (unfold fexp, SpecFloat.emin, prec, emax; lia).
    assert (F2 : fexp prec emax (Zdigits2 m1 + e1) <= 971)
      by (apply fexp_le; lia).
    unfold prec, emax in *. lia. }
  apply Z.leb_le in He2. rewrite He2. reflexivity.
Qed.

Lemma float_of_ratio_le_one (a d : positive) :
  (a <= d)%positive -> float_is_inf (float_of_ratio (Zpos a) d) = false.
Proof.
  intros Had. unfold float_of_ratio, SFdiv, SFdiv_core_binary.
  set (e' := Z.min (fexp prec emax (Zdigits2 (Z.pos a) + 0
                                       - (Zdigits2 (Z.pos d) + 0))) (0 - 0)).
  assert (He : -1074 <= e' <= 0)
    by (subst e'; unfold fexp, SpecFloat.emin, prec, emax; lia).
  set (m' := match 0 - 0 - e' with
             | Z0 => Z.pos a
             | Zpos _ => Z.shiftl (Z.pos a) (0 - 0 - e')
             | Zneg _ => 0
             end).
  assert (Hm' : m' = Z.pos a * 2 ^ (- e')).
  { subst m'. replace (0 - 0 - e') with (- e') by lia.
    destruct (- e') as [|p|p] eqn:Hs; [simpl; lia| |lia].
    rewrite Z.shiftl_mul_pow2 by lia. reflexivity. }
  pose proof (Z.div_eucl_eq m' (Z.pos d) ltac:(lia)) as Heq.
  pose proof (Z.mod_pos_bound m' (Z.pos d) ltac:(lia)) as Hmod.
  unfold Z.modulo in Hmod.
  destruct (Z.div_eucl m' (Z.pos d)) as [q r].
  assert (Hp : 0 < 2 ^ (- e')) by (apply Z.pow_pos_nonneg; lia).
  assert (Hq : 0 <= q <= 2 ^ (- e')) by nia.
  apply binary_round_aux_finite; [lia|exact He|].
  pose proof (Zdigits2_pow2 q (- e') ltac:(lia) Hq). lia.
Qed.

(** Dividing a count by a larger positive count never overflows. *)
Lemma int_truediv_fraction (a b : Z) :
  0 <= a <= b -> 0 < b -> exists q, int_truediv a b = Ok q.
Proof.
  intros Hab Hb. unfold int_truediv.
  destruct b as [|d|d]; try lia.
  destruct a as [|p|p]; try lia.
  - eexists. reflexivity.
  - rewrite float_of_ratio_le_one by lia. eexists. reflexivity.
Qed.

(** ** Rounding to decimals *)

Lemma round_half_even_nearest (n d : Z) :
  0 <= n -> 0 < d ->
  0 <= round_half_even n d /\ Spec.nearest_even n d (round_half_even n d).
Proof.
  intros Hn Hd. unfold round_half_even, Spec.nearest_even. cbv zeta.
  pose proof (Z.div_mod n d ltac:(lia)) as Hdm.
  pose proof (Z.mod_pos_bound n d Hd) as Hr.
  pose proof (Z.div_pos n d Hn Hd) as Hq.
  set (q := n / d) in *. set (r := n mod d) in *.
  assert (E1 : n - q * d = r) by lia.
  assert (E2 : n - (q + 1) * d = r - d) by lia.
  destruct (Z.compare_spec (2 * r) d) as [Hc|Hc|Hc].
  - destruct (Z.even q) eqn:He.
    + split; [lia|]. right. rewrite E1. split; [lia|exact He].
    + split; [lia|]. right. rewrite E2. split; [lia|].
      rewrite Z.even_add, He. reflexivity.
  - split; [lia|]. left. rewrite E1. lia.
  - split; [lia|]. left. rewrite E2. lia.
Qed.

(** There is one nearest integer. *)
Lemma nearest_even_unique (n d N N' : Z) :
  0 < d -> Spec.nearest_even n d N -> Spec.nearest_even n d N' -> N = N'.
Proof.
  unfold Spec.nearest_even. intros Hd H H'.
  assert (Hk : N' - N = 0 \/ N' - N = 1 \/ N' - N = -1) by nia.
  destruct Hk as [Hk|[Hk|Hk]]; [lia| |].
  - replace N' with (N + 1) in H' by lia.
    destruct H as [H|[H He]]; [nia|].
    destruct H' as [H'|[H' He']]; [nia|].
    rewrite Z.even_add, He in He'. discriminate.
  - replace N with (N' + 1) in H by lia.
    destruct H' as [H'|[H' He']]; [nia|].
    destruct H as [H|[H He]]; [nia|].
    rewrite Z.even_add, He' in He. discriminate.
Qed.

Lemma float_of_ratio_nearest (n : Z) (d : positive) :
  float_of_ratio n d = Spec.nearest_double n d.
Proof. destruct n; reflexivity. Qed.

Lemma float_of_int_hundred : float_of_int 100 = Spec.hundred.
Proof. vm_compute. reflexivity. Qed.

(** [float_round] rounds: its result is the double nearest to the
    decimal nearest to its argument. *)
Lemma float_round_rounded (x : float) (ndigits : Z) :
  0 <= ndigits -> Spec.rounded_to ndigits x (float_round x ndigits).
Proof.
  intros Hnd. destruct x as [s|s| |s m e]; try reflexivity.
  unfold Spec.rounded_to, float_round.
  assert (Hp : 0 < 10 ^ ndigits) by (apply Z.pow_pos_nonneg; lia).
  set (n := if 0 <=? e then Z.pos m * 10 ^ ndigits * 2 ^ e
            else round_half_even (Z.pos m * 10 ^ ndigits) (2 ^ (- e))).
  assert (Hn : 0 <= n /\
               (if 0 <=? e
                then Spec.nearest_even (Z.pos m * 2 ^ e * 10 ^ ndigits) 1 n
                else Spec.nearest_even (Z.pos m * 10 ^ ndigits)
                       (2 ^ (- e)) n)).
  { subst n. destruct (0 <=? e) eqn:He.
    - apply Z.leb_le in He.
      assert (H2 : 0 < 2 ^ e) by (apply Z.pow_pos_nonneg; lia).
      split; [nia|]. left.
      replace (Z.pos m * 2 ^ e * 10 ^ ndigits
               - Z.pos m * 10 ^ ndigits * 2 ^ e * 1) with 0 by ring.
      simpl. lia.
    - apply Z.leb_gt in He.
      apply round_half_even_nearest; [nia|].
      apply Z.pow_pos_nonneg; lia. }
  destruct Hn as [Hn0 Hn1]. exists n. split; [exact Hn0|].
  split; [exact Hn1|].
  destruct n as [|p|p]; [reflexivity| |lia].
  destruct s; reflexivity.
Qed.

(** What a float is rounded to is determined. *)
Lemma rounded_to_unique (ndigits : Z) (x r r' : float) :
  Spec.rounded_to ndigits x r -> Spec.rounded_to ndigits x r' -> r = r'.
Proof.
  destruct x as [s|s| |s m e]; unfold Spec.rounded_to; try congruence.
  intros (N & _ & HN & ->) (N' & _ & HN' & ->).
  assert (E : N = N').
  { destruct (0 <=? e) eqn:He.
    - eapply nearest_even_unique; [|exact HN|exact HN']. lia.
    - apply Z.leb_gt in He.
      eapply nearest_even_unique; [|exact HN|exact HN'].
      apply Z.pow_pos_nonneg; lia. }
  now subst N'.
Qed.

End FloatFacts.

(* ================================================================== *)
(** * Facts about dictionaries keyed by values *)
(* ================================================================== *)

Module DictFacts.
Import Py Spec NumFacts.

Lemma keys_hashable_nil {A} : keys_hashable (@nil (value * A)).
Proof. constructor. Qed.

Lemma keys_hashable_set {A} (d : kdict A) (k : value) (v : A) :
  keys_hashable d -> hashable k = true -> keys_hashable (kd_set d k v).
Proof.
  intros Hd Hk. induction Hd as [|[k' w] d' Hk' Hd' IH]; simpl.
  - repeat constructor. exact Hk.
  - destruct (py_same k' k); constructor; assumption.
Qed.

(** Reading after writing. *)
Lemma kd_find_set {A} (d : kdict A) (k k' : value) (v : A) :
  keys_hashable d -> hashable k = true -> hashable k' = true ->
  kd_find (kd_set d k v) k' = if py_same k k' then Some v else kd_find d k'.
Proof.
  intros Hd Hk Hk'. induction Hd as [|[h w] d' Hh Hd' IH]; simpl in *.
  - destruct (py_same k k'); reflexivity.
  - destruct (py_same h k) eqn:Hhk; simpl.
    + rewrite (py_same_congr h k k' Hh Hk Hk' Hhk).
      destruct (py_same k k'); reflexivity.
    + rewrite IH. destruct (py_same h k') eqn:Hhk'; [|reflexivity].
      destruct (py_same k k') eqn:Hkk'; [|reflexivity].
      rewrite (py_same_sym k k' Hk Hk') in Hkk'.
      now rewrite (py_same_trans h k' k Hh Hk' Hk Hhk' Hkk') in Hhk.
Qed.

(** Same keys read the same entry. *)
Lemma kd_find_same {A} (d : kdict A) (k k' : value) :
  keys_hashable d -> hashable k = true -> hashable k' = true ->
  py_same k k' = true -> kd_find d k = kd_find d k'.
Proof.
  intros Hd Hk Hk' Hkk'. induction Hd as [|[h w] d' Hh Hd' IH]; simpl in *.
  - reflexivity.
  - rewrite IH.
    destruct (py_same h k) eqn:Hhk, (py_same h k') eqn:Hhk'; try reflexivity.
    + now rewrite (py_same_trans h k k' Hh Hk Hk' Hhk Hkk') in Hhk'.
    + rewrite (py_same_sym k k' Hk Hk') in Hkk'.
      now rewrite (py_same_trans h k' k Hh Hk' Hk Hhk' Hkk') in Hhk.
Qed.

Lemma kd_get_set {A} (d : kdict A) (k k' : value) (v dflt : A) :
  keys_hashable d -> hashable k = true -> hashable k' = true ->
  kd_get (kd_set d k v) k' dflt = if py_same k k' then v else kd_get d k' dflt.
Proof.
  intros Hd Hk Hk'. unfold kd_get. rewrite kd_find_set by assumption.
  destruct (py_same k k'); reflexivity.
Qed.

Lemma kd_get_same {A} (d : kdict A) (k k' : value) (dflt : A) :
  keys_hashable d -> hashable k = true -> hashable k' = true ->
  py_same k k' = true -> kd_get d k dflt = kd_get d k' dflt.
Proof.
  intros Hd Hk Hk' Hkk'. unfold kd_get.
  now rewrite (kd_find_same d k k' Hd Hk Hk' Hkk').
Qed.

Lemma kd_mem_set {A} (d : kdict A) (k k' : value) (v : A) :
  keys_hashable d -> hashable k = true -> hashable k' = true ->
  kd_mem (kd_set d k v) k' = py_same k k' || kd_mem d k'.
Proof.
  intros Hd Hk Hk'. unfold kd_mem. rewrite kd_find_set by assumption.
  destruct (py_same k k'); reflexivity.
Qed.

(** Every key of a dictionary is found in it. *)
Lemma kd_mem_key {A} (d : kdict A) (k : value) :
  keys_hashable d -> In k (map fst d) -> kd_mem d k = true.
Proof.
  intros Hd. unfold kd_mem.
  induction Hd as [|[h w] d' Hh Hd' IH]; simpl; intros Hin.
  - contradiction.
  - destruct Hin as [-> | Hin].
    + now rewrite (py_same_refl k Hh).
    + destruct (py_same h k); [reflexivity|]. now apply IH.
Qed.

Lemma keys_hashable_keys {A} (d : kdict A) :
  keys_hashable d -> Forall (fun k => hashable k = true) (map fst d).
Proof.
  intros Hd. induction Hd; simpl; constructor; assumption.
Qed.

(** Writing keeps the keys distinct. *)
Lemma kd_distinct_set {A} (d : kdict A) (k : value) (v : A) :
  keys_hashable d -> hashable k = true ->
  kd_distinct d -> kd_distinct (kd_set d k v).
Proof.
  intros Hd Hk. induction Hd as [|[h w] d' Hh Hd' IH]; simpl.
  - intros _. now split.
  - intros [Hn Hdis]. destruct (py_same h k) eqn:Hhk; simpl.
    + now split.
    + split; [|now apply IH].
      rewrite kd_find_set by assumption.
      now rewrite (py_same_sym k h Hk Hh), Hhk.
Qed.

(** With distinct keys every entry is the one its key finds. *)
Lemma kd_find_in {A} (d : kdict A) (g : value) (e : A) :
  keys_hashable d -> kd_distinct d -> In (g, e) d ->
  hashable g = true /\ kd_find d g = Some e.
Proof.
  intros Hd. induction Hd as [|[h w] d' Hh Hd' IH]; simpl.
  - contradiction.
  - intros [Hn Hdis] [Heq | Hin].
    + injection Heq as -> ->. split; [exact Hh|].
      now rewrite (py_same_refl g Hh).
    + destruct (IH Hdis Hin) as [Hg Hf]. split; [exact Hg|].
      destruct (py_same h g) eqn:Hhg; [|exact Hf].
      rewrite (kd_find_same d' h g Hd' Hh Hg Hhg) in Hn. congruence.
Qed.

(** A key that is found is the same key as one of the keys. *)
Lemma kd_mem_exists {A} (d : kdict A) (g : value) :
  kd_mem d g = true -> exists k, In k (map fst d) /\ py_same k g = true.
Proof.
  unfold kd_mem. induction d as [|[h w] d' IH]; simpl; [discriminate|].
  destruct (py_same h g) eqn:Hhg.
  - intros _. exists h. split; [now left|exact Hhg].
  - intros H. destruct (IH H) as (k & Hin & Hk).
    exists k. split; [now right|exact Hk].
Qed.

End DictFacts.

(* ================================================================== *)
(** * Facts about [sorted], [min] and [max] *)
(* ================================================================== *)

Module SortFacts.
Import Py Spec NumFacts.
Local Open Scope result_scope.

Lemma insert_sorted_perm (x : value) (l l' : list value) :
  insert_sorted x l = Ok l' -> Permutation (x :: l) l'.
Proof.
  revert l'. induction l as [|y l IH]; simpl; intros l' H.
  - injection H as <-. apply Permutation_refl.
  - destruct (py_lt x y) as [[|]|e]; simpl in H; try discriminate.
    + injection H as <-. apply Permutation_refl.
    + destruct (insert_sorted x l) as [r|e]; simpl in H; try discriminate.
      injection H as <-.
      apply perm_trans with (y :: x :: l); [apply perm_swap|].
      apply perm_skip, IH. reflexivity.
Qed.

Lemma sorted_from_perm (l acc l' : list value) :
  sorted_from acc l = Ok l' -> Permutation (acc ++ l) l'.
Proof.
  revert acc l'. induction l as [|x l IH]; simpl; intros acc l' H.
  - injection H as <-. rewrite app_nil_r. apply Permutation_refl.
  - destruct (insert_sorted x acc) as [acc'|e] eqn:Hi; simpl in H;
      try discriminate.
    apply perm_trans with (acc' ++ l); [|now apply IH].
    apply perm_trans with ((x :: acc) ++ l).
    + apply Permutation_sym, Permutation_middle.
    + apply Permutation_app_tail, insert_sorted_perm, Hi.
Qed.

(** [sorted] rearranges its argument. *)
Lemma sorted_perm (l l' : list value) :
  sorted l = Ok l' -> Permutation l l'.
Proof. intros H. apply (sorted_from_perm l [] l' H). Qed.

(** Numbers are always ordered, by their exact values. *)
Lemma py_lt_number (a b : value) :
  is_number a = true -> is_number b = true ->
  py_lt a b = Ok (num_ltb (to_num a) (to_num b)).
Proof.
  destruct a, b; intros Ha Hb; try discriminate Ha; try discriminate Hb;
    reflexivity.
Qed.

Lemma py_lt_number_asym (a b : value) :
  is_number a = true -> is_number b = true ->
  py_lt a b = Ok true -> py_lt b a = Ok false.
Proof.
  intros Ha Hb. rewrite (py_lt_number a b Ha Hb), (py_lt_number b a Hb Ha).
  intros H. injection H as H. now rewrite (num_ltb_asym _ _ H).
Qed.

Lemma insert_sorted_numbers (x : value) (l : list value) :
  is_number x = true -> numbers l ->
  exists l', insert_sorted x l = Ok l' /\ numbers l'.
Proof.
  intros Hx Hl. induction Hl as [|y l Hy Hl IH]; simpl.
  - eexists; split; [reflexivity|]. repeat constructor. exact Hx.
  - rewrite (py_lt_number x y Hx Hy). simpl.
    destruct (num_ltb (to_num x) (to_num y)).
    + eexists; split; [reflexivity|]. repeat constructor; assumption.
    + destruct IH as (r & -> & Hr). simpl.
      eexists; split; [reflexivity|]. constructor; assumption.
Qed.

Lemma insert_sorted_head (x y : value) (l r : list value) :
  insert_sorted x l = Ok r ->
  match r with
  | [] => False
  | h :: _ => h = x \/ (exists l', l = h :: l')
  end.
Proof.
  destruct l as [|z l]; simpl; intros H.
  - injection H as <-. now left.
  - destruct (py_lt x z) as [[|]|e]; simpl in H; try discriminate.
    + injection H as <-. now left.
    + destruct (insert_sorted x l) as [r'|e]; simpl in H; try discriminate.
      injection H as <-. right. now exists l.
Qed.

Lemma insert_sorted_cons (x y : value) (l : list value) :
  insert_sorted x (y :: l) =
  let? b := py_lt x y in
  if b then Ok (x :: y :: l)
  else let? r := insert_sorted x l in Ok (y :: r).
Proof. reflexivity. Qed.

Lemma insert_sorted_ascending (x : value) (l r : list value) :
  is_number x = true -> numbers l -> ascending l ->
  insert_sorted x l = Ok r -> ascending r.
Proof.
  intros Hx Hl Ha. revert r.
  induction Ha as [|a|a b l Hab Ha IH]; intros r H.
  - injection H as <-. constructor.
  - inversion Hl as [|? ? Hna _]; subst. simpl in H.
    destruct (py_lt x a) as [[|]|e] eqn:Hlt; simpl in H; try discriminate.
    + injection H as <-. constructor; [|constructor].
      now apply py_lt_number_asym.
    + injection H as <-. constructor; [exact Hlt|constructor].
  - inversion Hl as [|? ? Hna Hl']; subst.
    rewrite insert_sorted_cons in H.
    destruct (py_lt x a) as [[|]|e] eqn:Hlt; unfold rbind in H;
      try discriminate.
    + injection H as <-. constructor.
      * now apply py_lt_number_asym.
      * now constructor.
    + destruct (insert_sorted x (b :: l)) as [r'|e] eqn:Hi; try discriminate.
      injection H as <-.
      specialize (IH Hl' r' eq_refl).
      pose proof (insert_sorted_head x a (b :: l) r' Hi) as Hh.
      destruct r' as [|h t]; [contradiction|].
      constructor; [|exact IH].
      destruct Hh as [-> | [l' Heq]]; [exact Hlt|].
      inversion Heq; subst. exact Hab.
Qed.

Lemma sorted_from_numbers (l acc : list value) :
  numbers l -> numbers acc -> ascending acc ->
  exists l', sorted_from acc l = Ok l' /\ numbers l' /\ ascending l'.
Proof.
  intros Hl. revert acc.
  induction Hl as [|x l Hx Hl IH]; simpl; intros acc Hacc Ha.
  - exists acc. split; [reflexivity|]. split; assumption.
  - destruct (insert_sorted_numbers x acc Hx Hacc) as (acc' & Hi & Hn).
    rewrite Hi. simpl. apply IH; [exact Hn|].
    exact (insert_sorted_ascending x acc acc' Hx Hacc Ha Hi).
Qed.

(** On numbers [sorted] never raises and returns an ascending
    rearrangement. *)
Lemma sorted_numbers (l : list value) :
  numbers l ->
  exists l', sorted l = Ok l' /\ numbers l' /\ ascending l' /\
             Permutation l l'.
Proof.
  intros Hl.
  destruct (sorted_from_numbers l [] Hl (Forall_nil _) ascending_nil)
    as (l' & Hs & Hn & Ha).
  exists l'. repeat split; try assumption. now apply sorted_perm.
Qed.

(** On numbers [min], [max] and [round] never raise. *)
Lemma min_from_numbers (l : list value) (cur : value) :
  is_number cur = true -> numbers l ->
  exists m, min_from cur l = Ok m /\ is_number m = true.
Proof.
  intros Hc Hl. revert cur Hc.
  induction Hl as [|x l Hx Hl IH]; intros cur Hc; simpl.
  - now exists cur.
  - rewrite (py_lt_number x cur Hx Hc). simpl.
    destruct (num_ltb (to_num x) (to_num cur)); now apply IH.
Qed.

Lemma max_from_numbers (l : list value) (cur : value) :
  is_number cur = true -> numbers l ->
  exists m, max_from cur l = Ok m /\ is_number m = true.
Proof.
  intros Hc Hl. revert cur Hc.
  induction Hl as [|x l Hx Hl IH]; intros cur Hc; simpl.
  - now exists cur.
  - rewrite (py_lt_number cur x Hc Hx). simpl.
    destruct (num_ltb (to_num cur) (to_num x)); now apply IH.
Qed.

Lemma py_round_number (v : value) (ndigits : Z) :
  is_number v = true -> exists r, py_round v ndigits = Ok r.
Proof. destruct v; try discriminate; intros _; eexists; reflexivity. Qed.

End SortFacts.

(* ================================================================== *)
(** * The reporter *)
(* ================================================================== *)

Module ReporterFacts.
Import Py Spec CollectData NumFacts FloatFacts DictFacts SortFacts.
Local Open Scope result_scope.

(** ** Categories, one record at a time *)

Lemma category_cons (g r : value) (batch : list value) :
  category g (r :: batch) =
  (if in_category g r then [r] else []) ++ category g batch.
Proof. unfold category. simpl. destruct (in_category g r); reflexivity. Qed.

Lemma category_length_cons (g r : value) (batch : list value) :
  Z.of_nat (List.length (category g (r :: batch))) =
  (if in_category g r then 1 else 0)
  + Z.of_nat (List.length (category g batch)).
Proof.
  rewrite category_cons. destruct (in_category g r); simpl List.length; lia.
Qed.

Lemma category_rented_length_cons (g r : value) (batch : list value) :
  Z.of_nat (List.length (category_rented g (r :: batch))) =
  (if in_category g r && truthy (field r "rented") then 1 else 0)
  + Z.of_nat (List.length (category_rented g batch)).
Proof.
  unfold category_rented. rewrite category_cons.
  destruct (in_category g r); simpl; [|lia].
  destruct (truthy (field r "rented")); simpl List.length; lia.
Qed.

Lemma category_prices_cons (g r : value) (batch : list value) :
  category_prices g (r :: batch) =
  (if in_category g r && truthy (field r "dph_total")
   then [field r "dph_total"] else []) ++ category_prices g batch.
Proof.
  unfold category_prices. rewrite category_cons.
  destruct (in_category g r); simpl; [|reflexivity].
  destruct (truthy (field r "dph_total")); reflexivity.
Qed.

(** ** The first loop *)

(** What one iteration does to the three dictionaries. *)
Lemma count_record_ok (st st' : counters) (r : value) :
  count_record st r = Ok st' ->
  hashable (gpu_of r) = true /\
  st' = mk_counters
    (kd_set (gpu_counts st) (gpu_of r)
       (kd_get (gpu_counts st) (gpu_of r) 0 + 1))
    (if truthy (field r "rented") then
       kd_set (rented_counts st) (gpu_of r)
         (kd_get (rented_counts st) (gpu_of r) 0 + 1)
     else rented_counts st)
    (let pb :=
       if kd_mem (price_by_gpu st) (gpu_of r) then price_by_gpu st
       else kd_set (price_by_gpu st) (gpu_of r) [] in
     if truthy (field r "dph_total") then
       kd_set pb (gpu_of r) (kd_get pb (gpu_of r) [] ++ [field r "dph_total"])
     else pb).
Proof.
  unfold count_record. destruct r as [| | | | | |d]; try discriminate.
  unfold py_get, rbind, check_hashable.
  change (match assoc d "gpu_name" with
          | Some v => v
          | None => VStr "Unknown"
          end) with (gpu_of (VDict d)).
  change (match assoc d "rented" with Some v => v | None => VNone end)
    with (field (VDict d) "rented").
  change (match assoc d "dph_total" with Some v => v | None => VNone end)
    with (field (VDict d) "dph_total").
  destruct (hashable (gpu_of (VDict d))); [|discriminate].
  destruct (truthy (field (VDict d) "dph_total")) eqn:Hp.
  - unfold py_subscript.
    unfold field, get in Hp |- *.
    destruct (assoc d "dph_total") as [p|]; [|discriminate Hp].
    intros H. injection H as <-. split; reflexivity.
  - intros H. injection H as <-. split; reflexivity.
Qed.

(** The dictionary of prices once the key of a record is ensured. *)
Lemma ensure_key_get (pb : kdict (list value)) (gpu g : value) :
  keys_hashable pb -> hashable gpu = true -> hashable g = true ->
  kd_get (if kd_mem pb gpu then pb else kd_set pb gpu []) g [] =
  kd_get pb g [].
Proof.
  intros Hpb Hgpu Hg. destruct (kd_mem pb gpu) eqn:Hm; [reflexivity|].
  rewrite kd_get_set by assumption.
  destruct (py_same gpu g) eqn:Hs; [|reflexivity].
  rewrite <- (kd_get_same pb gpu g [] Hpb Hgpu Hg Hs).
  unfold kd_mem in Hm. unfold kd_get.
  destruct (kd_find pb gpu); [discriminate|reflexivity].
Qed.

Lemma ensure_key_hashable (pb : kdict (list value)) (gpu : value) :
  keys_hashable pb -> hashable gpu = true ->
  keys_hashable (if kd_mem pb gpu then pb else kd_set pb gpu []).
Proof.
  intros Hpb Hgpu. destruct (kd_mem pb gpu); [assumption|].
  now apply keys_hashable_set.
Qed.

(** One iteration, read through the dictionaries. *)
Lemma count_record_spec (st st' : counters) (r : value) :
  counters_hashable st -> count_record st r = Ok st' ->
  counters_hashable st' /\
  forall g, hashable g = true ->
    kd_get (gpu_counts st') g 0 =
      kd_get (gpu_counts st) g 0 + (if in_category g r then 1 else 0) /\
    kd_get (rented_counts st') g 0 =
      kd_get (rented_counts st) g 0
      + (if in_category g r && truthy (field r "rented") then 1 else 0) /\
    kd_get (price_by_gpu st') g [] =
      kd_get (price_by_gpu st) g []
      ++ (if in_category g r && truthy (field r "dph_total")
          then [field r "dph_total"] else []) /\
    kd_mem (gpu_counts st') g = kd_mem (gpu_counts st) g || in_category g r.
Proof.
  intros (Hgc & Hrc & Hpb) H.
  destruct (count_record_ok st st' r H) as (Hgpu & ->). clear H.
  set (gpu := gpu_of r) in *. simpl.
  pose proof (ensure_key_hashable _ gpu Hpb Hgpu) as Hpb'.
  split.
  - split; [now apply keys_hashable_set|]. split.
    + destruct (truthy (field r "rented")); [|assumption].
      now apply keys_hashable_set.
    + destruct (truthy (field r "dph_total")); [|assumption].
      now apply keys_hashable_set.
  - intros g Hg. unfold in_category. fold gpu.
    assert (Hsame : forall A (d : kdict A) dflt, keys_hashable d ->
              py_same gpu g = true -> kd_get d gpu dflt = kd_get d g dflt).
    { intros A d dflt Hd Hs. now apply kd_get_same. }
    repeat split.
    + rewrite kd_get_set by assumption.
      destruct (py_same gpu g) eqn:Hs; [|lia].
      now rewrite (Hsame _ _ 0 Hgc).
    + destruct (truthy (field r "rented")).
      * rewrite kd_get_set by assumption.
        destruct (py_same gpu g) eqn:Hs; simpl; [|lia].
        now rewrite (Hsame _ _ 0 Hrc).
      * rewrite andb_false_r. lia.
    + destruct (truthy (field r "dph_total")).
      * rewrite kd_get_set by assumption.
        destruct (py_same gpu g) eqn:Hs; simpl.
        -- rewrite (Hsame _ _ [] Hpb' eq_refl).
           now rewrite ensure_key_get.
        -- rewrite app_nil_r. now apply ensure_key_get.
      * rewrite andb_false_r, app_nil_r. now apply ensure_key_get.
    + rewrite kd_mem_set by assumption. apply orb_comm.
Qed.

(** The whole loop: every counter of a category counts the records of
    the category, and its price list holds the prices of the category
    that [bool()] takes as true, in batch order. *)
Lemma count_records_spec (batch : list value) (st st' : counters) :
  counters_hashable st -> count_records st batch = Ok st' ->
  counters_hashable st' /\
  forall g, hashable g = true ->
    kd_get (gpu_counts st') g 0 =
      kd_get (gpu_counts st) g 0 + Z.of_nat (List.length (category g batch)) /\
    kd_get (rented_counts st') g 0 =
      kd_get (rented_counts st) g 0
      + Z.of_nat (List.length (category_rented g batch)) /\
    kd_get (price_by_gpu st') g [] =
      kd_get (price_by_gpu st) g [] ++ category_prices g batch /\
    kd_mem (gpu_counts st') g =
      kd_mem (gpu_counts st) g || existsb (in_category g) batch.
Proof.
  revert st st'. induction batch as [|r batch IH]; intros st st' Hst H.
  - injection H as <-. split; [assumption|]. intros g _.
    simpl. rewrite app_nil_r, orb_false_r. repeat split; lia.
  - simpl in H. destruct (count_record st r) as [st1|e] eqn:H1;
      [|discriminate]. simpl in H.
    destruct (count_record_spec st st1 r Hst H1) as (Hst1 & S1).
    destruct (IH st1 st' Hst1 H) as (Hst' & S2).
    split; [assumption|]. intros g Hg.
    destruct (S1 g Hg) as (A1 & B1 & C1 & D1).
    destruct (S2 g Hg) as (A2 & B2 & C2 & D2).
    rewrite A2, B2, C2, D2, A1, B1, C1, D1.
    rewrite category_length_cons, category_rented_length_cons,
      category_prices_cons.
    simpl existsb. rewrite <- app_assoc, orb_assoc.
    repeat split; lia.
Qed.

(** ** The second loop *)

(** The entry found under [g] was either there before the loop or is
    the entry built from the three dictionaries read at [g]. *)
Lemma build_stats_spec (st : counters) (gpus : list value)
  (stats res : kdict value) (g entry : value) :
  counters_hashable st -> Forall (fun k => hashable k = true) gpus ->
  keys_hashable stats -> hashable g = true ->
  build_stats st gpus stats = Ok res ->
  kd_find res g = Some entry ->
  kd_find stats g = Some entry \/
  exists total prices,
    kd_find (gpu_counts st) g = Some total /\
    sorted (kd_get (price_by_gpu st) g []) = Ok prices /\
    stats_entry total (kd_get (rented_counts st) g 0) prices = Ok entry.
Proof.
  intros (Hgc & Hrc & Hpb) Hgpus. revert stats.
  induction Hgpus as [|gpu rest Hgpu Hrest IH]; intros stats Hstats Hg H Hf.
  - injection H as <-. now left.
  - simpl in H. unfold kd_subscript in H.
    destruct (kd_find (gpu_counts st) gpu) as [total|] eqn:Ht;
      [|discriminate]. simpl in H.
    destruct (sorted (kd_get (price_by_gpu st) gpu [])) as [prices|e] eqn:Hs;
      [|discriminate]. simpl in H.
    destruct (stats_entry total (kd_get (rented_counts st) gpu 0) prices)
      as [entry0|e] eqn:He; [|discriminate]. simpl in H.
    destruct (IH (kd_set stats gpu entry0)
                (keys_hashable_set _ _ _ Hstats Hgpu) Hg H Hf) as [Hk|Hk];
      [|now right].
    rewrite kd_find_set in Hk by assumption.
    destruct (py_same gpu g) eqn:Hsame; [|now left].
    injection Hk as <-. right. exists total, prices.
    rewrite <- (kd_find_same _ gpu g Hgc Hgpu Hg Hsame).
    rewrite <- (kd_get_same _ gpu g [] Hpb Hgpu Hg Hsame).
    rewrite <- (kd_get_same _ gpu g 0 Hrc Hgpu Hg Hsame).
    repeat split; assumption.
Qed.

(** The loop builds a dictionary with distinct hashable keys. *)
Lemma build_stats_distinct (st : counters) (gpus : list value)
  (stats res : kdict value) :
  Forall (fun k => hashable k = true) gpus ->
  keys_hashable stats -> kd_distinct stats ->
  build_stats st gpus stats = Ok res ->
  keys_hashable res /\ kd_distinct res.
Proof.
  intros Hgpus. revert stats.
  induction Hgpus as [|gpu rest Hgpu Hrest IH]; intros stats Hk Hd H.
  - injection H as <-. now split.
  - simpl in H.
    destruct (kd_subscript (gpu_counts st) gpu) as [total|e];
      [|discriminate]. cbn [rbind] in H.
    destruct (sorted (kd_get (price_by_gpu st) gpu [])) as [prices|e];
      [|discriminate]. cbn [rbind] in H.
    destruct (stats_entry total (kd_get (rented_counts st) gpu 0) prices)
      as [entry0|e]; [|discriminate]. cbn [rbind] in H.
    apply (IH (kd_set stats gpu entry0)).
    + now apply keys_hashable_set.
    + now apply kd_distinct_set.
    + exact H.
Qed.

(** Every key the loop visits, and every key already there, is in the
    result. *)
Lemma build_stats_mem (st : counters) (gpus : list value)
  (stats res : kdict value) (g : value) :
  Forall (fun k => hashable k = true) gpus ->
  keys_hashable stats -> hashable g = true ->
  build_stats st gpus stats = Ok res ->
  kd_mem stats g = true \/ (exists k, In k gpus /\ py_same k g = true) ->
  kd_mem res g = true.
Proof.
  intros Hgpus. revert stats.
  induction Hgpus as [|gpu rest Hgpu Hrest IH]; intros stats Hk Hg H Hor.
  - injection H as <-. destruct Hor as [Hm | (k & [] & _)]. exact Hm.
  - simpl in H.
    destruct (kd_subscript (gpu_counts st) gpu) as [total|e];
      [|discriminate]. cbn [rbind] in H.
    destruct (sorted (kd_get (price_by_gpu st) gpu [])) as [prices|e];
      [|discriminate]. cbn [rbind] in H.
    destruct (stats_entry total (kd_get (rented_counts st) gpu 0) prices)
      as [entry0|e]; [|discriminate]. cbn [rbind] in H.
    apply (IH (kd_set stats gpu entry0)
             (keys_hashable_set _ _ _ Hk Hgpu) Hg H).
    rewrite kd_mem_set by assumption.
    destruct Hor as [Hm | (k & [<- | Hin] & Hs)].
    + left. rewrite Hm. apply orb_true_r.
    + left. now rewrite Hs.
    + right. now exists k.
Qed.

(** ** The latest batch *)

Lemma latest_batch_filter (ts : value) (records batch : list value) :
  latest_batch ts records = Ok batch -> batch = with_timestamp ts records.
Proof.
  revert batch. induction records as [|r records IH]; simpl; intros batch H.
  - now injection H as <-.
  - destruct r as [| | | | | |d]; try discriminate. simpl in H.
    unfold field, get.
    destruct (assoc d "timestamp") as [t|]; [|discriminate]. simpl in H.
    destruct (latest_batch ts records) as [b|e]; [|discriminate].
    simpl in H. injection H as <-. rewrite (IH b eq_refl).
    destruct (py_eqb t ts); reflexivity.
Qed.

(** ** The summary of one category *)

Lemma stats_entry_fields (total rented : Z) (prices : list value)
  (entry : value) :
  stats_entry total rented prices = Ok entry ->
  field entry "total" = VInt total /\
  field entry "rented" = VInt rented /\
  field entry "available" = VInt (total - rented) /\
  rental_rate rented total = Ok (field entry "rental_rate") /\
  price_min prices = Ok (field entry "price_min") /\
  price_median prices = Ok (field entry "price_median") /\
  price_max prices = Ok (field entry "price_max").
Proof.
  unfold stats_entry.
  destruct (rental_rate rented total) as [rate|e]; [|discriminate].
  destruct (price_min prices) as [pmin|e]; [|discriminate].
  destruct (price_median prices) as [pmed|e]; [|discriminate].
  destruct (price_max prices) as [pmax|e]; [|discriminate].
  simpl. intros H. injection H as <-. repeat split; reflexivity.
Qed.

(** What the summary holds under a key is the entry of the category of
    that key: the records of the latest batch with that GPU name are
    counted, and the prices are those of the category that [bool()]
    takes as true. *)
Lemma get_summary_stats_lookup (records : list value) (stats : kdict value)
  (g entry : value) :
  get_summary_stats records = Ok stats -> hashable g = true ->
  kd_find stats g = Some entry ->
  exists ts prices,
    py_subscript (last records VNone) "timestamp" = Ok ts /\
    let batch := with_timestamp ts records in
    category g batch <> [] /\
    sorted (category_prices g batch) = Ok prices /\
    stats_entry (Z.of_nat (List.length (category g batch)))
      (Z.of_nat (List.length (category_rented g batch))) prices = Ok entry.
Proof.
  unfold get_summary_stats. destruct records as [|r0 records0]; intros H Hg Hf.
  - injection H as <-. discriminate.
  - set (records := r0 :: records0) in *.
    destruct (py_subscript (last records VNone) "timestamp") as [ts|e];
      [|discriminate]. cbn [rbind] in H.
    destruct (latest_batch ts records) as [batch|e] eqn:Hb; [|discriminate].
    cbn [rbind] in H. apply latest_batch_filter in Hb. subst batch.
    set (batch := with_timestamp ts records) in *.
    destruct (count_records (mk_counters [] [] []) batch) as [st|e] eqn:Hc;
      [|discriminate]. cbn [rbind] in H.
    assert (H0 : counters_hashable (mk_counters [] [] []))
      by (repeat split; apply keys_hashable_nil).
    destruct (count_records_spec batch _ st H0 Hc) as (Hst & S).
    destruct (S g Hg) as (A & B & C & D). simpl in A, B, C, D.
    destruct (build_stats_spec st _ [] stats g entry Hst
                (keys_hashable_keys _ (proj1 Hst)) keys_hashable_nil Hg H Hf)
      as [Hk | (total & prices & Ht & Hs & He)]; [discriminate|].
    exists ts, prices. split; [reflexivity|]. cbv zeta.
    assert (Hm : kd_mem (gpu_counts st) g = true)
      by (unfold kd_mem; now rewrite Ht).
    assert (Htot : total = Z.of_nat (List.length (category g batch))).
    { unfold kd_get in A. rewrite Ht in A. exact A. }
    rewrite C in Hs. rewrite B, Htot in He.
    repeat split; try assumption.
    intros Hnil. rewrite D in Hm.
    apply existsb_exists in Hm. destruct Hm as (r & Hin & Hr).
    assert (Hin' : In r (category g batch))
      by (apply filter_In; now split).
    change (category g batch = []) in Hnil.
    rewrite Hnil in Hin'. exact Hin'.
Qed.

(** The keys of the summary are hashable and distinct: every entry is
    the one its key finds. *)
Lemma get_summary_stats_entries (records : list value)
  (stats : kdict value) (g entry : value) :
  get_summary_stats records = Ok stats -> In (g, entry) stats ->
  hashable g = true /\ kd_find stats g = Some entry.
Proof.
  unfold get_summary_stats. destruct records as [|r0 records0]; intros H Hin.
  - injection H as <-. contradiction.
  - set (records := r0 :: records0) in *.
    destruct (py_subscript (last records VNone) "timestamp") as [ts|e];
      [|discriminate]. cbn [rbind] in H.
    destruct (latest_batch ts records) as [batch|e]; [|discriminate].
    cbn [rbind] in H.
    destruct (count_records (mk_counters [] [] []) batch) as [st|e] eqn:Hc;
      [|discriminate]. cbn [rbind] in H.
    assert (H0 : counters_hashable (mk_counters [] [] []))
      by (repeat split; apply keys_hashable_nil).
    destruct (count_records_spec batch _ st H0 Hc) as (Hst & _).
    destruct (build_stats_distinct st _ [] stats
                (keys_hashable_keys _ (proj1 Hst)) keys_hashable_nil I H)
      as [Hk Hd].
    now apply kd_find_in.
Qed.

(** Every entry of the summary is the entry of its category. *)
Lemma get_summary_stats_spec (records : list value) (stats : kdict value)
  (g entry : value) :
  get_summary_stats records = Ok stats -> In (g, entry) stats ->
  exists ts prices,
    py_subscript (last records VNone) "timestamp" = Ok ts /\
    let batch := with_timestamp ts records in
    category g batch <> [] /\
    sorted (category_prices g batch) = Ok prices /\
    stats_entry (Z.of_nat (List.length (category g batch)))
      (Z.of_nat (List.length (category_rented g batch))) prices = Ok entry.
Proof.
  intros H Hin.
  destruct (get_summary_stats_entries records stats g entry H Hin) as [Hg Hf].
  exact (get_summary_stats_lookup records stats g entry H Hg Hf).
Qed.

(** The records the first loop accepts have hashable GPU names. *)
Lemma count_records_hashable (batch : list value) (st st' : counters) :
  count_records st batch = Ok st' ->
  Forall (fun r => hashable (gpu_of r) = true) batch.
Proof.
  revert st. induction batch as [|r batch IH]; intros st H.
  - constructor.
  - simpl in H. destruct (count_record st r) as [st1|e] eqn:H1;
      [|discriminate]. cbn [rbind] in H.
    constructor; [exact (proj1 (count_record_ok st st1 r H1))|].
    exact (IH st1 H).
Qed.

(** Every category of the latest batch has an entry in the summary. *)
Lemma get_summary_stats_complete (records : list value)
  (stats : kdict value) (ts r : value) :
  get_summary_stats records = Ok stats ->
  py_subscript (last records VNone) "timestamp" = Ok ts ->
  In r (with_timestamp ts records) ->
  kd_mem stats (gpu_of r) = true.
Proof.
  unfold get_summary_stats.
  destruct records as [|r0 records0]; intros H Hts Hin; [contradiction|].
  set (records := r0 :: records0) in *.
  rewrite Hts in H. cbn [rbind] in H.
  destruct (latest_batch ts records) as [batch|e] eqn:Hb; [|discriminate].
  cbn [rbind] in H. apply latest_batch_filter in Hb. subst batch.
  set (batch := with_timestamp ts records) in *.
  destruct (count_records (mk_counters [] [] []) batch) as [st|e] eqn:Hc;
    [|discriminate]. cbn [rbind] in H.
  assert (H0 : counters_hashable (mk_counters [] [] []))
    by (repeat split; apply keys_hashable_nil).
  destruct (count_records_spec batch _ st H0 Hc) as (Hst & S).
  pose proof (count_records_hashable batch _ st Hc) as Hh.
  rewrite Forall_forall in Hh. specialize (Hh r Hin).
  destruct (S (gpu_of r) Hh) as (_ & _ & _ & D). simpl in D.
  assert (Hm : kd_mem (gpu_counts st) (gpu_of r) = true).
  { rewrite D. apply existsb_exists. exists r. split; [exact Hin|].
    unfold in_category. now apply py_same_refl. }
  apply (build_stats_mem st _ [] stats (gpu_of r)
           (keys_hashable_keys _ (proj1 Hst)) keys_hashable_nil Hh H).
  right. now apply kd_mem_exists.
Qed.

(** ** Median *)

(** Numbers without NaN are numbers. *)
Lemma ordered_numbers (l : list value) :
  Forall (fun p => ordered_number p = true) l -> numbers l.
Proof.
  unfold numbers. apply Forall_impl. intros p Hp.
  destruct p as [| | |f| | |]; try discriminate Hp; reflexivity.
Qed.

Lemma half_index (n : nat) : Z.to_nat (Z.of_nat n / 2) = (n / 2)%nat.
Proof.
  change 2 with (Z.of_nat 2). rewrite <- Nat2Z.inj_div. apply Nat2Z.id.
Qed.

Lemma nth_error_half_none (sp : list value) :
  nth_error sp (List.length sp / 2) = None -> sp = [].
Proof.
  intros H. apply nth_error_None in H.
  destruct sp as [|a sp]; [reflexivity|]. exfalso.
  assert (Hlt : (List.length (a :: sp) / 2 < List.length (a :: sp))%nat).
  { apply Nat.div_lt; simpl; lia. }
  lia.
Qed.

Lemma price_median_nth (sp : list value) :
  price_median sp =
  match nth_error sp (List.length sp / 2) with
  | Some m => py_round m 3
  | None => Ok VNone
  end.
Proof.
  destruct sp as [|a sp]; [reflexivity|].
  unfold price_median, list_index. rewrite half_index.
  destruct (nth_error (a :: sp) (List.length (a :: sp) / 2)) eqn:Hn;
    [reflexivity|].
  apply nth_error_half_none in Hn. discriminate Hn.
Qed.

(** C1 (amended): when the prices of a category are numbers and none
    is a NaN, the reported median of the category is the element at the
    0-based index [floor(n/2)] of its sorted prices, rounded to three
    decimals: for an even number of prices this is the upper of the two
    middle elements (30 for the prices 10, 20, 30, 40), and never an
    average.  The sorted prices are a rearrangement of the prices of the
    category, in ascending order. *)
Theorem reported_median_is_upper_middle (records : list value)
  (stats : kdict value) (g entry ts : value) :
  get_summary_stats records = Ok stats -> In (g, entry) stats ->
  py_subscript (last records VNone) "timestamp" = Ok ts ->
  Forall (fun p => ordered_number p = true)
    (category_prices g (with_timestamp ts records)) ->
  exists sp,
    sorted (category_prices g (with_timestamp ts records)) = Ok sp /\
    Permutation (category_prices g (with_timestamp ts records)) sp /\
    ascending sp /\
    match nth_error sp (List.length sp / 2) with
    | Some m => py_round m 3 = Ok (field entry "price_median")
    | None => sp = [] /\ field entry "price_median" = VNone
    end.
Proof.
  intros H Hin Hts Hord.
  destruct (get_summary_stats_spec records stats g entry H Hin)
    as (ts' & sp & Hts' & _ & Hs & He).
  rewrite Hts in Hts'. injection Hts' as <-.
  exists sp. split; [exact Hs|]. split; [now apply sorted_perm|]. split.
  - destruct (sorted_numbers _ (ordered_numbers _ Hord))
      as (sp' & Hs' & _ & Ha & _).
    rewrite Hs in Hs'. now injection Hs' as ->.
  - apply stats_entry_fields in He.
    destruct He as (_ & _ & _ & _ & _ & Hmed & _).
    rewrite price_median_nth in Hmed.
    destruct (nth_error sp (List.length sp / 2)) eqn:Hn; [exact Hmed|].
    split; [now apply nth_error_half_none|]. now injection Hmed as <-.
Qed.

(** C4 (amended): when the prices of a category that [bool()] takes
    as true are numbers and none is a NaN, the reported minimum, median
    and maximum price of the category are computed over exactly the
    records of that category in the latest batch whose ["dph_total"] is
    true for [bool()]: a record priced [None] is left out, and so is a
    record priced 0. *)
Theorem prices_over_truthy_records (records : list value)
  (stats : kdict value) (g entry ts : value) :
  get_summary_stats records = Ok stats -> In (g, entry) stats ->
  py_subscript (last records VNone) "timestamp" = Ok ts ->
  Forall (fun p => ordered_number p = true)
    (category_prices g (with_timestamp ts records)) ->
  exists sp,
    sorted (category_prices g (with_timestamp ts records)) = Ok sp /\
    Permutation (category_prices g (with_timestamp ts records)) sp /\
    ascending sp /\
    price_min sp = Ok (field entry "price_min") /\
    price_median sp = Ok (field entry "price_median") /\
    price_max sp = Ok (field entry "price_max").
Proof.
  intros H Hin Hts Hord.
  destruct (get_summary_stats_spec records stats g entry H Hin)
    as (ts' & sp & Hts' & _ & Hs & He).
  rewrite Hts in Hts'. injection Hts' as <-.
  exists sp. split; [exact Hs|]. split; [now apply sorted_perm|]. split.
  - destruct (sorted_numbers _ (ordered_numbers _ Hord))
      as (sp' & Hs' & _ & Ha & _).
    rewrite Hs in Hs'. now injection Hs' as ->.
  - apply stats_entry_fields in He. tauto.
Qed.

(** ** Rental rate *)

Lemma int_truediv_pos (a b : Z) :
  0 < b -> int_truediv a b <> Err ZeroDivisionError.
Proof.
  intros Hb. unfold int_truediv. destruct b as [|d|d]; try lia.
  destruct (float_is_inf (float_of_ratio a d)); discriminate.
Qed.

(** C9: the rental rate of a category whose total is 0 is the integer 0;
    no total makes the computation divide by zero; for a positive total
    the rate is [rented / total * 100] rounded to one decimal: with [q]
    the double nearest to [rented / total] and [p] the double nearest to
    [q * 100], it is the double nearest to [N / 10], where [N] is the
    integer nearest to ten times the exact value of [p], the even one of
    two that are equally near.  For [0 <= rented <= total] the rate is
    produced. *)
Theorem rental_rate_guarded (rented total : Z) (d : positive) :
  rental_rate rented 0 = Ok (VInt 0) /\
  rental_rate rented total <> Err ZeroDivisionError /\
  (exists r,
     rounded_to 1 (times_hundred (nearest_double rented d)) r /\
     (forall r',
        rounded_to 1 (times_hundred (nearest_double rented d)) r' ->
        r' = r) /\
     rental_rate rented (Zpos d) =
       match nearest_double rented d with
       | S754_infinity _ => Err OverflowError
       | _ => Ok (VFloat r)
       end) /\
  (0 <= rented <= Zpos d ->
   exists r, rental_rate rented (Zpos d) = Ok (VFloat r)).
Proof.
  split; [reflexivity|]. split; [|split].
  - unfold rental_rate. destruct (0 <? total) eqn:Hpos; [|discriminate].
    apply Z.ltb_lt in Hpos.
    pose proof (int_truediv_pos rented total Hpos) as Hd.
    destruct (int_truediv rented total) as [q|e]; simpl; [discriminate|].
    congruence.
  - exists (float_round (times_hundred (nearest_double rented d)) 1).
    split; [apply float_round_rounded; lia|]. split.
    + intros r' Hr'.
      exact (rounded_to_unique 1 _ _ _ Hr'
               (float_round_rounded _ 1 ltac:(lia))).
    + unfold rental_rate, int_truediv. simpl (0 <? Z.pos d).
      rewrite float_of_ratio_nearest. cbv iota.
      destruct (nearest_double rented d) as [s|s| |s m e] eqn:Hq;
        cbn [float_is_inf rbind py_round];
        try (unfold float_mul; rewrite float_of_int_hundred;
             reflexivity).
      reflexivity.
  - intros Hr. unfold rental_rate. simpl (0 <? Z.pos d).
    destruct (int_truediv_fraction rented (Z.pos d) Hr ltac:(lia))
      as (q & ->).
    eexists. reflexivity.
Qed.

(** Every reported category has at least one record, and its entry
    holds the rental rate of its own counts. *)
Lemma reported_rental_rate (records : list value) (stats : kdict value)
  (g entry : value) :
  get_summary_stats records = Ok stats -> In (g, entry) stats ->
  exists total rented,
    0 < total /\ field entry "total" = VInt total /\
    field entry "rented" = VInt rented /\
    rental_rate rented total = Ok (field entry "rental_rate").
Proof.
  intros H Hin.
  destruct (get_summary_stats_spec records stats g entry H Hin)
    as (ts & sp & _ & Hne & _ & He).
  apply stats_entry_fields in He.
  destruct He as (Ht & Hr & _ & Hrate & _).
  eexists; eexists. split; [|split; [exact Ht|split; [exact Hr|exact Hrate]]].
  destruct (category g (with_timestamp ts records)); [contradiction|].
  simpl List.length. lia.
Qed.

(** ** The summary is produced *)

Lemma price_min_numbers (sp : list value) :
  numbers sp -> exists v, price_min sp = Ok v.
Proof.
  intros Hn. destruct Hn as [|x l Hx Hl]; [now eexists|].
  unfold price_min, py_min.
  destruct (min_from_numbers l x Hx Hl) as (m & -> & Hm). simpl.
  now apply py_round_number.
Qed.

Lemma price_max_numbers (sp : list value) :
  numbers sp -> exists v, price_max sp = Ok v.
Proof.
  intros Hn. destruct Hn as [|x l Hx Hl]; [now eexists|].
  unfold price_max, py_max.
  destruct (max_from_numbers l x Hx Hl) as (m & -> & Hm). simpl.
  now apply py_round_number.
Qed.

Lemma price_median_numbers (sp : list value) :
  numbers sp -> exists v, price_median sp = Ok v.
Proof.
  intros Hn. rewrite price_median_nth.
  destruct (nth_error sp (List.length sp / 2)) as [m|] eqn:Hm; [|now eexists].
  apply py_round_number. apply nth_error_In in Hm.
  unfold numbers in Hn. rewrite Forall_forall in Hn. now apply Hn.
Qed.

(** The rate of [rented] records among [total] is always produced. *)
Lemma rental_rate_of_counts (rented total : Z) :
  0 <= rented <= total -> 0 < total ->
  exists q, int_truediv rented total = Ok q /\
    rental_rate rented total =
      Ok (VFloat (float_round (float_mul q (float_of_int 100)) 1)).
Proof.
  intros Hr Ht. destruct (int_truediv_fraction rented total Hr Ht) as (q & Hq).
  exists q. split; [exact Hq|]. unfold rental_rate.
  apply Z.ltb_lt in Ht. rewrite Ht, Hq. reflexivity.
Qed.

Lemma stats_entry_total (total rented : Z) (sp : list value) :
  0 <= rented <= total -> 0 < total -> numbers sp ->
  exists entry, stats_entry total rented sp = Ok entry.
Proof.
  intros Hr Ht Hn. unfold stats_entry.
  destruct (rental_rate_of_counts rented total Hr Ht) as (q & _ & ->).
  destruct (price_min_numbers sp Hn) as (pmin & ->).
  destruct (price_median_numbers sp Hn) as (pmed & ->).
  destruct (price_max_numbers sp Hn) as (pmax & ->).
  simpl. eexists. reflexivity.
Qed.

Lemma count_record_total (st : counters) (r : value) :
  reportable r = true -> exists st', count_record st r = Ok st'.
Proof.
  destruct r as [| | | | | |d]; try discriminate. unfold reportable.
  rewrite !andb_true_iff. intros [[_ Hh] _].
  unfold count_record, py_get, rbind, check_hashable.
  change (match assoc d "gpu_name" with
          | Some v => v
          | None => VStr "Unknown"
          end) with (gpu_of (VDict d)).
  rewrite Hh.
  change (match assoc d "dph_total" with Some v => v | None => VNone end)
    with (field (VDict d) "dph_total").
  destruct (truthy (field (VDict d) "dph_total")) eqn:Hp;
    [|eexists; reflexivity].
  unfold py_subscript. unfold field, get in Hp.
  destruct (assoc d "dph_total"); [eexists; reflexivity|discriminate].
Qed.

Lemma count_records_total (batch : list value) (st : counters) :
  all_reportable batch -> exists st', count_records st batch = Ok st'.
Proof.
  intros Hb. revert st. induction Hb as [|r batch Hr Hb IH]; intros st; simpl.
  - now eexists.
  - destruct (count_record_total st r Hr) as (st1 & ->). simpl. apply IH.
Qed.

Lemma latest_batch_total (ts : value) (records : list value) :
  all_reportable records -> exists batch, latest_batch ts records = Ok batch.
Proof.
  intros Hr. induction Hr as [|r records Hr Hrs IH]; simpl.
  - now eexists.
  - destruct r as [| | | | | |d]; try discriminate. simpl.
    unfold reportable in Hr. rewrite !andb_true_iff in Hr.
    destruct Hr as [[Ht _] _].
    destruct (assoc d "timestamp"); [|discriminate]. simpl.
    destruct IH as (batch & ->). simpl. eexists. reflexivity.
Qed.

Lemma with_timestamp_reportable (ts : value) (records : list value) :
  all_reportable records -> all_reportable (with_timestamp ts records).
Proof.
  unfold all_reportable, with_timestamp. rewrite !Forall_forall.
  intros H r Hin. apply filter_In in Hin. now apply H.
Qed.

Lemma category_prices_numbers (g : value) (batch : list value) :
  all_reportable batch -> numbers (category_prices g batch).
Proof.
  unfold all_reportable, numbers, category_prices, category.
  rewrite !Forall_forall. intros H p Hin.
  apply in_map_iff in Hin. destruct Hin as (r & <- & Hin).
  apply filter_In in Hin. destruct Hin as [Hin Ht].
  apply filter_In in Hin. destruct Hin as [Hin _].
  specialize (H r Hin). destruct r as [| | | | | |d]; try discriminate.
  unfold reportable in H. rewrite !andb_true_iff in H.
  destruct H as [_ H]. rewrite Ht in H. exact H.
Qed.

Lemma category_rented_le (g : value) (batch : list value) :
  (List.length (category_rented g batch) <= List.length (category g batch))%nat.
Proof. unfold category_rented. apply filter_length_le. Qed.

Lemma build_stats_total (st : counters) (batch gpus : list value)
  (stats : kdict value) :
  counters_hashable st -> all_reportable batch ->
  (forall g, hashable g = true ->
     kd_get (gpu_counts st) g 0 = Z.of_nat (List.length (category g batch)) /\
     kd_get (rented_counts st) g 0 =
       Z.of_nat (List.length (category_rented g batch)) /\
     kd_get (price_by_gpu st) g [] = category_prices g batch /\
     kd_mem (gpu_counts st) g = existsb (in_category g) batch) ->
  Forall (fun g => hashable g = true /\ kd_mem (gpu_counts st) g = true) gpus ->
  exists res, build_stats st gpus stats = Ok res.
Proof.
  intros Hst Hb S Hg. revert stats.
  induction Hg as [|gpu rest [Hh Hm] Hrest IH]; intros stats; simpl.
  - now eexists.
  - destruct (S gpu Hh) as (A & B & C & D).
    unfold kd_subscript. unfold kd_mem in Hm. unfold kd_get in A.
    destruct (kd_find (gpu_counts st) gpu) as [total|] eqn:Hf; [|discriminate].
    simpl. rewrite C.
    destruct (sorted_numbers _ (category_prices_numbers gpu batch Hb))
      as (sp & -> & Hn & _). simpl. rewrite B.
    assert (Hpos : 0 < total).
    { rewrite A. unfold kd_mem in D. rewrite Hf in D. symmetry in D.
      apply existsb_exists in D. destruct D as (r & Hin & Hr).
      assert (Hin' : In r (category gpu batch)) by (apply filter_In; now split).
      destruct (category gpu batch); [contradiction|]. simpl List.length. lia. }
    pose proof (category_rented_le gpu batch) as Hle.
    destruct (stats_entry_total total
                (Z.of_nat (List.length (category_rented gpu batch))) sp
                ltac:(lia) Hpos Hn) as (entry & ->).
    simpl. apply IH.
Qed.

Lemma last_reportable (records : list value) :
  records <> [] -> all_reportable records ->
  reportable (last records VNone) = true.
Proof.
  intros Hne Hr. unfold all_reportable in Hr. rewrite Forall_forall in Hr.
  apply Hr. destruct records as [|r l]; [contradiction|].
  apply (@exists_last _ (r :: l)) in Hne. destruct Hne as (l' & a & ->).
  rewrite last_last. apply in_or_app. right. now left.
Qed.

(** On reportable records the summary is produced: no step raises. *)
Lemma get_summary_stats_total (records : list value) :
  all_reportable records -> exists stats, get_summary_stats records = Ok stats.
Proof.
  intros Hr. unfold get_summary_stats.
  destruct records as [|r0 records0] eqn:Hrec; [now eexists|].
  rewrite <- Hrec in *.
  assert (Hlast : reportable (last records VNone) = true)
    by (apply last_reportable; [subst; discriminate|exact Hr]).
  destruct (last records VNone) as [| | | | | |d]; try discriminate.
  unfold reportable in Hlast. rewrite !andb_true_iff in Hlast.
  destruct Hlast as [[Hts _] _]. unfold py_subscript.
  destruct (assoc d "timestamp") as [ts|]; [|discriminate]. cbn [rbind].
  destruct (latest_batch_total ts records Hr) as (batch & Hb). rewrite Hb.
  cbn [rbind]. apply latest_batch_filter in Hb.
  assert (Hbr : all_reportable batch)
    by (subst batch; now apply with_timestamp_reportable).
  destruct (count_records_total batch (mk_counters [] [] []) Hbr) as (st & Hc).
  rewrite Hc. cbn [rbind].
  assert (H0 : counters_hashable (mk_counters [] [] []))
    by (repeat split; apply keys_hashable_nil).
  destruct (count_records_spec batch _ st H0 Hc) as (Hst & S).
  apply (build_stats_total st batch); try assumption.
  pose proof (keys_hashable_keys _ (proj1 Hst)) as Hk.
  rewrite Forall_forall in Hk |- *. intros g Hin. split; [now apply Hk|].
  apply kd_mem_key; [apply Hst|exact Hin].
Qed.

(** ** Empty dataset *)

(** C10: on the empty dataset the summary is the empty mapping; the
    last record is not looked at. *)
Theorem get_summary_stats_empty : get_summary_stats [] = Ok [].
Proof. reflexivity. Qed.

End ReporterFacts.

(* ================================================================== *)
(** * The projector *)
(* ================================================================== *)

Module ProjectorFacts.
Import Py DateTime Spec CollectData Examples.

(** The projection of a dictionary never raises. *)
Lemma process_offer_at_dict (now : datetime) (o : list (string * value)) :
  exists rec, process_offer_at now (VDict o) = Ok (VDict rec).
Proof. eexists. reflexivity. Qed.

(** ** Well-formedness *)

Lemma wf_assoc (d : list (string * value)) (k : string) (v : value) :
  forallb (fun kv => match kv with (_, x) => wf_value x end) d = true ->
  assoc d k = Some v -> wf_value v = true.
Proof.
  induction d as [|[k' x] d IH]; simpl; intros Hd Ha; [discriminate|].
  apply andb_true_iff in Hd. destruct Hd as [Hx Hd].
  destruct (String.eqb k' k).
  - now injection Ha as <-.
  - now apply IH.
Qed.

Lemma wf_get_or (d : list (string * value)) (k : string) (default : value) :
  wf_value (VDict d) = true -> wf_value default = true ->
  wf_value (get_or d k default) = true.
Proof.
  intros Hd Hdef. simpl in Hd. apply andb_true_iff in Hd.
  unfold get_or. destruct (assoc d k) as [v|] eqn:Ha; [|exact Hdef].
  exact (wf_assoc d k v (proj2 Hd) Ha).
Qed.

Lemma wf_get (d : list (string * value)) (k : string) :
  wf_value (VDict d) = true -> wf_value (get d k) = true.
Proof. intros Hd. now apply (wf_get_or d k VNone). Qed.

(** The record built from a well-formed offer is well formed. *)
Lemma process_offer_at_wf (now : datetime) (offer rec : value) :
  wf_value offer = true -> process_offer_at now offer = Ok rec ->
  wf_value rec = true.
Proof.
  destruct offer as [| | | | | |o]; try discriminate.
  intros Ho H. injection H as <-.
  pose proof (wf_get o) as G. pose proof (wf_get_or o) as GO.
  cbn [wf_value forallb map fst].
  apply andb_true_iff. split; [reflexivity|].
  rewrite !G, !GO by (try apply G; trivial). reflexivity.
Qed.

(** The record built from an offer is reportable whenever the offer's
    GPU name is hashable and its price, if true for [bool()], a number. *)
Lemma process_offer_at_reportable (now : datetime)
  (o : list (string * value)) (rec : value) :
  hashable (get o "gpu_name") = true ->
  negb (truthy (get o "dph_total")) || is_number (get o "dph_total") = true ->
  process_offer_at now (VDict o) = Ok rec -> reportable rec = true.
Proof.
  intros Hg Hp H. unfold process_offer_at in H. injection H as <-.
  set (g := get o "gpu_name") in *. set (p := get o "dph_total") in *.
  clearbody g p. unfold reportable, gpu_of, field, get_or, get.
  cbn [assoc String.eqb Ascii.eqb Bool.eqb andb].
  now rewrite Hg, Hp.
Qed.

(** C3 (amended): the reliability of a record is the offer's
    ["reliability2"], or its ["reliability"] when ["reliability2"] is
    absent; a flag among datacenter, verified, static_ip and rented is
    [False] when absent; every field copied without a default is [None]
    when absent; ["num_renting"] is the integer 0 when absent. *)
Theorem projection_policy (now : datetime) (o : list (string * value))
  (flag out inp : string) :
  In flag flag_fields -> In (out, inp) copied_fields ->
  exists rec,
    process_offer_at now (VDict o) = Ok (VDict rec) /\
    assoc rec "reliability" =
      Some (match assoc o "reliability2" with
            | Some v => v
            | None => match assoc o "reliability" with
                      | Some v => v
                      | None => VNone
                      end
            end) /\
    assoc rec flag =
      Some (match assoc o flag with Some v => v | None => VBool false end) /\
    assoc rec out =
      Some (match assoc o inp with Some v => v | None => VNone end) /\
    assoc rec "num_renting" =
      Some (match assoc o "num_renting" with Some v => v | None => VInt 0 end).
Proof.
  intros Hflag Hcopy. eexists. split; [reflexivity|].
  split; [reflexivity|]. split; [|split; [|reflexivity]].
  - simpl in Hflag.
    repeat (destruct Hflag as [<- | Hflag]; [reflexivity|]).
    contradiction.
  - simpl in Hcopy.
    repeat (destruct Hcopy as [Hcopy | Hcopy];
            [injection Hcopy as <- <-; reflexivity|]).
    contradiction.
Qed.

(** ** The loop over the offers *)

(** Offers that are dictionaries all give a record. *)
Lemma project_from_length (clock : nat -> datetime) (n : nat)
  (offers : list value) :
  Forall (fun offer => exists o, offer = VDict o) offers ->
  List.length (project_from clock n offers) = List.length offers.
Proof.
  intros H. revert n. induction H as [|offer rest [o ->] _ IH]; intros n.
  - reflexivity.
  - simpl. now rewrite IH.
Qed.

Section Loop.

Context {doc : Type} {codec : JsonText doc}.

(** The loop never raises; it reads the clock once per offer and stamps
    the record of an offer with the reading made for that offer. *)
Lemma process_offers_spec (offers records : list value) (w : world doc) :
  process_offers offers records w =
  (Ok (records ++ project_from (clock w) (ticks w) offers),
   mk_world (environ w) (server w) (sent w) (clock w)
     (ticks w + List.length offers) (fs w)).
Proof.
  revert records w. induction offers as [|offer rest IH]; intros records w.
  - simpl. rewrite app_nil_r, Nat.add_0_r. now destruct w.
  - cbn [process_offers project_from List.length].
    cbv beta iota zeta
      delta [bind try_except process_offer datetime_now lift ret].
    destruct (process_offer_at (clock w (ticks w)) offer) as [record|e];
      rewrite IH; cbn [clock ticks environ server sent fs];
      rewrite <- ?app_assoc, Nat.add_succ_r; reflexivity.
Qed.

End Loop.

(** C2: a run over two offers with a clock that advances between the
    two projections stamps its two records differently, and the summary
    of the run then counts one record, not two. *)
Theorem timestamps_differ_within_one_run :
  rbind (fst (collect_data two_offers_world))
    (fun records => Ok (timestamps_of records)) =
  Ok [VStr "2026-11-04T07:05:09"; VStr "2026-11-04T07:05:09.000001"] /\
  rbind (fst (collect_data two_offers_world))
    (fun records =>
       match records with
       | VList l => reported l (VStr "RTX 4090") "total"
       | _ => Err TypeError
       end) = Ok (VInt 1).
Proof. split; vm_compute; reflexivity. Qed.

End ProjectorFacts.

(* ================================================================== *)
(** * The fetcher *)
(* ================================================================== *)

Module FetcherFacts.
Import Py DateTime Spec CollectData Examples.

Section Fetcher.

Context {doc : Type} {codec : JsonText doc}.

(** C7 (amended): the fetcher makes exactly one request, whatever the
    answer.  When the status is 200 and the body decodes to a JSON object
    it returns what the object holds under ["offers"], or the empty list,
    provided that value has a length; when the status is 200 and the
    body does not decode, or decodes to something else, it raises.  When
    the status is not 200 it raises an exception whose message carries
    the status code and the body. *)
Theorem fetch_vast_offers_outcome (w : world doc) (api_key : string)
  (r : response) :
  server w (List.length (sent w)) = Ok r ->
  sent (snd (fetch_vast_offers api_key w)) =
    sent w ++ [mk_request VAST_API_URL (fetch_headers api_key) fetch_payload] /\
  fst (fetch_vast_offers api_key w) =
    if status_code r =? 200 then
      match json r with
      | Ok (VDict d) =>
          let offers := get_or d "offers" (VList []) in
          match py_len offers with
          | Ok _ => Ok offers
          | Err e => Err e
          end
      | Ok _ => Err AttributeError
      | Err e => Err e
      end
    else
      Err (Exception (String.append "API Error: "
             (String.append (str_of_int (status_code r))
                (String.append " - " (text r))))).
Proof.
  intros Hr. unfold fetch_vast_offers, bind, requests_post. rewrite Hr.
  destruct (status_code r =? 200); simpl; [|split; reflexivity].
  unfold lift.
  destruct (json r) as [[| | | | | |d]|e]; try (split; reflexivity).
  simpl. unfold get_or.
  destruct (py_len match assoc d "offers" with
                   | Some v => v
                   | None => VList []
                   end); split; reflexivity.
Qed.

End Fetcher.

End FetcherFacts.

(* ================================================================== *)
(** * The store and the orchestration *)
(* ================================================================== *)

Module StoreFacts.
Import Py DateTime Spec CollectData Examples.

Section Store.

Context {doc : Type} {codec : JsonText doc}.

(** ** Loading *)

(** What [load_existing_data] returns is read off the file system, which
    it leaves unchanged. *)
Lemma load_existing_data_eq (w : world doc) :
  load_existing_data w =
  (match data_file_node w with
   | None => Ok (VList [])
   | Some (File c) => json_load c
   | Some Dir => Err IsADirectoryError
   end, w).
Proof.
  unfold load_existing_data, bind, data_file_exists, data_file_node,
    read_data_file, lift, ret.
  destruct (fs w DATA_DIR) as [[c|]|] eqn:Hd; cbv beta iota zeta;
    rewrite ?Hd; try reflexivity.
  destruct (fs w DATA_FILE) as [[c|]|] eqn:Hf; cbv beta iota zeta;
    rewrite ?Hd, ?Hf; reflexivity.
Qed.

(** C6: when the dataset file does not exist, loading returns the empty
    list, raises nothing and changes nothing. *)
Theorem load_missing_dataset (w : world doc) :
  data_file_node w = None ->
  load_existing_data w = (Ok (VList []), w).
Proof. intros H. rewrite load_existing_data_eq, H. reflexivity. Qed.

(** ** Saving *)

(** On a storable file system [save_data] of a list raises nothing,
    makes ["data"] a directory and puts the dumped records in the
    dataset file; nothing else changes. *)
Lemma save_data_storable (w : world doc) (R : list value) :
  storable w ->
  exists w',
    save_data (VList R) w = (Ok tt, w') /\
    data_file_node w' = Some (File (json_dump (VList R) 2)) /\
    (forall p, p <> DATA_DIR -> p <> DATA_FILE -> fs w' p = fs w p) /\
    environ w' = environ w /\ server w' = server w /\ sent w' = sent w /\
    clock w' = clock w /\ ticks w' = ticks w.
Proof.
  intros [Hdir Hfile].
  unfold save_data, bind, mkdir_data_dir, write_data_file, data_file_node,
    lift, ret, py_len.
  destruct (fs w DATA_DIR) as [[c|]|] eqn:Hd.
  - exfalso. now apply (Hdir c).
  - rewrite Hd. destruct (fs w DATA_FILE) as [[c|]|] eqn:Hf;
      try (exfalso; now apply Hfile);
      (eexists; split; [reflexivity|]; simpl; unfold fs_update;
       split; [simpl; rewrite Hd; reflexivity|];
       split; [|repeat split];
       intros p Hp1 Hp2; apply String.eqb_neq in Hp2; now rewrite Hp2).
  - simpl. unfold fs_update at 1. simpl.
    unfold fs_update at 1. simpl.
    destruct (fs w DATA_FILE) as [[c|]|] eqn:Hf;
      try (exfalso; now apply Hfile);
      (eexists; split; [reflexivity|]; simpl; unfold fs_update;
       split; [reflexivity|];
       split; [|repeat split];
       intros p Hp1 Hp2; apply String.eqb_neq in Hp1;
       apply String.eqb_neq in Hp2; now rewrite Hp2, Hp1).
Qed.

(** ** Round trip *)

Section RoundTrip.

(** The [json] module decodes what it encoded: the assumption made on
    the library, for the values that are images of JSON documents. *)
Hypothesis json_lossless :
  forall (v : value) (indent : Z),
    wf_value v = true -> json_load (json_dump v indent) = Ok v.

(** C5: saving a sequence of well-formed records and loading the
    dataset file returns the sequence. *)
Theorem load_after_save (w : world doc) (R : list value) :
  forallb wf_value R = true -> storable w ->
  exists w',
    save_data (VList R) w = (Ok tt, w') /\
    load_existing_data w' = (Ok (VList R), w').
Proof.
  intros Hwf Hst.
  destruct (save_data_storable w R Hst) as (w' & Hsave & Hnode & _).
  exists w'. split; [exact Hsave|].
  rewrite load_existing_data_eq, Hnode.
  now rewrite (json_lossless (VList R) 2 Hwf).
Qed.

End RoundTrip.

(** ** What the collection leaves alone *)

Lemma keeps_fs_ret {A} (a : A) : keeps_fs (ret (doc := doc) a).
Proof. intros w. reflexivity. Qed.

Lemma keeps_fs_raise {A} (e : exn) : keeps_fs (raise (doc := doc) (A := A) e).
Proof. intros w. reflexivity. Qed.

Lemma keeps_fs_lift {A} (r : result A) : keeps_fs (lift (doc := doc) r).
Proof. intros w. reflexivity. Qed.

Lemma keeps_fs_bind {A B} (m : M doc A) (k : A -> M doc B) :
  keeps_fs m -> (forall a, keeps_fs (k a)) -> keeps_fs (bind m k).
Proof.
  intros Hm Hk w. unfold bind. specialize (Hm w).
  destruct (m w) as [[a|e] w1]; simpl in *.
  - now rewrite Hk.
  - exact Hm.
Qed.

Lemma keeps_fs_try_except {A} (m : M doc A) (h : exn -> M doc A) :
  keeps_fs m -> (forall e, keeps_fs (h e)) -> keeps_fs (try_except m h).
Proof.
  intros Hm Hh w. unfold try_except. specialize (Hm w).
  destruct (m w) as [[a|e] w1]; simpl in *.
  - exact Hm.
  - now rewrite Hh.
Qed.

Lemma keeps_fs_process_offer (offer : value) :
  keeps_fs (process_offer (doc := doc) offer).
Proof.
  apply keeps_fs_bind; [intros w; reflexivity|].
  intros now. apply keeps_fs_lift.
Qed.

Lemma keeps_fs_process_offers (offers records : list value) :
  keeps_fs (process_offers (doc := doc) offers records).
Proof.
  revert records. induction offers as [|offer rest IH]; intros records.
  - apply keeps_fs_ret.
  - simpl. apply keeps_fs_bind; [|intros records'; apply IH].
    apply keeps_fs_try_except.
    + apply keeps_fs_bind; [apply keeps_fs_process_offer|].
      intros record. apply keeps_fs_ret.
    + intros e. apply keeps_fs_ret.
Qed.

Lemma keeps_fs_get_api_key : keeps_fs (get_api_key (doc := doc)).
Proof.
  apply keeps_fs_bind; [intros w; reflexivity|].
  intros [k|]; [|apply keeps_fs_raise].
  destruct (String.eqb k ""); [apply keeps_fs_raise|apply keeps_fs_ret].
Qed.

Lemma keeps_fs_fetch_vast_offers (api_key : string) :
  keeps_fs (fetch_vast_offers (doc := doc) api_key).
Proof.
  apply keeps_fs_bind; [intros w; reflexivity|].
  intros r. destruct (negb (status_code r =? 200)); [apply keeps_fs_raise|].
  apply keeps_fs_bind; [apply keeps_fs_lift|]. intros data.
  apply keeps_fs_bind; [apply keeps_fs_lift|]. intros offers.
  apply keeps_fs_bind; [apply keeps_fs_lift|]. intros n.
  apply keeps_fs_ret.
Qed.

(** Collecting touches the clock and the network, not the files. *)
Lemma keeps_fs_collect_data : keeps_fs (collect_data (doc := doc)).
Proof.
  apply keeps_fs_bind; [apply keeps_fs_get_api_key|]. intros api_key.
  apply keeps_fs_bind; [apply keeps_fs_fetch_vast_offers|]. intros offers.
  apply keeps_fs_bind; [apply keeps_fs_lift|]. intros items.
  apply keeps_fs_bind; [apply keeps_fs_process_offers|]. intros records.
  apply keeps_fs_ret.
Qed.

Lemma data_file_node_fs (w w' : world doc) :
  fs w' = fs w -> data_file_node w' = data_file_node w.
Proof. intros H. unfold data_file_node. now rewrite H. Qed.

Lemma storable_fs (w w' : world doc) :
  fs w' = fs w -> storable w -> storable w'.
Proof. intros H [H1 H2]. unfold storable. rewrite H. now split. Qed.

(** ** Appending *)

Section Append.

Variable print_summary : kdict value -> result unit.

(** After a run that collected a non-empty batch, the dataset file
    holds the dump of the loaded dataset extended with the batch.  The
    batch is collected once the banner has read the clock. *)
Lemma main_saves (w : world doc) (old new : list value) :
  fst (collect_data (snd (datetime_now w))) = Ok (VList new) -> new <> [] ->
  fst (load_existing_data w) = Ok (VList old) -> storable w ->
  data_file_node (snd (main print_summary w)) =
    Some (File (json_dump (VList (old ++ new)) 2)).
Proof.
  intros Hc Hne Hl Hst.
  unfold main. unfold bind at 1.
  change (datetime_now w) with (Ok (clock w (ticks w)), snd (datetime_now w)).
  cbv beta iota.
  set (w0 := snd (datetime_now w)) in *.
  assert (Hfs0 : fs w0 = fs w) by reflexivity.
  pose proof (keeps_fs_collect_data w0) as Hfs.
  unfold try_except, main_body, bind.
  destruct (collect_data w0) as [r w1]. simpl in Hc, Hfs. subst r.
  assert (Ht : truthy (VList new) = true)
    by (destruct new; [contradiction|reflexivity]).
  rewrite Ht. cbv beta iota zeta. unfold negb.
  rewrite load_existing_data_eq.
  rewrite load_existing_data_eq in Hl. simpl in Hl.
  assert (Hfs1 : fs w1 = fs w) by congruence.
  rewrite (data_file_node_fs w w1 Hfs1), Hl.
  unfold lift at 1 2. unfold py_len at 1. unfold py_add.
  destruct (save_data_storable w1 (old ++ new)
              (storable_fs w w1 Hfs1 Hst)) as (w2 & Hsave & Hnode & _).
  rewrite Hsave. unfold lift, ret, py_len.
  destruct (get_summary_stats (old ++ new)) as [stats|e]; simpl.
  - destruct (print_summary stats) as [[]|e]; simpl; [exact Hnode|].
    destruct (is_ValueError e); exact Hnode.
  - destruct (is_ValueError e); exact Hnode.
Qed.

(** C8: when the run collects the batch [new] of [k] records, [k > 0],
    after its banner has read the clock, and the dataset on disk is the
    list [old] of [n] records, the dataset file holds after the run the
    dump of [old ++ new]: [n + k] records, the first [n] of which are
    [old], in order, followed by [new]. *)
Theorem main_appends_batch (w : world doc) (old new : list value) :
  fst (collect_data (snd (datetime_now w))) = Ok (VList new) -> new <> [] ->
  fst (load_existing_data w) = Ok (VList old) -> storable w ->
  data_file_node (snd (main print_summary w)) =
    Some (File (json_dump (VList (old ++ new)) 2)) /\
  List.length (old ++ new) = (List.length old + List.length new)%nat /\
  firstn (List.length old) (old ++ new) = old /\
  skipn (List.length old) (old ++ new) = new.
Proof.
  intros Hc Hne Hl Hst.
  split; [now apply main_saves|]. split; [apply length_app|]. split.
  - rewrite firstn_app, Nat.sub_diag, firstn_all. simpl. apply app_nil_r.
  - rewrite skipn_app, Nat.sub_diag, skipn_all. reflexivity.
Qed.

End Append.

(** ** Reading back what a run saved *)

Section Reload.

Variable print_summary : kdict value -> result unit.

Hypothesis json_lossless :
  forall (v : value) (indent : Z),
    wf_value v = true -> json_load (json_dump v indent) = Ok v.

(** A run that collected nothing leaves the files as they were. *)
Lemma main_without_records (w : world doc) :
  fst (collect_data (snd (datetime_now w))) = Ok (VList []) ->
  fs (snd (main print_summary w)) = fs w.
Proof.
  intros Hc. unfold main. unfold bind at 1.
  change (datetime_now w) with (Ok (clock w (ticks w)), snd (datetime_now w)).
  cbv beta iota.
  set (w0 := snd (datetime_now w)) in *.
  pose proof (keeps_fs_collect_data w0) as Hfs.
  unfold try_except, main_body, bind.
  destruct (collect_data w0) as [r w1]. simpl in Hc, Hfs. subst r.
  simpl. exact Hfs.
Qed.

(** After a run that collected [new] on top of the well-formed dataset
    [old], loading returns [old ++ new], whether [new] is empty or not. *)
Lemma reload_after_main (w : world doc) (old new : list value) :
  fst (collect_data (snd (datetime_now w))) = Ok (VList new) ->
  fst (load_existing_data w) = Ok (VList old) -> storable w ->
  forallb wf_value (old ++ new) = true ->
  fst (load_existing_data (snd (main print_summary w))) =
    Ok (VList (old ++ new)).
Proof.
  intros Hc Hl Hst Hwf. destruct new as [|r new].
  - rewrite app_nil_r. rewrite load_existing_data_eq in Hl |- *.
    simpl in Hl |- *.
    now rewrite (data_file_node_fs w _ (main_without_records w Hc)).
  - pose proof (main_saves print_summary w old (r :: new) Hc
                  ltac:(discriminate) Hl Hst) as Hnode.
    rewrite load_existing_data_eq. simpl. rewrite Hnode.
    exact (json_lossless (VList (old ++ r :: new)) 2 Hwf).
Qed.

End Reload.

End Store.

End StoreFacts.

(* ================================================================== *)
(** * One collection *)
(* ================================================================== *)

Module CollectorFacts.
Import Py DateTime Spec CollectData Examples.

(** An offer that is not a dictionary gives no record. *)
Lemma project_from_no_dict (clock : nat -> datetime) (n : nat)
  (offers : list value) :
  Forall (fun offer => is_dict offer = false) offers ->
  project_from clock n offers = [].
Proof.
  intros H. revert n. induction H as [|offer rest Ho _ IH]; intros n.
  - reflexivity.
  - simpl. destruct offer; try discriminate Ho; apply IH.
Qed.

Lemma project_from_dicts (clock : nat -> datetime) (n : nat)
  (offers : list value) :
  List.length (project_from clock n offers) =
    List.length (filter is_dict offers) /\
  Forall (fun r => is_dict r = true) (project_from clock n offers).
Proof.
  revert n. induction offers as [|offer rest IH]; intros n.
  - split; [reflexivity|constructor].
  - destruct (IH (S n)) as [IH1 IH2].
    destruct offer; simpl; try (split; assumption).
    split; [now rewrite IH1|]. constructor; [reflexivity|exact IH2].
Qed.

Lemma project_from_wf (clock : nat -> datetime) (n : nat)
  (offers : list value) :
  forallb wf_value offers = true ->
  forallb wf_value (project_from clock n offers) = true.
Proof.
  revert n. induction offers as [|offer rest IH]; intros n H.
  - reflexivity.
  - simpl in H. apply andb_true_iff in H. destruct H as [Ho Hr].
    cbn [project_from].
    destruct (process_offer_at (clock n) offer) as [record|e] eqn:Hp.
    + cbn [forallb]. apply andb_true_iff. split; [|now apply IH].
      exact (ProjectorFacts.process_offer_at_wf _ _ _ Ho Hp).
    + now apply IH.
Qed.

Section Collector.

Context {doc : Type} {codec : JsonText doc}.

Lemma get_api_key_eq (w : world doc) :
  get_api_key w =
  (match environ w "VAST_API_KEY" with
   | Some k =>
       if String.eqb k "" then Err (ValueError api_key_missing) else Ok k
   | None => Err (ValueError api_key_missing)
   end, w).
Proof.
  unfold get_api_key, bind, environ_get.
  destruct (environ w "VAST_API_KEY") as [k|];
    [destruct (String.eqb k "")|]; reflexivity.
Qed.

(** Without a key nothing is requested. *)
Lemma collect_data_without_key (w : world doc) :
  environ w "VAST_API_KEY" = None \/ environ w "VAST_API_KEY" = Some "" ->
  collect_data w = (Err (ValueError api_key_missing), w).
Proof.
  intros H. unfold collect_data. unfold bind at 1. rewrite get_api_key_eq.
  destruct H as [-> | ->]; reflexivity.
Qed.

(** With a key, one request is made; a failure of the fetcher is the
    failure of the collection. *)
Lemma collect_data_fetch (w : world doc) (k : string) :
  environ w "VAST_API_KEY" = Some k -> k <> "" ->
  collect_data w =
  match fetch_vast_offers k w with
  | (Ok offers, w1) =>
      match py_iter offers with
      | Ok items =>
          match process_offers items [] w1 with
          | (Ok records, w2) => (Ok (VList records), w2)
          | (Err e, w2) => (Err e, w2)
          end
      | Err e => (Err e, w1)
      end
  | (Err e, w1) => (Err e, w1)
  end.
Proof.
  intros Hk Hne. unfold collect_data. unfold bind at 1.
  rewrite get_api_key_eq, Hk. apply String.eqb_neq in Hne. rewrite Hne.
  unfold bind at 1. destruct (fetch_vast_offers k w) as [[offers|e] w1];
    [|reflexivity].
  unfold bind at 1. unfold lift at 1.
  destruct (py_iter offers) as [items|e]; [|reflexivity].
  unfold bind. destruct (process_offers items [] w1) as [[records|e] w2];
    reflexivity.
Qed.

Lemma fetch_vast_offers_status (w : world doc) (k : string) (r : response) :
  server w (List.length (sent w)) = Ok r -> status_code r <> 200 ->
  fetch_vast_offers k w =
    (Err (Exception (api_error_message r)), after_request w k 0).
Proof.
  intros Hr Hs. unfold fetch_vast_offers, bind, requests_post. rewrite Hr.
  apply Z.eqb_neq in Hs. rewrite Hs. simpl. unfold raise, after_request.
  now rewrite Nat.add_0_r.
Qed.

Lemma fetch_vast_offers_body (w : world doc) (k : string) (r : response) :
  server w (List.length (sent w)) = Ok r -> status_code r = 200 ->
  fetch_vast_offers k w =
    (match json r with
     | Ok data =>
         match py_get data "offers" (VList []) with
         | Ok offers =>
             match py_len offers with
             | Ok _ => Ok offers
             | Err e => Err e
             end
         | Err e => Err e
         end
     | Err e => Err e
     end, after_request w k 0).
Proof.
  intros Hr Hs. unfold fetch_vast_offers, bind, requests_post. rewrite Hr.
  rewrite Hs. simpl. unfold lift, after_request. rewrite Nat.add_0_r.
  destruct (json r) as [data|e]; [|reflexivity].
  destruct (py_get data "offers" (VList [])) as [offers|e]; [|reflexivity].
  destruct (py_len offers); reflexivity.
Qed.

(** A collection that goes through: the records are the projections
    of the offers, in their order. *)
Lemma collect_data_run (w : world doc) (k : string) (r : response)
  (d : list (string * value)) (offers : list value) :
  environ w "VAST_API_KEY" = Some k -> k <> "" ->
  server w (List.length (sent w)) = Ok r -> status_code r = 200 ->
  json r = Ok (VDict d) -> get_or d "offers" (VList []) = VList offers ->
  collect_data w =
    (Ok (VList (project_from (clock w) (ticks w) offers)),
     after_request w k (List.length offers)).
Proof.
  intros Hk Hne Hr Hs Hj Ho.
  rewrite (collect_data_fetch w k Hk Hne).
  rewrite (fetch_vast_offers_body w k r Hr Hs), Hj.
  unfold py_get.
  change (match assoc d "offers" with
          | Some v => v
          | None => VList []
          end) with (get_or d "offers" (VList [])).
  rewrite Ho. cbn [py_len py_iter].
  rewrite ProjectorFacts.process_offers_spec. unfold after_request.
  cbn [environ server sent clock ticks fs app]. now rewrite Nat.add_0_r.
Qed.

(** X1: when the key is set, the answer has status 200 and its body is
    a JSON object holding the list [offers] under ["offers"], the
    collection returns the projections of the offers that are
    dictionaries, in the order of the offers, the i-th stamped with the
    i-th reading of the clock; it sends one request, reads the clock
    once per offer, also for the offers it skips, and changes nothing
    else. *)
Theorem collect_data_projects_offers (w : world doc) (k : string)
  (r : response) (d : list (string * value)) (offers : list value) :
  environ w "VAST_API_KEY" = Some k -> k <> "" ->
  server w (List.length (sent w)) = Ok r -> status_code r = 200 ->
  json r = Ok (VDict d) -> get_or d "offers" (VList []) = VList offers ->
  exists records,
    collect_data w =
      (Ok (VList records),
       mk_world (environ w) (server w) (sent w ++ [request_of k]) (clock w)
         (ticks w + List.length offers) (fs w)) /\
    records = project_from (clock w) (ticks w) offers /\
    List.length records = List.length (filter is_dict offers) /\
    Forall (fun record => is_dict record = true) records.
Proof.
  intros Hk Hne Hr Hs Hj Ho. eexists. split; [|split; [reflexivity|]].
  - exact (collect_data_run w k r d offers Hk Hne Hr Hs Hj Ho).
  - apply project_from_dicts.
Qed.

(** X2: the loop over the offers never raises: it returns the records
    it was given followed by one record per offer that is a dictionary,
    and it reads the clock once per offer. *)
Theorem process_offers_never_raises (offers records : list value)
  (w : world doc) :
  exists new,
    fst (process_offers offers records w) = Ok (records ++ new) /\
    List.length new = List.length (filter is_dict offers) /\
    ticks (snd (process_offers offers records w)) =
      (ticks w + List.length offers)%nat /\
    sent (snd (process_offers offers records w)) = sent w /\
    fs (snd (process_offers offers records w)) = fs w.
Proof.
  rewrite ProjectorFacts.process_offers_spec. eexists.
  split; [reflexivity|]. split; [apply project_from_dicts|].
  repeat split.
Qed.

(** X3: the records built from well-formed offers are well formed:
    they are values the dataset file can hold. *)
Theorem process_offers_well_formed (offers records out : list value)
  (w : world doc) :
  forallb wf_value offers = true -> forallb wf_value records = true ->
  fst (process_offers offers records w) = Ok out ->
  forallb wf_value out = true.
Proof.
  intros Ho Hr H. rewrite ProjectorFacts.process_offers_spec in H.
  simpl in H. injection H as <-. rewrite forallb_app, Hr.
  now apply project_from_wf.
Qed.

End Collector.

(** X4: a record depends on the offer through the thirty-six keys the
    projector reads only: two offers that agree on them give the same
    record, whatever else they hold. *)
Theorem process_offer_reads_input_fields (now : datetime)
  (o1 o2 : list (string * value)) :
  (forall k, In k input_fields -> assoc o1 k = assoc o2 k) ->
  process_offer_at now (VDict o1) = process_offer_at now (VDict o2).
Proof.
  intros H.
  assert (E : forall k, In k input_fields -> get o1 k = get o2 k).
  { intros k Hk. unfold get. now rewrite (H k Hk). }
  assert (EO : forall k v, In k input_fields ->
                 get_or o1 k v = get_or o2 k v).
  { intros k v Hk. unfold get_or. now rewrite (H k Hk). }
  unfold process_offer_at.
  repeat match goal with
         | |- context [get o1 ?k] =>
             rewrite (E k) by (vm_compute; tauto)
         | |- context [get_or o1 ?k ?v] =>
             rewrite (EO k v) by (vm_compute; tauto)
         end.
  reflexivity.
Qed.

End CollectorFacts.

(* ================================================================== *)
(** * The summary as a whole *)
(* ================================================================== *)

Module SummaryFacts.
Import Py DateTime Spec CollectData Examples.
Import NumFacts DictFacts SortFacts ReporterFacts.

(** ** Order of numbers *)

Lemma fin_compare_lt_trans (m1 e1 m2 e2 m3 e3 : Z) :
  fin_compare m1 e1 m2 e2 = Lt -> fin_compare m2 e2 m3 e3 = Lt ->
  fin_compare m1 e1 m3 e3 = Lt.
Proof.
  set (c := Z.min e1 (Z.min e2 e3)).
  rewrite (fin_compare_scale m1 e1 m2 e2 c) by (subst c; lia).
  rewrite (fin_compare_scale m2 e2 m3 e3 c) by (subst c; lia).
  rewrite (fin_compare_scale m1 e1 m3 e3 c) by (subst c; lia).
  rewrite !Z.compare_lt_iff. lia.
Qed.

Lemma num_ltb_trans (x y z : num) :
  num_ltb x y = true -> num_ltb y z = true -> num_ltb x z = true.
Proof.
  unfold num_ltb.
  destruct x as [|[]|m e], y as [|[]|m' e'], z as [|[]|m'' e''];
    simpl; try discriminate; try reflexivity.
  destruct (fin_compare m e m' e') eqn:H1; try discriminate.
  destruct (fin_compare m' e' m'' e'') eqn:H2; try discriminate.
  now rewrite (fin_compare_lt_trans _ _ _ _ _ _ H1 H2).
Qed.

Lemma num_ltb_irrefl (x : num) : num_ltb x x = false.
Proof.
  destruct (num_ltb x x) eqn:H; [|reflexivity].
  now rewrite (num_ltb_asym x x H) in H.
Qed.

(** [min] returns an element no element is below. *)
Lemma min_from_least (l : list value) (cur m : value) (seen : list value) :
  is_number cur = true -> numbers l -> numbers seen ->
  (forall y, In y seen -> py_lt y cur = Ok false) ->
  min_from cur l = Ok m ->
  In m (cur :: l) /\
  forall y, In y (seen ++ cur :: l) -> py_lt y m = Ok false.
Proof.
  intros Hc Hl. revert cur seen Hc.
  induction Hl as [|x l Hx Hl IH]; intros cur seen Hc Hs Hinv H.
  - simpl in H. injection H as ->. split; [now left|].
    intros y Hy. apply in_app_or in Hy. destruct Hy as [Hy|[<-|[]]].
    + now apply Hinv.
    + rewrite (py_lt_number m m Hc Hc). now rewrite num_ltb_irrefl.
  - simpl in H. rewrite (py_lt_number x cur Hx Hc) in H. cbn [rbind] in H.
    destruct (num_ltb (to_num x) (to_num cur)) eqn:Hlt.
    + destruct (IH x (seen ++ [cur]) Hx) as [Hin Hall]; try assumption.
      * apply Forall_app. split; [exact Hs|]. now constructor.
      * intros y Hy. apply in_app_or in Hy.
        assert (Hyn : is_number y = true).
        { destruct Hy as [Hy|[<-|[]]]; [|exact Hc].
          unfold numbers in Hs. rewrite Forall_forall in Hs. now apply Hs. }
        rewrite (py_lt_number y x Hyn Hx). f_equal.
        destruct (num_ltb (to_num y) (to_num x)) eqn:Hyx; [|reflexivity].
        pose proof (num_ltb_trans _ _ _ Hyx Hlt) as Hyc.
        destruct Hy as [Hy|[<-|[]]].
        -- specialize (Hinv y Hy). rewrite (py_lt_number y cur Hyn Hc) in Hinv.
           injection Hinv as Hinv. congruence.
        -- now rewrite num_ltb_irrefl in Hyc.
      * split; [destruct Hin as [<-|Hin]; [right; now left|now right; right]|].
        intros y Hy. apply Hall. rewrite <- app_assoc. exact Hy.
    + destruct (IH cur (seen ++ [x]) Hc) as [Hin Hall]; try assumption.
      * apply Forall_app. split; [exact Hs|]. now constructor.
      * intros y Hy. apply in_app_or in Hy. destruct Hy as [Hy|[<-|[]]].
        -- now apply Hinv.
        -- rewrite (py_lt_number x cur Hx Hc). now rewrite Hlt.
      * split; [destruct Hin as [<-|Hin]; [now left|now right; right]|].
        intros y Hy. apply Hall.
        apply in_app_or in Hy. apply in_or_app.
        destruct Hy as [Hy|[<-|[<-|Hy]]].
        -- left. apply in_or_app. now left.
        -- right. now left.
        -- left. apply in_or_app. right. now left.
        -- right. now right.
Qed.

(** [max] returns an element above no element. *)
Lemma max_from_greatest (l : list value) (cur m : value) (seen : list value) :
  is_number cur = true -> numbers l -> numbers seen ->
  (forall y, In y seen -> py_lt cur y = Ok false) ->
  max_from cur l = Ok m ->
  In m (cur :: l) /\
  forall y, In y (seen ++ cur :: l) -> py_lt m y = Ok false.
Proof.
  intros Hc Hl. revert cur seen Hc.
  induction Hl as [|x l Hx Hl IH]; intros cur seen Hc Hs Hinv H.
  - simpl in H. injection H as ->. split; [now left|].
    intros y Hy. apply in_app_or in Hy. destruct Hy as [Hy|[<-|[]]].
    + now apply Hinv.
    + rewrite (py_lt_number m m Hc Hc). now rewrite num_ltb_irrefl.
  - simpl in H. rewrite (py_lt_number cur x Hc Hx) in H. cbn [rbind] in H.
    destruct (num_ltb (to_num cur) (to_num x)) eqn:Hlt.
    + destruct (IH x (seen ++ [cur]) Hx) as [Hin Hall]; try assumption.
      * apply Forall_app. split; [exact Hs|]. now constructor.
      * intros y Hy. apply in_app_or in Hy.
        assert (Hyn : is_number y = true).
        { destruct Hy as [Hy|[<-|[]]]; [|exact Hc].
          unfold numbers in Hs. rewrite Forall_forall in Hs. now apply Hs. }
        rewrite (py_lt_number x y Hx Hyn). f_equal.
        destruct (num_ltb (to_num x) (to_num y)) eqn:Hxy; [|reflexivity].
        pose proof (num_ltb_trans _ _ _ Hlt Hxy) as Hcy.
        destruct Hy as [Hy|[<-|[]]].
        -- specialize (Hinv y Hy). rewrite (py_lt_number cur y Hc Hyn) in Hinv.
           injection Hinv as Hinv. congruence.
        -- now rewrite num_ltb_irrefl in Hcy.
      * split; [destruct Hin as [<-|Hin]; [right; now left|now right; right]|].
        intros y Hy. apply Hall. rewrite <- app_assoc. exact Hy.
    + destruct (IH cur (seen ++ [x]) Hc) as [Hin Hall]; try assumption.
      * apply Forall_app. split; [exact Hs|]. now constructor.
      * intros y Hy. apply in_app_or in Hy. destruct Hy as [Hy|[<-|[]]].
        -- now apply Hinv.
        -- rewrite (py_lt_number cur x Hc Hx). now rewrite Hlt.
      * split; [destruct Hin as [<-|Hin]; [now left|now right; right]|].
        intros y Hy. apply Hall.
        apply in_app_or in Hy. apply in_or_app.
        destruct Hy as [Hy|[<-|[<-|Hy]]].
        -- left. apply in_or_app. now left.
        -- right. now left.
        -- left. apply in_or_app. right. now left.
        -- right. now right.
Qed.

(** ** The keys of the summary *)

Lemma get_summary_stats_keys (records : list value) (stats : kdict value) :
  get_summary_stats records = Ok stats ->
  keys_hashable stats /\ kd_distinct stats.
Proof.
  unfold get_summary_stats. destruct records as [|r0 records0]; intros H.
  - injection H as <-. split; [constructor|exact I].
  - set (records := r0 :: records0) in *.
    destruct (py_subscript (last records VNone) "timestamp") as [ts|e];
      [|discriminate]. cbn [rbind] in H.
    destruct (latest_batch ts records) as [batch|e]; [|discriminate].
    cbn [rbind] in H.
    destruct (count_records (mk_counters [] [] []) batch) as [st|e] eqn:Hc;
      [|discriminate]. cbn [rbind] in H.
    assert (H0 : counters_hashable (mk_counters [] [] []))
      by (repeat split; apply keys_hashable_nil).
    destruct (count_records_spec batch _ st H0 Hc) as (Hst & _).
    exact (build_stats_distinct st _ [] stats
             (keys_hashable_keys _ (proj1 Hst)) keys_hashable_nil I H).
Qed.

Lemma py_same_hashable (a b : value) :
  py_same a b = true -> hashable b = true -> hashable a = true.
Proof. destruct a, b; simpl; intros H Hb; congruence. Qed.

Lemma kd_find_none {A} (d : kdict A) (k : value) :
  kd_find d k = None -> Forall (fun kv => py_same (fst kv) k = false) d.
Proof.
  induction d as [|[h v] d IH]; simpl; intros H; [constructor|].
  destruct (py_same h k) eqn:Hhk; [discriminate|].
  constructor; [exact Hhk|now apply IH].
Qed.

(** The records of the latest batch have hashable GPU names. *)
Lemma latest_batch_hashable (records : list value) (stats : kdict value)
  (ts : value) :
  get_summary_stats records = Ok stats ->
  py_subscript (last records VNone) "timestamp" = Ok ts ->
  Forall (fun r => hashable (gpu_of r) = true) (with_timestamp ts records).
Proof.
  unfold get_summary_stats.
  destruct records as [|r0 records0]; intros H Hts; [discriminate|].
  set (records := r0 :: records0) in *.
  rewrite Hts in H. cbn [rbind] in H.
  destruct (latest_batch ts records) as [batch|e] eqn:Hb; [|discriminate].
  cbn [rbind] in H. apply latest_batch_filter in Hb. subst batch.
  destruct (count_records (mk_counters [] [] []) (with_timestamp ts records))
    as [st|e] eqn:Hc; [|discriminate].
  exact (count_records_hashable _ _ st Hc).
Qed.

(** A name has an entry exactly when a record of the latest batch
    carries it. *)
Lemma summary_mem (records : list value) (stats : kdict value)
  (ts g : value) :
  get_summary_stats records = Ok stats ->
  py_subscript (last records VNone) "timestamp" = Ok ts ->
  hashable g = true ->
  kd_mem stats g = existsb (in_category g) (with_timestamp ts records).
Proof.
  intros H Hts Hg.
  destruct (get_summary_stats_keys records stats H) as [Hk Hd].
  pose proof (latest_batch_hashable records stats ts H Hts) as Hh.
  rewrite Forall_forall in Hh.
  destruct (existsb (in_category g) (with_timestamp ts records)) eqn:He.
  - apply existsb_exists in He. destruct He as (r & Hin & Hr).
    pose proof (get_summary_stats_complete records stats ts r H Hts Hin)
      as Hm.
    unfold kd_mem in *. unfold in_category in Hr.
    now rewrite <- (kd_find_same stats (gpu_of r) g Hk (Hh r Hin) Hg Hr).
  - destruct (kd_mem stats g) eqn:Hm; [|reflexivity]. exfalso.
    destruct (kd_mem_exists stats g Hm) as (k & Hin & Hkg).
    apply in_map_iff in Hin. destruct Hin as ([k' entry] & Hk' & Hin).
    simpl in Hk'. subst k'.
    destruct (get_summary_stats_spec records stats k entry H Hin)
      as (ts' & sp & Hts' & Hne & _).
    rewrite Hts in Hts'. injection Hts' as <-.
    destruct (category k (with_timestamp ts records)) as [|r c] eqn:Hc;
      [now apply Hne|].
    assert (Hr : In r (category k (with_timestamp ts records)))
      by (rewrite Hc; now left).
    apply filter_In in Hr. destruct Hr as [Hr Hrk]. unfold in_category in Hrk.
    assert (Hkh : hashable k = true)
      by exact (proj1 (kd_find_in stats k entry Hk Hd Hin)).
    assert (Hrg : in_category g r = true).
    { unfold in_category.
      exact (py_same_trans _ k g (Hh r Hr) Hkh Hg Hrk Hkg). }
    assert (Hex : existsb (in_category g) (with_timestamp ts records) = true)
      by (apply existsb_exists; now exists r).
    congruence.
Qed.

(** X5: the keys of the summary are pairwise different and are the GPU
    names of the latest batch: a name has an entry exactly when a
    record of the latest batch carries it, so that a lookup finds the
    entry of the name and no other. *)
Theorem summary_keys_are_batch_names (records : list value)
  (stats : kdict value) (ts : value) :
  get_summary_stats records = Ok stats ->
  py_subscript (last records VNone) "timestamp" = Ok ts ->
  kd_distinct stats /\
  (forall g, hashable g = true ->
     kd_mem stats g = existsb (in_category g) (with_timestamp ts records)) /\
  (forall g entry, In (g, entry) stats ->
     hashable g = true /\ kd_find stats g = Some entry).
Proof.
  intros H Hts.
  destruct (get_summary_stats_keys records stats H) as [Hk Hd].
  split; [exact Hd|]. split.
  - intros g Hg. exact (summary_mem records stats ts g H Hts Hg).
  - intros g entry Hin. exact (kd_find_in stats g entry Hk Hd Hin).
Qed.

(** X6: an entry counts the records of its GPU name in the latest
    batch: ["total"] is their number and is at least 1, ["rented"] the
    number of those whose ["rented"] is true for [bool()], and
    ["available"] the difference, which is never negative. *)
Theorem summary_counts (records : list value) (stats : kdict value)
  (g entry : value) :
  get_summary_stats records = Ok stats -> In (g, entry) stats ->
  exists ts total rented,
    py_subscript (last records VNone) "timestamp" = Ok ts /\
    total = Z.of_nat (List.length (category g (with_timestamp ts records))) /\
    rented =
      Z.of_nat (List.length (category_rented g (with_timestamp ts records))) /\
    field entry "total" = VInt total /\
    field entry "rented" = VInt rented /\
    field entry "available" = VInt (total - rented) /\
    1 <= total /\ 0 <= rented <= total /\ 0 <= total - rented.
Proof.
  intros H Hin.
  destruct (get_summary_stats_spec records stats g entry H Hin)
    as (ts & sp & Hts & Hne & _ & He).
  apply stats_entry_fields in He.
  destruct He as (Ht & Hr & Ha & _).
  exists ts. eexists. eexists. split; [exact Hts|].
  split; [reflexivity|]. split; [reflexivity|].
  split; [exact Ht|]. split; [exact Hr|]. split; [exact Ha|].
  pose proof (category_rented_le g (with_timestamp ts records)) as Hle.
  destruct (category g (with_timestamp ts records)); [contradiction|].
  simpl List.length in *. lia.
Qed.

(** ** The totals *)

Lemma one_key_per_name {A} (d : kdict A) (x : value) :
  keys_hashable d -> kd_distinct d -> hashable x = true ->
  kd_mem d x = true ->
  fold_right (fun kv acc => (if py_same x (fst kv) then 1 else 0) + acc) 0 d
  = 1.
Proof.
  intros Hd. induction Hd as [|[h v] d Hh Hd IH]; simpl;
    intros Hdis Hx Hm; [discriminate|].
  destruct Hdis as [Hn Hdis]. unfold kd_mem in Hm. simpl in Hm.
  rewrite (py_same_sym x h Hx Hh).
  destruct (py_same h x) eqn:Hhx.
  - assert (Hz : fold_right
                   (fun kv acc => (if py_same x (fst kv) then 1 else 0) + acc)
                   0 d = 0).
    { apply kd_find_none in Hn. clear IH Hm Hdis. simpl in Hh.
      induction Hd as [|[h' v'] d Hh' Hd IH']; [reflexivity|]. simpl.
      inversion Hn as [|? ? Hn1 Hn2]; subst. simpl in Hn1, Hh'.
      destruct (py_same x h') eqn:Hxh.
      - exfalso.
        assert (T : py_same h' h = true).
        { apply (py_same_trans h' x h Hh' Hx Hh).
          + now rewrite (py_same_sym h' x Hh' Hx).
          + now rewrite (py_same_sym x h Hx Hh). }
        congruence.
      - now rewrite IH'. }
    lia.
  - rewrite IH; [lia|exact Hdis|exact Hx|exact Hm].
Qed.

Lemma sum_category_cons (stats : kdict value) (r : value)
  (batch : list value) :
  fold_right (fun kv acc =>
      Z.of_nat (List.length (category (fst kv) (r :: batch))) + acc) 0 stats
  = fold_right (fun kv acc =>
      (if py_same (gpu_of r) (fst kv) then 1 else 0) + acc) 0 stats
    + fold_right (fun kv acc =>
        Z.of_nat (List.length (category (fst kv) batch)) + acc) 0 stats.
Proof.
  induction stats as [|[g e] stats IH]; [reflexivity|].
  cbn [fold_right fst]. rewrite IH, category_length_cons.
  unfold in_category. lia.
Qed.

Lemma sum_categories (stats : kdict value) (batch : list value) :
  keys_hashable stats -> kd_distinct stats ->
  Forall (fun r => hashable (gpu_of r) = true /\
                   kd_mem stats (gpu_of r) = true) batch ->
  fold_right (fun kv acc =>
      Z.of_nat (List.length (category (fst kv) batch)) + acc) 0 stats
  = Z.of_nat (List.length batch).
Proof.
  intros Hk Hd Hb. induction Hb as [|r batch [Hh Hm] Hb IH].
  - clear Hk Hd. induction stats as [|[g e] stats IH]; [reflexivity|].
    cbn [fold_right]. now rewrite IH.
  - rewrite sum_category_cons, IH.
    rewrite (one_key_per_name stats (gpu_of r) Hk Hd Hh Hm).
    simpl List.length. lia.
Qed.

(** X7: the totals of the summary add up to the size of the latest
    batch: every record of the batch is counted, and counted once. *)
Theorem summary_totals_add_up (records : list value) (stats : kdict value)
  (ts : value) :
  get_summary_stats records = Ok stats ->
  py_subscript (last records VNone) "timestamp" = Ok ts ->
  sum_totals stats = Z.of_nat (List.length (with_timestamp ts records)).
Proof.
  intros H Hts.
  destruct (get_summary_stats_keys records stats H) as [Hk Hd].
  pose proof (latest_batch_hashable records stats ts H Hts) as Hh.
  rewrite <- (sum_categories stats (with_timestamp ts records) Hk Hd).
  - unfold sum_totals.
    assert (E : forall g entry, In (g, entry) stats ->
              entry_total entry =
              Z.of_nat (List.length (category g (with_timestamp ts records)))).
    { intros g entry Hin.
      destruct (get_summary_stats_spec records stats g entry H Hin)
        as (ts' & sp & Hts' & _ & _ & He).
      rewrite Hts in Hts'. injection Hts' as <-.
      apply stats_entry_fields in He. unfold entry_total.
      now rewrite (proj1 He). }
    clear Hk Hd H. induction stats as [|[g e] stats IH]; [reflexivity|].
    cbn [fold_right fst snd]. rewrite (E g e) by now left.
    rewrite IH; [reflexivity|]. intros g' e' Hin. apply E. now right.
  - rewrite Forall_forall in Hh |- *. intros r Hin. split; [now apply Hh|].
    exact (get_summary_stats_complete records stats ts r H Hts Hin).
Qed.

(** ** What the summary needs *)

(** X8: on records that are dictionaries with a timestamp, a
    hashable GPU name and a price that is a number or false for
    [bool()], the summary is produced, and each of its entries is a
    dictionary of seven keys, the same for all. *)
Theorem summary_of_reportable_records (records : list value) :
  all_reportable records ->
  exists stats,
    get_summary_stats records = Ok stats /\
    forall g entry, In (g, entry) stats ->
      exists d, entry = VDict d /\ map fst d = entry_keys.
Proof.
  intros Hr. destruct (get_summary_stats_total records Hr) as (stats & H).
  exists stats. split; [exact H|]. intros g entry Hin.
  destruct (get_summary_stats_spec records stats g entry H Hin)
    as (ts & sp & _ & _ & _ & He).
  unfold stats_entry in He.
  destruct (rental_rate _ _) as [rate|e]; [|discriminate].
  destruct (price_min sp) as [pmin|e]; [|discriminate].
  destruct (price_median sp) as [pmed|e]; [|discriminate].
  destruct (price_max sp) as [pmax|e]; [|discriminate].
  simpl in He. injection He as <-. eexists. split; reflexivity.
Qed.

(** ** Older records *)

Lemma get_summary_stats_eq (records : list value) :
  records <> [] ->
  get_summary_stats records =
  rbind (py_subscript (last records VNone) "timestamp") (fun ts =>
  rbind (latest_batch ts records) (fun batch =>
  rbind (count_records (mk_counters [] [] []) batch) (fun st =>
  build_stats st (map fst (gpu_counts st)) []))).
Proof. destruct records; [contradiction|reflexivity]. Qed.

Lemma last_app_nonempty {A} (l m : list A) (d : A) :
  m <> [] -> last (l ++ m) d = last m d.
Proof.
  intros Hm. induction l as [|a l IH]; [reflexivity|].
  simpl. rewrite IH. destruct (l ++ m) eqn:E; [|reflexivity].
  apply app_eq_nil in E. now destruct E.
Qed.

(** X9: the records of earlier runs do not reach the summary: records
    placed before a dataset, each with a timestamp that differs from
    the last one of the dataset, leave the summary as it is. *)
Theorem summary_ignores_older_records (old recent : list value)
  (ts : value) :
  recent <> [] ->
  py_subscript (last recent VNone) "timestamp" = Ok ts ->
  Forall (fun r => exists t, py_subscript r "timestamp" = Ok t /\
                             py_eqb t ts = false) old ->
  get_summary_stats (old ++ recent) = get_summary_stats recent.
Proof.
  intros Hne Hts Hold.
  rewrite (get_summary_stats_eq recent Hne).
  rewrite get_summary_stats_eq
    by (intros E; apply app_eq_nil in E; now destruct E).
  rewrite (last_app_nonempty old recent VNone Hne), Hts. cbn [rbind].
  assert (E : latest_batch ts (old ++ recent) = latest_batch ts recent).
  { induction Hold as [|r old (t & Ht & Hneq) _ IH]; [reflexivity|].
    simpl. rewrite Ht, IH. cbn [rbind]. rewrite Hneq.
    destruct (latest_batch ts recent); reflexivity. }
  now rewrite E.
Qed.

(** X10: one dictionary without ["timestamp"] anywhere in a dataset of
    dictionaries, also among the records of earlier runs, makes the
    summary raise [KeyError]. *)
Theorem summary_needs_every_timestamp (records : list value) :
  Forall (fun r => is_dict r = true) records ->
  Exists (fun r => has_timestamp r = false) records ->
  get_summary_stats records = Err (KeyError "timestamp").
Proof.
  intros Hd Hex.
  assert (Hne : records <> []) by (intros ->; inversion Hex).
  rewrite (get_summary_stats_eq records Hne).
  assert (Hlast : is_dict (last records VNone) = true).
  { rewrite Forall_forall in Hd. apply Hd.
    destruct (exists_last Hne) as (l & a & ->). rewrite last_last.
    apply in_or_app. right. now left. }
  destruct (last records VNone) as [| | | | | |d]; try discriminate.
  unfold py_subscript at 1.
  destruct (assoc d "timestamp") as [ts|]; [|reflexivity]. cbn [rbind].
  assert (E : latest_batch ts records = Err (KeyError "timestamp")).
  { clear Hne Hlast. revert Hd.
    induction Hex as [r l Hr|r l Hex IH]; intros Hd;
      inversion Hd as [|? ? Hrd Hl]; subst;
      destruct r as [| | | | | |d0]; try discriminate Hrd; simpl.
    - simpl in Hr. destruct (assoc d0 "timestamp"); [discriminate|].
      reflexivity.
    - rewrite (IH Hl). destruct (assoc d0 "timestamp"); reflexivity. }
  now rewrite E.
Qed.

(** ** Extremes *)

(** X11: the reported minimum and maximum of a category are the
    roundings of two of its prices, with no price of the category below
    the first and none above the second, ints and floats being compared
    by value. *)
Theorem reported_price_extremes (records : list value)
  (stats : kdict value) (g entry ts : value) :
  get_summary_stats records = Ok stats -> In (g, entry) stats ->
  py_subscript (last records VNone) "timestamp" = Ok ts ->
  numbers (category_prices g (with_timestamp ts records)) ->
  category_prices g (with_timestamp ts records) <> [] ->
  exists lo hi,
    In lo (category_prices g (with_timestamp ts records)) /\
    In hi (category_prices g (with_timestamp ts records)) /\
    (forall p, In p (category_prices g (with_timestamp ts records)) ->
       ascending_pair lo p /\ ascending_pair p hi) /\
    py_round lo 3 = Ok (field entry "price_min") /\
    py_round hi 3 = Ok (field entry "price_max").
Proof.
  intros H Hin Hts Hn Hne.
  destruct (get_summary_stats_spec records stats g entry H Hin)
    as (ts' & sp & Hts' & _ & Hs & He).
  rewrite Hts in Hts'. injection Hts' as <-.
  set (prices := category_prices g (with_timestamp ts records)) in *.
  pose proof (sorted_perm prices sp Hs) as Hp.
  apply stats_entry_fields in He.
  destruct He as (_ & _ & _ & _ & Hmin & _ & Hmax).
  assert (Hsn : numbers sp).
  { unfold numbers in *. rewrite Forall_forall in *. intros x Hx.
    apply Hn. apply (Permutation_in _ (Permutation_sym Hp) Hx). }
  destruct sp as [|x sp'].
  { apply Permutation_sym, Permutation_nil in Hp. contradiction. }
  inversion Hsn as [|? ? Hx Hsp]; subst.
  unfold price_min, py_min in Hmin. unfold price_max, py_max in Hmax.
  destruct (min_from x sp') as [lo|e] eqn:Hlo; [|discriminate].
  destruct (max_from x sp') as [hi|e] eqn:Hhi; [|discriminate].
  cbn [rbind] in Hmin, Hmax.
  destruct (min_from_least sp' x lo [] Hx Hsp (Forall_nil _)
              ltac:(intros y []) Hlo) as [Hlo1 Hlo2].
  destruct (max_from_greatest sp' x hi [] Hx Hsp (Forall_nil _)
              ltac:(intros y []) Hhi) as [Hhi1 Hhi2].
  exists lo, hi.
  split; [exact (Permutation_in _ (Permutation_sym Hp) Hlo1)|].
  split; [exact (Permutation_in _ (Permutation_sym Hp) Hhi1)|].
  split; [|split; assumption].
  intros p Hpin. pose proof (Permutation_in _ Hp Hpin) as Hps.
  split; unfold ascending_pair; [now apply Hlo2|now apply Hhi2].
Qed.

End SummaryFacts.

(* ================================================================== *)
(** * The printed summary *)
(* ================================================================== *)

Module PrinterFacts.
Import Py DateTime Spec CollectData Examples.
Import NumFacts DictFacts SortFacts ReporterFacts SummaryFacts.

(** ** Sorting with a key *)

Lemma with_keys_snd {A} (key : A -> result value) (l : list A)
  (kl : list (value * A)) :
  with_keys key l = Ok kl -> map snd kl = l.
Proof.
  revert kl. induction l as [|x l IH]; simpl; intros kl H.
  - now injection H as <-.
  - destruct (key x) as [k|e]; [|discriminate]. cbn [rbind] in H.
    destruct (with_keys key l) as [r|e]; [|discriminate].
    cbn [rbind] in H. injection H as <-. simpl. now rewrite (IH r).
Qed.

Lemma insert_keyed_perm {A} (x : value * A) (l r : list (value * A)) :
  insert_keyed x l = Ok r -> Permutation (x :: l) r.
Proof.
  revert r. induction l as [|y l IH]; simpl; intros r H.
  - now injection H as <-.
  - destruct (py_lt (fst x) (fst y)) as [[|]|e]; try discriminate;
      cbn [rbind] in H.
    + now injection H as <-.
    + destruct (insert_keyed x l) as [r'|e]; [|discriminate].
      cbn [rbind] in H. injection H as <-.
      rewrite perm_swap. apply perm_skip. now apply IH.
Qed.

Lemma sort_keyed_from_perm {A} (l acc r : list (value * A)) :
  sort_keyed_from acc l = Ok r -> Permutation (acc ++ l) r.
Proof.
  revert acc r. induction l as [|x l IH]; simpl; intros acc r H.
  - injection H as <-. now rewrite app_nil_r.
  - destruct (insert_keyed x acc) as [acc'|e] eqn:Hi; [|discriminate].
    cbn [rbind] in H. apply IH in H. apply insert_keyed_perm in Hi.
    rewrite <- H. rewrite <- Permutation_middle.
    exact (Permutation_app_tail l Hi).
Qed.

(** A sort by key returns a rearrangement of the list. *)
Lemma sorted_by_perm {A} (key : A -> result value) (reverse : bool)
  (l s : list A) :
  sorted_by key reverse l = Ok s -> Permutation l s.
Proof.
  unfold sorted_by. intros H.
  destruct (with_keys key l) as [kl|e] eqn:Hk; [|discriminate].
  cbn [rbind] in H. apply with_keys_snd in Hk. subst l.
  destruct (sort_keyed_from [] (if reverse then rev kl else kl)) as [r|e]
    eqn:Hs; [|discriminate].
  cbn [rbind] in H. injection H as <-.
  apply sort_keyed_from_perm in Hs. simpl in Hs. apply Permutation_map.
  destruct reverse.
  - rewrite <- Permutation_rev. rewrite <- Hs. apply Permutation_rev.
  - exact Hs.
Qed.

Lemma py_lt_int (a b : Z) : py_lt (VInt a) (VInt b) = Ok (a <? b).
Proof.
  simpl. unfold num_ltb. simpl. unfold fin_compare. simpl.
  rewrite !Z.mul_1_r. reflexivity.
Qed.

Lemma in_firstn {A} (n : nat) (l : list A) (x : A) :
  In x (firstn n l) -> In x l.
Proof.
  intros H. rewrite <- (firstn_skipn n l). apply in_or_app. now left.
Qed.

Lemma filter_none {A} (f : A -> bool) (l : list A) :
  (forall x, In x l -> f x = false) -> filter f l = [].
Proof.
  induction l as [|a l IH]; intros H; [reflexivity|].
  simpl. rewrite (H a) by now left. apply IH. intros x Hx. apply H.
  now right.
Qed.

Section IntKeys.

Context {A : Type} (key : A -> result value) (k : A -> Z).

Local Abbreviation ascend := (key_ascending k).
Local Abbreviation descend := (key_descending k).
Local Abbreviation with_key := (with_int_key k).
Local Abbreviation keyed_as := (has_int_key k).

Lemma with_keys_int (l : list A) :
  Forall (fun x => key x = Ok (VInt (k x))) l ->
  with_keys key l = Ok (map with_key l).
Proof.
  intros H. induction H as [|x l Hx _ IH]; [reflexivity|].
  simpl. rewrite Hx, IH. reflexivity.
Qed.

Lemma insert_keyed_int (x : A) (acc : list A) :
  StronglySorted ascend acc ->
  exists acc',
    insert_keyed (with_key x) (map with_key acc) = Ok (map with_key acc') /\
    StronglySorted ascend acc' /\
    (forall y, In y acc' -> y = x \/ In y acc) /\
    forall n, filter (keyed_as n) acc' =
              filter (keyed_as n) acc ++ (if keyed_as n x then [x] else []).
Proof.
  intros Hs. induction Hs as [|y acc Hacc IH Hy].
  - exists [x]. split; [reflexivity|]. split.
    + constructor; constructor.
    + split; [intros y [<-|[]]; now left|]. intros n. reflexivity.
  - cbn [map insert_keyed]. unfold with_key at 1 2. cbn [fst].
    rewrite py_lt_int. cbn [rbind].
    destruct (k x <? k y) eqn:Hlt.
    + apply Z.ltb_lt in Hlt. exists (x :: y :: acc).
      split; [reflexivity|]. split.
      * constructor; [now constructor|]. constructor; [unfold ascend; lia|].
        rewrite Forall_forall in Hy |- *. intros z Hz.
        specialize (Hy z Hz). unfold ascend in *. lia.
      * split; [intros z [<-|Hz]; [now left|now right]|].
        intros n.
        change (filter (keyed_as n) (x :: y :: acc))
          with (if keyed_as n x then x :: filter (keyed_as n) (y :: acc)
                else filter (keyed_as n) (y :: acc)).
        destruct (keyed_as n x) eqn:Hx; [|now rewrite app_nil_r].
        unfold keyed_as in Hx. apply Z.eqb_eq in Hx.
        assert (E : filter (keyed_as n) (y :: acc) = []).
        { apply filter_none. intros z Hz. unfold keyed_as.
          apply Z.eqb_neq.
          destruct Hz as [<-|Hz]; [lia|].
          rewrite Forall_forall in Hy. specialize (Hy z Hz).
          unfold ascend in Hy. lia. }
        now rewrite E.
    + apply Z.ltb_ge in Hlt.
      destruct IH as (acc' & Hi & Hs' & Hin & Hf).
      fold with_key. rewrite Hi. cbn [rbind].
      exists (y :: acc'). split; [reflexivity|]. split.
      * constructor; [exact Hs'|]. rewrite Forall_forall in Hy |- *.
        intros z Hz. destruct (Hin z Hz) as [->|Hz']; [exact Hlt|].
        now apply Hy.
      * split.
        -- intros z [<-|Hz]; [right; now left|].
           destruct (Hin z Hz) as [->|Hz']; [now left|right; now right].
        -- intros n. cbn [filter]. rewrite Hf.
           destruct (keyed_as n y); reflexivity.
Qed.

Lemma sort_keyed_from_int (l acc : list A) :
  StronglySorted ascend acc ->
  exists s,
    sort_keyed_from (map with_key acc) (map with_key l) =
      Ok (map with_key s) /\
    StronglySorted ascend s /\
    forall n, filter (keyed_as n) s =
              filter (keyed_as n) acc ++ filter (keyed_as n) l.
Proof.
  revert acc. induction l as [|x l IH]; intros acc Hs.
  - exists acc. split; [reflexivity|]. split; [exact Hs|].
    intros n. now rewrite app_nil_r.
  - destruct (insert_keyed_int x acc Hs) as (acc' & Hi & Hs' & _ & Hf).
    destruct (IH acc' Hs') as (s & H & Hss & Hfs).
    exists s. cbn [map sort_keyed_from]. rewrite Hi. cbn [rbind].
    split; [exact H|]. split; [exact Hss|].
    intros n. rewrite Hfs, Hf, <- app_assoc. cbn [filter].
    destruct (keyed_as n x); reflexivity.
Qed.

Lemma strongly_sorted_app (R : A -> A -> Prop) (l m : list A) :
  StronglySorted R l -> StronglySorted R m ->
  (forall x y, In x l -> In y m -> R x y) ->
  StronglySorted R (l ++ m).
Proof.
  intros Hl Hm H. induction Hl as [|a l Hl IH Ha]; [exact Hm|].
  simpl. constructor.
  - apply IH. intros x y Hx Hy. apply H; [now right|exact Hy].
  - apply Forall_app. split; [exact Ha|].
    rewrite Forall_forall. intros y Hy. apply H; [now left|exact Hy].
Qed.

Lemma strongly_sorted_rev (l : list A) :
  StronglySorted ascend l -> StronglySorted descend (rev l).
Proof.
  intros Hl. induction Hl as [|a l Hl IH Ha]; [constructor|].
  simpl. apply strongly_sorted_app; [exact IH| |].
  - constructor; constructor.
  - intros x y Hx [<-|[]]. apply in_rev in Hx.
    rewrite Forall_forall in Ha. exact (Ha x Hx).
Qed.

(** With int keys a reversed sort never raises; it returns a
    rearrangement in which the keys never increase and the elements
    with the same key keep the order they had. *)
Lemma sorted_by_int_reverse (l : list A) :
  Forall (fun x => key x = Ok (VInt (k x))) l ->
  exists s,
    sorted_by key true l = Ok s /\ Permutation l s /\
    StronglySorted descend s /\
    forall n, filter (keyed_as n) s = filter (keyed_as n) l.
Proof.
  intros H. unfold sorted_by. rewrite (with_keys_int l H). cbn [rbind].
  rewrite <- map_rev.
  destruct (sort_keyed_from_int (rev l) [] (SSorted_nil _))
    as (s & Hs & Hss & Hf).
  change (@nil (value * A)) with (map with_key []). rewrite Hs.
  cbn [rbind]. exists (rev s).
  assert (E : map snd (rev (map with_key s)) = rev s).
  { rewrite <- map_rev, map_map. unfold with_key. simpl. apply map_id. }
  rewrite E. split; [reflexivity|]. split.
  - apply (sorted_by_perm key true). unfold sorted_by.
    rewrite (with_keys_int l H). cbn [rbind]. rewrite <- map_rev.
    change (@nil (value * A)) with (map with_key []). rewrite Hs.
    cbn [rbind]. now rewrite E.
  - split; [now apply strongly_sorted_rev|].
    intros n. rewrite filter_rev, Hf. simpl. rewrite filter_rev.
    apply rev_involutive.
Qed.

End IntKeys.

(** ** Rows *)

Lemma print_rows_spec (rows : list (value * value)) :
  Forall2 (fun item line => summary_row (fst item) (snd item) = Ok line)
    (firstn (List.length (fst (print_rows rows))) rows)
    (fst (print_rows rows)) /\
  match snd (print_rows rows) with
  | Ok _ => List.length (fst (print_rows rows)) = List.length rows
  | Err e =>
      exists item,
        nth_error rows (List.length (fst (print_rows rows))) = Some item /\
        summary_row (fst item) (snd item) = Err e
  end.
Proof.
  induction rows as [|[gpu data] rows IH].
  - split; [constructor|reflexivity].
  - cbn [print_rows].
    destruct (summary_row gpu data) as [line|e] eqn:Hr.
    + destruct (print_rows rows) as [out r]. cbn [fst snd] in *.
      destruct IH as [IH1 IH2]. split.
      * cbn [List.length firstn]. constructor; [exact Hr|exact IH1].
      * destruct r as [[]|e]; cbn [List.length nth_error];
          [now rewrite IH2|exact IH2].
    + split; [constructor|]. exists (gpu, data). split; [reflexivity|exact Hr].
Qed.

Lemma print_rows_ok (rows : list (value * value)) :
  Forall (fun item => exists line,
            summary_row (fst item) (snd item) = Ok line) rows ->
  snd (print_rows rows) = Ok tt.
Proof.
  intros H. induction H as [|[gpu data] rows (line & Hr) _ IH];
    [reflexivity|].
  cbn [print_rows]. cbn [fst snd] in Hr. rewrite Hr.
  destruct (print_rows rows) as [out r]. exact IH.
Qed.

Lemma print_rows_err (rows : list (value * value)) :
  Exists (fun item => exists e,
            summary_row (fst item) (snd item) = Err e) rows ->
  Forall (fun item => forall e,
            summary_row (fst item) (snd item) = Err e ->
            is_ValueError e = false) rows ->
  exists e, snd (print_rows rows) = Err e /\ is_ValueError e = false.
Proof.
  intros Hex Hall. induction Hex as [[gpu data] rows (e & Hr)|
                                     [gpu data] rows Hex IH].
  - cbn [print_rows]. cbn [fst snd] in Hr. rewrite Hr. exists e.
    split; [reflexivity|]. inversion Hall as [|? ? H1 _]; subst.
    exact (H1 e Hr).
  - inversion Hall as [|? ? H1 H2]; subst. cbn [print_rows].
    destruct (summary_row gpu data) as [line|e] eqn:Hr.
    + destruct (IH H2) as (e & He & Hv).
      destruct (print_rows rows) as [out r]. exists e. now split.
    + exists e. split; [reflexivity|]. exact (H1 e Hr).
Qed.

(** X12: [print_summary] prints the five lines of the header, then at
    most fifteen rows, the rows of the first entries in the order of
    the sort by total, then the closing rule.  When a row cannot be
    formatted it raises the exception of that row: the rows before it
    have been printed and the closing rule is not. *)
Theorem print_summary_layout (stats by_total : kdict value) :
  sorted_by total_of true stats = Ok by_total ->
  exists rows,
    Forall2 (fun item line => summary_row (fst item) (snd item) = Ok line)
      (firstn (List.length rows) by_total) rows /\
    (List.length rows <= 15)%nat /\
    match snd (print_summary stats) with
    | Ok _ =>
        fst (print_summary stats) =
          summary_header ++ rows ++ [repeat_string "=" 70] /\
        List.length rows = Nat.min 15 (List.length stats)
    | Err e =>
        fst (print_summary stats) = summary_header ++ rows /\
        (List.length rows < 15)%nat /\
        exists item,
          nth_error by_total (List.length rows) = Some item /\
          summary_row (fst item) (snd item) = Err e
    end.
Proof.
  intros Hs. unfold print_summary. rewrite Hs.
  pose proof (Permutation_length (sorted_by_perm _ _ _ _ Hs)) as Hlen.
  destruct (print_rows_spec (firstn 15 by_total)) as [H1 H2].
  pose proof (firstn_le_length 15 by_total) as Hle.
  destruct (print_rows (firstn 15 by_total)) as [rows r].
  cbn [fst snd] in *. exists rows.
  assert (Hrows : (List.length rows <= List.length (firstn 15 by_total))%nat).
  { pose proof (Forall2_length H1) as L. rewrite length_firstn in L. lia. }
  rewrite firstn_firstn in H1. rewrite length_firstn in Hrows.
  assert (Hm : Nat.min (List.length rows) 15 = List.length rows) by lia.
  rewrite Hm in H1. split; [exact H1|]. split; [lia|].
  destruct r as [[]|e]; cbn [fst snd].
  - split; [reflexivity|]. rewrite H2, length_firstn. lia.
  - destruct H2 as (item & Hn & Hr).
    assert (Hlt : (List.length rows < List.length (firstn 15 by_total))%nat).
    { apply nth_error_Some. congruence. }
    rewrite length_firstn in Hlt.
    split; [reflexivity|]. split; [lia|]. exists item. split; [|exact Hr].
    rewrite nth_error_firstn in Hn.
    destruct (List.length rows <? 15)%nat eqn:E; [exact Hn|discriminate].
Qed.

(** X13: entries whose totals are ints are shown by decreasing total,
    entries with the same total in the order of the dictionary; the
    sort raises nothing and drops nothing, so that the fifteen entries
    shown have the largest totals. *)
Theorem summary_rows_by_total (stats : kdict value) :
  Forall counted stats ->
  exists by_total,
    sorted_by total_of true stats = Ok by_total /\
    Permutation stats by_total /\
    StronglySorted
      (fun a b => entry_total (snd b) <= entry_total (snd a)) by_total /\
    (forall n,
       filter (fun item => entry_total (snd item) =? n) by_total =
       filter (fun item => entry_total (snd item) =? n) stats) /\
    forall shown hidden,
      In shown (firstn 15 by_total) -> In hidden (skipn 15 by_total) ->
      entry_total (snd hidden) <= entry_total (snd shown).
Proof.
  intros H.
  destruct (sorted_by_int_reverse total_of
              (fun item => entry_total (snd item)) stats H)
    as (s & Hs & Hp & Hss & Hf).
  exists s. repeat split; try assumption.
  intros shown hidden Hsh Hh.
  rewrite <- (firstn_skipn 15 s) in Hss.
  clear Hs Hp Hf. revert Hsh Hss.
  generalize (firstn 15 s) as front. intros front Hsh Hss.
  induction front as [|a front IH]; [contradiction|].
  simpl in Hss. inversion Hss as [|? ? Hss' Ha]; subst.
  destruct Hsh as [<-|Hsh]; [|now apply IH].
  rewrite Forall_forall in Ha. apply Ha. apply in_or_app. now right.
Qed.

(** ** The summary of a dataset, printed *)

Lemma min_from_in (l : list value) (cur m : value) :
  min_from cur l = Ok m -> In m (cur :: l).
Proof.
  revert cur. induction l as [|x l IH]; simpl; intros cur H.
  - injection H as <-. now left.
  - destruct (py_lt x cur) as [b|e]; [|discriminate]. cbn [rbind] in H.
    apply IH in H. destruct b; destruct H as [<-|H]; auto.
Qed.

Lemma max_from_in (l : list value) (cur m : value) :
  max_from cur l = Ok m -> In m (cur :: l).
Proof.
  revert cur. induction l as [|x l IH]; simpl; intros cur H.
  - injection H as <-. now left.
  - destruct (py_lt cur x) as [b|e]; [|discriminate]. cbn [rbind] in H.
    apply IH in H. destruct b; destruct H as [<-|H]; auto.
Qed.

(** A rounded price is formatted, or is an int too large for a float. *)
Lemma format_fixed_rounded (p v : value) :
  py_round p 3 = Ok v ->
  (exists text, format_fixed 2 v = Ok text) \/
  format_fixed 2 v = Err OverflowError.
Proof.
  destruct p; simpl; intros H; try discriminate; injection H as <-; simpl.
  - destruct b; left; eexists; reflexivity.
  - destruct (float_is_inf (float_of_int n)); [now right|].
    left. eexists. reflexivity.
  - left. eexists. reflexivity.
Qed.

Lemma format_fixed_printable (p v : value) :
  py_round p 3 = Ok v -> printable_price p = true ->
  exists text, format_fixed 2 v = Ok text.
Proof.
  destruct p; simpl; intros H Hp; try discriminate; injection H as <-; simpl.
  - destruct b; eexists; reflexivity.
  - apply negb_true_iff in Hp. rewrite Hp. eexists. reflexivity.
  - eexists. reflexivity.
Qed.

(** What an entry of the summary is made of. *)
Lemma stats_entry_shape (total rented : Z) (sp : list value)
  (entry : value) :
  stats_entry total rented sp = Ok entry ->
  exists rate pmin pmed pmax,
    entry = VDict [("total", VInt total); ("rented", VInt rented);
                   ("available", VInt (total - rented));
                   ("rental_rate", rate); ("price_min", pmin);
                   ("price_median", pmed); ("price_max", pmax)] /\
    (exists text, format_left 7 rate = Ok text) /\
    (pmin = VNone \/
     exists lo hi, In lo sp /\ In hi sp /\
       py_round lo 3 = Ok pmin /\ py_round hi 3 = Ok pmax).
Proof.
  unfold stats_entry. intros H.
  destruct (rental_rate rented total) as [rate|e] eqn:Hrate; [|discriminate].
  destruct (price_min sp) as [pmin|e] eqn:Hmin; [|discriminate].
  destruct (price_median sp) as [pmed|e]; [|discriminate].
  destruct (price_max sp) as [pmax|e] eqn:Hmax; [|discriminate].
  simpl in H. injection H as <-. exists rate, pmin, pmed, pmax.
  split; [reflexivity|]. split.
  - unfold rental_rate in Hrate. destruct (0 <? total).
    + destruct (int_truediv rented total) as [q|e]; [|discriminate].
      simpl in Hrate. injection Hrate as <-. eexists. reflexivity.
    + injection Hrate as <-. eexists. reflexivity.
  - destruct sp as [|x sp]; [left; now injection Hmin as <-|]. right.
    unfold price_min, py_min in Hmin. unfold price_max, py_max in Hmax.
    destruct (min_from x sp) as [lo|e] eqn:Hlo; [|discriminate].
    destruct (max_from x sp) as [hi|e] eqn:Hhi; [|discriminate].
    exists lo, hi. split; [exact (min_from_in _ _ _ Hlo)|].
    split; [exact (max_from_in _ _ _ Hhi)|]. split; assumption.
Qed.

(** The entries of a summary are counted, and a row of the summary
    is printed unless the key is [None] or a price is an int too large
    for a float; a row never raises a [ValueError]. *)
Lemma summary_row_outcome (records : list value) (stats : kdict value)
  (g entry : value) :
  get_summary_stats records = Ok stats -> In (g, entry) stats ->
  counted (g, entry) /\
  (forall e, summary_row g entry = Err e -> is_ValueError e = false) /\
  (g = VNone -> exists e, summary_row g entry = Err e) /\
  (g <> VNone ->
   Forall (fun r => printable_price (field r "dph_total") = true) records ->
   exists line, summary_row g entry = Ok line).
Proof.
  intros H Hin.
  destruct (get_summary_stats_entries records stats g entry H Hin)
    as [Hg _].
  destruct (get_summary_stats_spec records stats g entry H Hin)
    as (ts & sp & _ & _ & Hs & He).
  apply sorted_perm in Hs.
  destruct (stats_entry_shape _ _ _ _ He)
    as (rate & pmin & pmed & pmax & -> & (rt & Hrate) & Hp).
  split; [reflexivity|].
  assert (Hleft : g <> VNone -> exists text, format_left 20 g = Ok text).
  { intros Hn. destruct g; try discriminate Hg; try contradiction;
      eexists; reflexivity. }
  unfold summary_row, price_range.
  cbn [py_subscript assoc String.eqb Ascii.eqb Bool.eqb rbind].
  destruct Hp as [-> | (lo & hi & Hlo & Hhi & Rlo & Rhi)].
  - cbn [truthy rbind format_left]. rewrite Hrate. cbn [rbind].
    repeat split.
    + intros e He'. destruct g; try discriminate Hg; try discriminate He'.
      now injection He' as <-.
    + intros ->. eexists. reflexivity.
    + intros Hn _. destruct (Hleft Hn) as (text & ->). eexists. reflexivity.
  - destruct (truthy pmin).
    + destruct (format_fixed_rounded _ _ Rlo) as [(tlo & Flo)|Flo];
        rewrite Flo; cbn [rbind].
      * destruct (format_fixed_rounded _ _ Rhi) as [(thi & Fhi)|Fhi];
          rewrite Fhi; cbn [rbind format_left]; rewrite ?Hrate;
          cbn [rbind].
        -- repeat split.
           ++ intros e He'. destruct g; try discriminate Hg;
                try discriminate He'. now injection He' as <-.
           ++ intros ->. eexists. reflexivity.
           ++ intros Hn _. destruct (Hleft Hn) as (text & ->).
              eexists. reflexivity.
        -- repeat split.
           ++ intros e He'. now injection He' as <-.
           ++ intros _. eexists. reflexivity.
           ++ intros _ Hpr. exfalso.
              assert (Hhi' : printable_price hi = true).
              { rewrite Forall_forall in Hpr.
                apply (Permutation_in _ (Permutation_sym Hs)) in Hhi.
                unfold category_prices in Hhi. apply in_map_iff in Hhi.
                destruct Hhi as (r & <- & Hr). apply Hpr.
                apply filter_In in Hr. destruct Hr as [Hr _].
                apply filter_In in Hr. destruct Hr as [Hr _].
                apply filter_In in Hr. now destruct Hr. }
              destruct (format_fixed_printable _ _ Rhi Hhi') as (t & Ft).
              congruence.
      * repeat split.
        -- intros e He'. now injection He' as <-.
        -- intros _. eexists. reflexivity.
        -- intros _ Hpr. exfalso.
           assert (Hlo' : printable_price lo = true).
           { rewrite Forall_forall in Hpr.
             apply (Permutation_in _ (Permutation_sym Hs)) in Hlo.
             unfold category_prices in Hlo. apply in_map_iff in Hlo.
             destruct Hlo as (r & <- & Hr). apply Hpr.
             apply filter_In in Hr. destruct Hr as [Hr _].
             apply filter_In in Hr. destruct Hr as [Hr _].
             apply filter_In in Hr. now destruct Hr. }
           destruct (format_fixed_printable _ _ Rlo Hlo') as (t & Ft).
           congruence.
    + cbn [rbind format_left]. rewrite Hrate. cbn [rbind]. repeat split.
      * intros e He'. destruct g; try discriminate Hg; try discriminate He'.
        now injection He' as <-.
      * intros ->. eexists. reflexivity.
      * intros Hn _. destruct (Hleft Hn) as (text & ->). eexists. reflexivity.
Qed.

Lemma summary_sorts (records : list value) (stats : kdict value) :
  get_summary_stats records = Ok stats ->
  exists by_total,
    sorted_by total_of true stats = Ok by_total /\
    Permutation stats by_total.
Proof.
  intros H.
  assert (Hc : Forall counted stats).
  { rewrite Forall_forall. intros [g entry] Hin.
    exact (proj1 (summary_row_outcome records stats g entry H Hin)). }
  destruct (sorted_by_int_reverse total_of
              (fun item => entry_total (snd item)) stats Hc)
    as (s & Hs & Hp & _).
  exists s. now split.
Qed.

Lemma summary_prints (records : list value) (stats : kdict value) :
  get_summary_stats records = Ok stats ->
  kd_mem stats VNone = false ->
  Forall (fun r => printable_price (field r "dph_total") = true) records ->
  snd (print_summary stats) = Ok tt /\
  List.length (fst (print_summary stats)) =
    (6 + Nat.min 15 (List.length stats))%nat.
Proof.
  intros H Hnone Hpr.
  destruct (summary_sorts records stats H) as (s & Hs & Hp).
  destruct (get_summary_stats_keys records stats H) as [Hk _].
  assert (Hrows : Forall (fun item => exists line,
                      summary_row (fst item) (snd item) = Ok line)
                    (firstn 15 s)).
  { rewrite Forall_forall. intros [g entry] Hin.
    apply in_firstn in Hin.
    apply (Permutation_in _ (Permutation_sym Hp)) in Hin.
    apply (proj2 (proj2 (proj2
             (summary_row_outcome records stats g entry H Hin))));
      [|exact Hpr].
    intros ->.
    assert (Hm : kd_mem stats VNone = true).
    { apply kd_mem_key; [exact Hk|].
      apply in_map_iff. exists (VNone, entry). now split. }
    congruence. }
  pose proof (print_rows_ok _ Hrows) as Hok.
  destruct (print_rows_spec (firstn 15 s)) as [_ Hlen].
  unfold print_summary. rewrite Hs.
  destruct (print_rows (firstn 15 s)) as [rows r]. cbn [fst snd] in *.
  subst r. cbn [fst snd]. split; [reflexivity|].
  rewrite !length_app, Hlen, length_firstn.
  rewrite (Permutation_length Hp). simpl. lia.
Qed.

Lemma summary_stops (records : list value) (stats : kdict value) :
  get_summary_stats records = Ok stats ->
  kd_mem stats VNone = true -> (List.length stats <= 15)%nat ->
  exists e, snd (print_summary stats) = Err e /\ is_ValueError e = false.
Proof.
  intros H Hnone Hlen.
  destruct (summary_sorts records stats H) as (s & Hs & Hp).
  assert (Hall : firstn 15 s = s).
  { apply firstn_all2. rewrite <- (Permutation_length Hp). exact Hlen. }
  destruct (kd_mem_exists stats VNone Hnone) as (k & Hin & Hk).
  assert (Ek : k = VNone) by (destruct k; try discriminate Hk; reflexivity).
  subst k. apply in_map_iff in Hin. destruct Hin as ([g entry] & Eg & Hin).
  simpl in Eg. subst g.
  destruct (print_rows_err s) as (e & He & Hv).
  - apply Exists_exists. exists (VNone, entry).
    split; [exact (Permutation_in _ Hp Hin)|].
    exact (proj1 (proj2 (proj2
             (summary_row_outcome records stats VNone entry H Hin)))
             eq_refl).
  - rewrite Forall_forall. intros [g' entry'] Hin'.
    apply (Permutation_in _ (Permutation_sym Hp)) in Hin'.
    exact (proj1 (proj2
             (summary_row_outcome records stats g' entry' H Hin'))).
  - exists e. split; [|exact Hv].
    unfold print_summary. rewrite Hs, Hall.
    destruct (print_rows s) as [rows r]. cbn [snd] in He. subst r.
    reflexivity.
Qed.

(** X14: the summary of a dataset is printed to the end, header, one
    row per GPU name up to fifteen and closing rule, when no record of
    the latest batch has the GPU name [None] and no price is an int
    beyond the range of the floats. *)
Theorem print_summary_of_dataset (records : list value)
  (stats : kdict value) (ts : value) :
  get_summary_stats records = Ok stats ->
  py_subscript (last records VNone) "timestamp" = Ok ts ->
  Forall (fun r => gpu_of r <> VNone) (with_timestamp ts records) ->
  Forall (fun r => printable_price (field r "dph_total") = true) records ->
  snd (print_summary stats) = Ok tt /\
  List.length (fst (print_summary stats)) =
    (6 + Nat.min 15 (List.length stats))%nat.
Proof.
  intros H Hts Hg Hpr. apply (summary_prints records stats H); [|exact Hpr].
  rewrite (summary_mem records stats ts VNone H Hts eq_refl).
  destruct (existsb _ _) eqn:He; [|reflexivity].
  apply existsb_exists in He. destruct He as (r & Hin & Hsame).
  rewrite Forall_forall in Hg. exfalso. apply (Hg r Hin).
  unfold in_category in Hsame.
  destruct (gpu_of r); try discriminate Hsame. reflexivity.
Qed.

(** X15: a GPU name that is [None] cannot be printed: when a record of
    the latest batch has it, as the projector makes one from an offer
    without ["gpu_name"], and the summary has at most fifteen entries,
    [print_summary] raises an exception that is not a [ValueError], the
    kind [main] raises again. *)
Theorem print_summary_none_gpu (records : list value)
  (stats : kdict value) (ts r : value) :
  get_summary_stats records = Ok stats ->
  py_subscript (last records VNone) "timestamp" = Ok ts ->
  In r (with_timestamp ts records) -> gpu_of r = VNone ->
  (List.length stats <= 15)%nat ->
  exists e, snd (print_summary stats) = Err e /\ is_ValueError e = false.
Proof.
  intros H Hts Hin Hg Hlen. apply (summary_stops records stats H); [|exact Hlen].
  rewrite <- Hg.
  exact (get_summary_stats_complete records stats ts r H Hts Hin).
Qed.

End PrinterFacts.

(* ================================================================== *)
(** * One run *)
(* ================================================================== *)

Module RunFacts.
Import Py DateTime Spec CollectData Examples.

Section Run.

Context {doc : Type} {codec : JsonText doc}.

(** ** Saving *)

(** A file system that holds the dataset file can be written again. *)
Lemma storable_after_save (w : world doc) (c : doc) :
  data_file_node w = Some (File c) -> storable w.
Proof.
  unfold data_file_node. intros N. split.
  - intros c' Hc. rewrite Hc in N. discriminate.
  - intros Hd. destruct (fs w DATA_DIR) as [[c'|]|]; try discriminate.
    rewrite Hd in N. discriminate.
Qed.

(** X16: saving replaces the dataset: after saving [R1] and then [R2]
    the file system is the one saving [R2] alone gives, the dataset
    file holds the dump of [R2], and no other path has changed. *)
Theorem save_data_overwrites (w : world doc) (R1 R2 : list value) :
  storable w ->
  exists w1 w2,
    save_data (VList R1) w = (Ok tt, w1) /\
    save_data (VList R2) w1 = (Ok tt, w2) /\
    data_file_node w2 = Some (File (json_dump (VList R2) 2)) /\
    (forall p, fs w2 p = fs (snd (save_data (VList R2) w)) p) /\
    (forall p, p <> DATA_DIR -> p <> DATA_FILE -> fs w2 p = fs w p).
Proof.
  intros Hst.
  destruct (StoreFacts.save_data_storable w R1 Hst)
    as (w1 & H1 & N1 & F1 & _).
  destruct (StoreFacts.save_data_storable w1 R2 (storable_after_save w1 _ N1))
    as (w2 & H2 & N2 & F2 & _).
  destruct (StoreFacts.save_data_storable w R2 Hst)
    as (w2' & H2' & N2' & F2' & _).
  exists w1, w2. split; [exact H1|]. split; [exact H2|].
  split; [exact N2|]. split.
  - intros p. rewrite H2'. simpl.
    unfold data_file_node in N2, N2'.
    destruct (String.eqb p DATA_DIR) eqn:Ed.
    + apply String.eqb_eq in Ed. subst p.
      destruct (fs w2 DATA_DIR) as [[c|]|]; try discriminate.
      destruct (fs w2' DATA_DIR) as [[c|]|]; try discriminate.
      reflexivity.
    + destruct (String.eqb p DATA_FILE) eqn:Ef.
      * apply String.eqb_eq in Ef. subst p.
        destruct (fs w2 DATA_DIR) as [[c|]|]; try discriminate.
        destruct (fs w2' DATA_DIR) as [[c|]|]; try discriminate.
        now rewrite N2, N2'.
      * apply String.eqb_neq in Ed. apply String.eqb_neq in Ef.
        now rewrite F2, F1, F2'.
  - intros p Hd Hf. now rewrite F2, F1.
Qed.

(** ** The runs that do not save *)

Section Main.

Variable print_summary : kdict value -> result unit.

Lemma main_eq (w : world doc) :
  main print_summary w =
  try_except (main_body print_summary)
    (fun e => if is_ValueError e then ret tt else raise e)
    (snd (datetime_now w)).
Proof. reflexivity. Qed.

(** When the collection raises, the run ends as the handlers decide
    and in the world the collection left. *)
Lemma main_failed_collection (w : world doc) (e : exn) :
  fst (collect_data (snd (datetime_now w))) = Err e ->
  main print_summary w =
    (outcome_of e, snd (collect_data (snd (datetime_now w)))).
Proof.
  intros H. rewrite main_eq. unfold try_except, main_body.
  unfold bind at 1.
  destruct (collect_data (snd (datetime_now w))) as [r w1].
  simpl in H. subst r. simpl. unfold outcome_of, ret, raise.
  destruct (is_ValueError e); reflexivity.
Qed.

(** X17: without an API key, unset or empty, the run reads the clock
    for its banner and returns: the error is caught, no request is
    sent and no file is touched. *)
Theorem main_without_api_key (w : world doc) :
  environ w "VAST_API_KEY" = None \/ environ w "VAST_API_KEY" = Some "" ->
  main print_summary w =
    (Ok tt,
     mk_world (environ w) (server w) (sent w) (clock w) (S (ticks w))
       (fs w)).
Proof.
  intros H.
  pose proof (CollectorFacts.collect_data_without_key
                (snd (datetime_now w)) H) as Hc.
  rewrite (main_failed_collection w (ValueError api_key_missing))
    by now rewrite Hc.
  rewrite Hc. reflexivity.
Qed.

(** X18: when the API answers with a status other than 200, the run
    raises the exception that carries the status and the body, after
    one request; no file is touched. *)
Theorem main_api_error (w : world doc) (k : string) (r : response) :
  environ w "VAST_API_KEY" = Some k -> k <> "" ->
  server w (List.length (sent w)) = Ok r -> status_code r <> 200 ->
  main print_summary w =
    (Err (Exception (api_error_message r)),
     mk_world (environ w) (server w) (sent w ++ [request_of k]) (clock w)
       (S (ticks w)) (fs w)).
Proof.
  intros Hk Hne Hr Hs.
  assert (Hc : collect_data (snd (datetime_now w)) =
               (Err (Exception (api_error_message r)),
                after_request (snd (datetime_now w)) k 0)).
  { rewrite (CollectorFacts.collect_data_fetch (snd (datetime_now w)) k Hk Hne).
    now rewrite (CollectorFacts.fetch_vast_offers_status
                   (snd (datetime_now w)) k r Hr Hs). }
  rewrite (main_failed_collection w (Exception (api_error_message r)))
    by now rewrite Hc.
  rewrite Hc. unfold after_request. simpl. now rewrite Nat.add_0_r.
Qed.

(** X19: when the API answers with status 200 and a body that does not
    decode, the decoder's exception ends the run as the handlers decide:
    a [JSONDecodeError] is a [ValueError], so the run returns without
    raising; no file is touched. *)
Theorem main_undecodable_body (w : world doc) (k : string) (r : response)
  (e : exn) :
  environ w "VAST_API_KEY" = Some k -> k <> "" ->
  server w (List.length (sent w)) = Ok r -> status_code r = 200 ->
  json r = Err e ->
  main print_summary w =
    (outcome_of e,
     mk_world (environ w) (server w) (sent w ++ [request_of k]) (clock w)
       (S (ticks w)) (fs w)) /\
  outcome_of JSONDecodeError = Ok tt.
Proof.
  intros Hk Hne Hr Hs Hj. split; [|reflexivity].
  assert (Hc : collect_data (snd (datetime_now w)) =
               (Err e, after_request (snd (datetime_now w)) k 0)).
  { rewrite (CollectorFacts.collect_data_fetch (snd (datetime_now w)) k Hk Hne).
    now rewrite (CollectorFacts.fetch_vast_offers_body
                   (snd (datetime_now w)) k r Hr Hs), Hj. }
  rewrite (main_failed_collection w e) by now rewrite Hc.
  rewrite Hc. unfold after_request. simpl. now rewrite Nat.add_0_r.
Qed.

(** X20: when no offer of the answer is a dictionary, in particular
    when there is no offer, the run returns without loading or saving:
    the dataset file is neither created nor rewritten. *)
Theorem main_without_offers (w : world doc) (k : string) (r : response)
  (d : list (string * value)) (offers : list value) :
  environ w "VAST_API_KEY" = Some k -> k <> "" ->
  server w (List.length (sent w)) = Ok r -> status_code r = 200 ->
  json r = Ok (VDict d) -> get_or d "offers" (VList []) = VList offers ->
  Forall (fun offer => is_dict offer = false) offers ->
  main print_summary w =
    (Ok tt,
     mk_world (environ w) (server w) (sent w ++ [request_of k]) (clock w)
       (S (ticks w) + List.length offers) (fs w)).
Proof.
  intros Hk Hne Hr Hs Hj Ho Hnd.
  pose proof (CollectorFacts.collect_data_run (snd (datetime_now w)) k r d
                offers Hk Hne Hr Hs Hj Ho) as Hc.
  rewrite CollectorFacts.project_from_no_dict in Hc by exact Hnd.
  rewrite main_eq. unfold try_except, main_body. unfold bind at 1.
  rewrite Hc. reflexivity.
Qed.

(** ** The runs that fail before saving *)

(** X21: when the dataset on disk cannot be loaded as a list, the
    batch is not saved and the file system is left as it was.  A file
    that does not decode ends the run as the handlers decide, so a
    [JSONDecodeError] is caught and the run returns; a file that decodes
    to something else than a list makes the run raise [TypeError]. *)
Theorem main_unreadable_dataset (w : world doc) (new : list value)
  (r : result value) :
  fst (collect_data (snd (datetime_now w))) = Ok (VList new) -> new <> [] ->
  fst (load_existing_data w) = r -> (forall l, r <> Ok (VList l)) ->
  fst (main print_summary w) =
    match r with
    | Err e => outcome_of e
    | Ok _ => Err TypeError
    end /\
  fs (snd (main print_summary w)) = fs w.
Proof.
  intros Hc Hne Hl Hr.
  assert (E : exists w',
             main print_summary w =
               (match r with
                | Err e => outcome_of e
                | Ok _ => Err TypeError
                end, w') /\ fs w' = fs w).
  { rewrite main_eq.
    set (w0 := snd (datetime_now w)) in *.
    pose proof (StoreFacts.keeps_fs_collect_data w0) as Hfs.
    unfold try_except, main_body. unfold bind at 1.
    destruct (collect_data w0) as [c w1]. simpl in Hc, Hfs. subst c.
    assert (Ht : truthy (VList new) = true)
      by (destruct new; [contradiction|reflexivity]).
    rewrite Ht. cbv beta iota zeta. unfold negb. unfold bind at 1.
    rewrite StoreFacts.load_existing_data_eq.
    rewrite StoreFacts.load_existing_data_eq in Hl. simpl in Hl.
    assert (Hfs1 : fs w1 = fs w) by (rewrite Hfs; reflexivity).
    rewrite (StoreFacts.data_file_node_fs w w1 Hfs1), Hl.
    exists w1. split; [|exact Hfs1].
    destruct r as [v|e].
    - unfold bind, lift.
      destruct v as [| | | | |l|d0];
        try (exfalso; now apply (Hr l)); reflexivity.
    - unfold outcome_of, ret, raise.
      destruct (is_ValueError e); reflexivity. }
  destruct E as (w' & -> & E). split; [reflexivity|exact E].
Qed.

(** X22: when ["data"] is a regular file the batch cannot be saved:
    the run raises [FileExistsError] and the file system is left as it
    was. *)
Theorem main_save_blocked (w : world doc) (new : list value) (c : doc) :
  fst (collect_data (snd (datetime_now w))) = Ok (VList new) -> new <> [] ->
  fs w DATA_DIR = Some (File c) ->
  fst (main print_summary w) = Err FileExistsError /\
  fs (snd (main print_summary w)) = fs w.
Proof.
  intros Hc Hne Hd.
  assert (E : exists w',
             main print_summary w = (Err FileExistsError, w') /\
             fs w' = fs w).
  { rewrite main_eq.
    set (w0 := snd (datetime_now w)) in *.
    pose proof (StoreFacts.keeps_fs_collect_data w0) as Hfs.
    unfold try_except, main_body. unfold bind at 1.
    destruct (collect_data w0) as [r w1]. simpl in Hc, Hfs. subst r.
    assert (Ht : truthy (VList new) = true)
      by (destruct new; [contradiction|reflexivity]).
    rewrite Ht. cbv beta iota zeta. unfold negb. unfold bind at 1.
    rewrite StoreFacts.load_existing_data_eq.
    assert (Hfs1 : fs w1 = fs w) by (rewrite Hfs; reflexivity).
    assert (Hd1 : fs w1 DATA_DIR = Some (File c)) by now rewrite Hfs1.
    unfold data_file_node. rewrite Hd1.
    unfold bind at 1. unfold lift at 1. cbn [py_len].
    unfold bind at 1. unfold lift at 1. cbn [py_add].
    unfold bind at 1. unfold save_data, bind, mkdir_data_dir. rewrite Hd1.
    exists w1. split; [reflexivity|exact Hfs1]. }
  destruct E as (w' & -> & E). split; [reflexivity|exact E].
Qed.

(** ** The runs that save *)

(** A run that saves ends in the world the save left, as the summary
    ends. *)
Lemma main_run (w : world doc) (old new : list value) :
  fst (collect_data (snd (datetime_now w))) = Ok (VList new) -> new <> [] ->
  fst (load_existing_data w) = Ok (VList old) -> storable w ->
  main print_summary w =
    (match get_summary_stats (old ++ new) with
     | Ok stats =>
         match print_summary stats with
         | Ok _ => Ok tt
         | Err e => outcome_of e
         end
     | Err e => outcome_of e
     end,
     snd (save_data (VList (old ++ new))
            (snd (collect_data (snd (datetime_now w)))))).
Proof.
  intros Hc Hne Hl Hst. rewrite main_eq.
  set (w0 := snd (datetime_now w)) in *.
  pose proof (StoreFacts.keeps_fs_collect_data w0) as Hfs.
  unfold try_except, main_body. unfold bind at 1.
  destruct (collect_data w0) as [r w1]. simpl in Hc, Hfs. subst r.
  assert (Ht : truthy (VList new) = true)
    by (destruct new; [contradiction|reflexivity]).
  rewrite Ht. cbv beta iota zeta. unfold negb. unfold bind.
  rewrite StoreFacts.load_existing_data_eq.
  rewrite StoreFacts.load_existing_data_eq in Hl. simpl in Hl.
  assert (Hfs1 : fs w1 = fs w) by (rewrite Hfs; reflexivity).
  rewrite (StoreFacts.data_file_node_fs w w1 Hfs1), Hl.
  unfold lift at 1 2. unfold py_len at 1. unfold py_add.
  destruct (StoreFacts.save_data_storable w1 (old ++ new)
              (StoreFacts.storable_fs w w1 Hfs1 Hst)) as (w2 & Hsave & _).
  cbn [snd]. rewrite Hsave. unfold lift, ret, raise, py_len, outcome_of.
  destruct (get_summary_stats (old ++ new)) as [stats|e]; simpl.
  - destruct (print_summary stats) as [[]|e]; simpl; [reflexivity|].
    destruct (is_ValueError e); reflexivity.
  - destruct (is_ValueError e); reflexivity.
Qed.

(** X23: a run that collects a non-empty batch on top of a dataset it
    can load and store saves first and summarises afterwards: it ends
    as the summary ends, with [ValueError] caught and any other
    exception of [get_summary_stats] or [print_summary] raised again,
    and in every case the dataset file holds the extended dataset. *)
Theorem main_summary_after_save (w : world doc) (old new : list value) :
  fst (collect_data (snd (datetime_now w))) = Ok (VList new) -> new <> [] ->
  fst (load_existing_data w) = Ok (VList old) -> storable w ->
  fst (main print_summary w) =
    match get_summary_stats (old ++ new) with
    | Ok stats =>
        match print_summary stats with
        | Ok _ => Ok tt
        | Err e => outcome_of e
        end
    | Err e => outcome_of e
    end /\
  data_file_node (snd (main print_summary w)) =
    Some (File (json_dump (VList (old ++ new)) 2)).
Proof.
  intros Hc Hne Hl Hst.
  split; [|exact (StoreFacts.main_saves print_summary w old new Hc Hne Hl Hst)].
  now rewrite (main_run w old new Hc Hne Hl Hst).
Qed.

End Main.

(** ** The run as a whole, with the summary it prints *)

(** X24: a run ends without an exception, its batch saved behind the
    dataset, when the batch is not empty, the dataset loads and can be
    stored, and the records of both are dictionaries with a timestamp,
    a GPU name that is hashable and not [None], and a price that is
    false for [bool()] or a number within the range of the floats. *)
Theorem main_completes (w : world doc) (old new : list value) :
  fst (collect_data (snd (datetime_now w))) = Ok (VList new) -> new <> [] ->
  fst (load_existing_data w) = Ok (VList old) -> storable w ->
  all_reportable (old ++ new) ->
  Forall (fun r => gpu_of r <> VNone) (old ++ new) ->
  Forall (fun r => printable_price (field r "dph_total") = true)
    (old ++ new) ->
  fst (main (fun stats => snd (print_summary stats)) w) = Ok tt /\
  data_file_node (snd (main (fun stats => snd (print_summary stats)) w)) =
    Some (File (json_dump (VList (old ++ new)) 2)).
Proof.
  intros Hc Hne Hl Hst Hr Hg Hp.
  split; [|exact (StoreFacts.main_saves _ w old new Hc Hne Hl Hst)].
  rewrite (main_run _ w old new Hc Hne Hl Hst). cbn [fst].
  destruct (ReporterFacts.get_summary_stats_total _ Hr) as (stats & H).
  rewrite H.
  assert (Hnone : kd_mem stats VNone = false).
  { assert (Hne' : old ++ new <> [])
      by (intros E; apply app_eq_nil in E; now destruct E).
    pose proof H as H'.
    rewrite (SummaryFacts.get_summary_stats_eq _ Hne') in H'.
    destruct (py_subscript (last (old ++ new) VNone) "timestamp")
      as [ts|e] eqn:Hts; [|discriminate].
    rewrite (SummaryFacts.summary_mem _ stats ts VNone H Hts eq_refl).
    destruct (existsb _ _) eqn:He; [|reflexivity].
    apply existsb_exists in He. destruct He as (r & Hin & Hsame).
    apply filter_In in Hin. rewrite Forall_forall in Hg.
    exfalso. apply (Hg r (proj1 Hin)). unfold in_category in Hsame.
    destruct (gpu_of r); try discriminate Hsame. reflexivity. }
  now rewrite (proj1 (PrinterFacts.summary_prints _ stats H Hnone Hp)).
Qed.

(** X25: an offer without a GPU name stops the run after the save: when
    the last record of the batch has the GPU name [None], as the
    projector fills it in for an offer without ["gpu_name"], and the
    summary has at most fifteen entries, the run raises an exception,
    and the dataset file holds the extended dataset all the same. *)
Theorem main_nameless_offer (w : world doc) (old new : list value)
  (stats : kdict value) (d : list (string * value)) (t : string) :
  fst (collect_data (snd (datetime_now w))) = Ok (VList new) -> new <> [] ->
  fst (load_existing_data w) = Ok (VList old) -> storable w ->
  get_summary_stats (old ++ new) = Ok stats ->
  (List.length stats <= 15)%nat ->
  last new VNone = VDict d -> assoc d "timestamp" = Some (VStr t) ->
  assoc d "gpu_name" = Some VNone ->
  exists e,
    fst (main (fun stats => snd (print_summary stats)) w) = Err e /\
    is_ValueError e = false /\
    data_file_node (snd (main (fun stats => snd (print_summary stats)) w)) =
      Some (File (json_dump (VList (old ++ new)) 2)).
Proof.
  intros Hc Hne Hl Hst H Hlen Hlast Hts Hgpu.
  assert (Hl' : last (old ++ new) VNone = VDict d)
    by now rewrite (SummaryFacts.last_app_nonempty old new VNone Hne).
  assert (Hts' : py_subscript (last (old ++ new) VNone) "timestamp"
                 = Ok (VStr t)).
  { rewrite Hl'. simpl. now rewrite Hts. }
  assert (Hin : In (VDict d) (with_timestamp (VStr t) (old ++ new))).
  { apply filter_In. split.
    - rewrite <- Hlast. apply in_or_app. right.
      destruct (exists_last Hne) as (l & a & E). rewrite E, last_last.
      apply in_or_app. right. now left.
    - unfold field, get. rewrite Hts. simpl. apply String.eqb_refl. }
  pose proof (ReporterFacts.get_summary_stats_complete _ stats (VStr t)
                (VDict d) H Hts' Hin) as Hm.
  assert (Eg : gpu_of (VDict d) = VNone)
    by (unfold gpu_of, get_or; now rewrite Hgpu).
  rewrite Eg in Hm.
  destruct (PrinterFacts.summary_stops _ stats H Hm Hlen) as (e & He & Hv).
  exists e.
  split; [|split; [exact Hv|
                   exact (StoreFacts.main_saves _ w old new Hc Hne Hl Hst)]].
  rewrite (main_run _ w old new Hc Hne Hl Hst). cbn [fst].
  rewrite H, He. unfold outcome_of. now rewrite Hv.
Qed.

(** ** Two runs *)

Section Twice.

Variable print_summary : kdict value -> result unit.

Hypothesis json_lossless :
  forall (v : value) (indent : Z),
    wf_value v = true -> json_load (json_dump v indent) = Ok v.

(** X26: runs accumulate and nothing is taken as a duplicate: after two
    runs, the first collecting from the offers [offers1] and the second
    from [offers2], the dataset file holds the old dataset followed by
    the records of the first run and those of the second, also when the
    two answers are the same.  The second run stamps its records with
    the clock readings that follow those of the first. *)
Theorem two_runs_accumulate (w : world doc) (k : string) (r1 r2 : response)
  (d1 d2 : list (string * value)) (offers1 offers2 old : list value) :
  environ w "VAST_API_KEY" = Some k -> k <> "" ->
  server w (List.length (sent w)) = Ok r1 -> status_code r1 = 200 ->
  json r1 = Ok (VDict d1) -> get_or d1 "offers" (VList []) = VList offers1 ->
  server w (S (List.length (sent w))) = Ok r2 -> status_code r2 = 200 ->
  json r2 = Ok (VDict d2) -> get_or d2 "offers" (VList []) = VList offers2 ->
  fst (load_existing_data w) = Ok (VList old) -> storable w ->
  let new1 := project_from (clock w) (S (ticks w)) offers1 in
  let new2 :=
    project_from (clock w) (S (S (ticks w) + List.length offers1)) offers2 in
  new1 <> [] -> new2 <> [] -> forallb wf_value (old ++ new1) = true ->
  data_file_node (snd (main print_summary (snd (main print_summary w)))) =
    Some (File (json_dump (VList (old ++ new1 ++ new2)) 2)).
Proof.
  intros Hk Hne Hr1 Hs1 Hj1 Ho1 Hr2 Hs2 Hj2 Ho2 Hl Hst new1 new2
    Hn1 Hn2 Hwf.
  pose proof (CollectorFacts.collect_data_run (snd (datetime_now w)) k r1
                d1 offers1 Hk Hne Hr1 Hs1 Hj1 Ho1) as Hc1.
  change (project_from _ _ offers1) with new1 in Hc1.
  assert (Hc1' : fst (collect_data (snd (datetime_now w))) = Ok (VList new1))
    by now rewrite Hc1.
  rewrite (main_run print_summary w old new1 Hc1' Hn1 Hl Hst).
  cbn [snd]. rewrite Hc1. cbn [snd].
  set (w1 := after_request (snd (datetime_now w)) k (List.length offers1)).
  assert (Hst1 : storable w1) by exact Hst.
  destruct (StoreFacts.save_data_storable w1 (old ++ new1) Hst1)
    as (w2 & Hsave & Hnode & _ & Henv & Hserver & Hsent & Hclock & Hticks).
  rewrite Hsave. cbn [snd].
  assert (Hc2 : collect_data (snd (datetime_now w2)) =
                (Ok (VList new2),
                 after_request (snd (datetime_now w2)) k
                   (List.length offers2))).
  { replace new2
      with (project_from (clock (snd (datetime_now w2)))
              (ticks (snd (datetime_now w2))) offers2).
    - apply (CollectorFacts.collect_data_run (snd (datetime_now w2)) k r2 d2
               offers2); try assumption.
      + cbn [environ datetime_now snd]. now rewrite Henv.
      + cbn [server sent datetime_now snd]. rewrite Hserver, Hsent.
        subst w1. cbn [sent after_request datetime_now snd].
        rewrite length_app. simpl List.length.
        now rewrite Nat.add_1_r.
    - cbn [clock ticks datetime_now snd]. rewrite Hclock, Hticks.
      reflexivity. }
  assert (Hl2 : fst (load_existing_data w2) = Ok (VList (old ++ new1))).
  { rewrite StoreFacts.load_existing_data_eq. cbn [fst]. rewrite Hnode.
    exact (json_lossless (VList (old ++ new1)) 2 Hwf). }
  rewrite (StoreFacts.main_saves print_summary w2 (old ++ new1) new2
             ltac:(now rewrite Hc2) Hn2 Hl2
             (storable_after_save w2 _ Hnode)).
  now rewrite <- app_assoc.
Qed.

End Twice.

End Run.

End RunFacts.

(* ================================================================== *)
(** * The theorems on concrete inputs *)
(* ================================================================== *)

Module Scenarios.
Import Py DateTime Spec CollectData Examples.

(** ** Built-ins *)

(** 1 rented out of 3 is 33.3 percent; 49 out of 400 is 12.25, a tie
    that rounds to the even 12.2. *)
Example rental_rate_one_third :
  rental_rate 1 3 = Ok (VFloat (float_of_ratio 333 10)).
Proof. vm_compute. reflexivity. Qed.

Example rental_rate_tie :
  rental_rate 49 400 = Ok (VFloat (float_of_ratio 122 10)).
Proof. vm_compute. reflexivity. Qed.

(** [round(0.3456, 3)] is [0.346], and an int rounds to itself. *)
Example round_price :
  py_round (VFloat (float_of_ratio 3456 10000)) 3
  = Ok (VFloat (float_of_ratio 346 1000)) /\
  py_round (VInt 30) 3 = Ok (VInt 30).
Proof. split; vm_compute; reflexivity. Qed.

(** Ints and floats are ordered by value, and [True] is 1. *)
Example sorted_mixed :
  sorted [VInt 3; VFloat (float_of_ratio 5 2); VBool true; VInt 2]
  = Ok [VBool true; VInt 2; VFloat (float_of_ratio 5 2); VInt 3].
Proof. vm_compute. reflexivity. Qed.

(** 2026-11-04 is a Wednesday, 2024-02-29 a Thursday. *)
Example weekday_examples :
  weekday (mk_datetime 2026 11 4 7 5 9 0) = 2 /\
  weekday (mk_datetime 2024 2 29 0 0 0 0) = 3 /\
  isoformat (mk_datetime 2026 11 4 7 5 9 123) = "2026-11-04T07:05:09.000123".
Proof. repeat split. Qed.

(** ** Reporter *)

(** The prices 10, 20, 30, 40 of one category have the reported median
    30, which is not 20. *)
Lemma median_of_four_prices :
  reported four_prices rtx4090 "price_median" = Ok (VInt 30) /\
  reported four_prices rtx4090 "price_median" <> Ok (VInt 20).
Proof. split; [vm_compute; reflexivity|vm_compute; discriminate]. Qed.

Lemma reported_median_of_four_prices :
  get_summary_stats four_prices = Ok [(rtx4090, four_prices_entry)] /\
  In (rtx4090, four_prices_entry) [(rtx4090, four_prices_entry)] /\
  py_subscript (last four_prices VNone) "timestamp" = Ok (VStr "t") /\
  Forall (fun p => ordered_number p = true)
    (category_prices rtx4090 (with_timestamp (VStr "t") four_prices)) /\
  exists sp,
    sorted (category_prices rtx4090 (with_timestamp (VStr "t") four_prices))
      = Ok sp /\
    Permutation
      (category_prices rtx4090 (with_timestamp (VStr "t") four_prices)) sp /\
    ascending sp /\
    match nth_error sp (List.length sp / 2) with
    | Some m => py_round m 3 = Ok (field four_prices_entry "price_median")
    | None => sp = [] /\ field four_prices_entry "price_median" = VNone
    end.
Proof.
  assert (H1 : get_summary_stats four_prices
               = Ok [(rtx4090, four_prices_entry)])
    by (vm_compute; reflexivity).
  assert (H2 : In (rtx4090, four_prices_entry)
                 [(rtx4090, four_prices_entry)]) by (left; reflexivity).
  assert (H3 : py_subscript (last four_prices VNone) "timestamp"
               = Ok (VStr "t")) by reflexivity.
  assert (H4 : Forall (fun p => ordered_number p = true)
                 (category_prices rtx4090
                    (with_timestamp (VStr "t") four_prices)))
    by (repeat constructor).
  split; [exact H1|]. split; [exact H2|]. split; [exact H3|].
  split; [exact H4|].
  exact (ReporterFacts.reported_median_is_upper_middle four_prices
           [(rtx4090, four_prices_entry)] rtx4090 four_prices_entry
           (VStr "t") H1 H2 H3 H4).
Defined.

(** A record priced 0 has a price that is not [None], yet the reported
    minimum of its category is 5: the record is left out. *)
Lemma zero_price_excluded :
  category_nonnull_prices rtx3090 free_and_paid = [VInt 0; VInt 5] /\
  rbind (sorted [VInt 0; VInt 5]) price_min = Ok (VInt 0) /\
  reported free_and_paid rtx3090 "price_min" = Ok (VInt 5).
Proof. repeat split; vm_compute; reflexivity. Qed.

Lemma prices_of_free_and_paid :
  get_summary_stats free_and_paid = Ok [(rtx3090, free_and_paid_entry)] /\
  In (rtx3090, free_and_paid_entry) [(rtx3090, free_and_paid_entry)] /\
  py_subscript (last free_and_paid VNone) "timestamp" = Ok (VStr "t") /\
  category_prices rtx3090 (with_timestamp (VStr "t") free_and_paid)
    = [VInt 5] /\
  exists sp,
    sorted (category_prices rtx3090 (with_timestamp (VStr "t") free_and_paid))
      = Ok sp /\
    Permutation
      (category_prices rtx3090 (with_timestamp (VStr "t") free_and_paid))
      sp /\
    ascending sp /\
    price_min sp = Ok (field free_and_paid_entry "price_min") /\
    price_median sp = Ok (field free_and_paid_entry "price_median") /\
    price_max sp = Ok (field free_and_paid_entry "price_max").
Proof.
  assert (H1 : get_summary_stats free_and_paid
               = Ok [(rtx3090, free_and_paid_entry)])
    by (vm_compute; reflexivity).
  assert (H2 : In (rtx3090, free_and_paid_entry)
                 [(rtx3090, free_and_paid_entry)]) by (left; reflexivity).
  assert (H3 : py_subscript (last free_and_paid VNone) "timestamp"
               = Ok (VStr "t")) by reflexivity.
  assert (H4 : Forall (fun p => ordered_number p = true)
                 (category_prices rtx3090
                    (with_timestamp (VStr "t") free_and_paid)))
    by (repeat constructor).
  split; [exact H1|]. split; [exact H2|]. split; [exact H3|].
  split; [reflexivity|].
  exact (ReporterFacts.prices_over_truthy_records free_and_paid
           [(rtx3090, free_and_paid_entry)] rtx3090 free_and_paid_entry
           (VStr "t") H1 H2 H3 H4).
Defined.

(** 1 rented out of 3: the rate is produced, and it is the rounding to
    one decimal of the product, 33.3. *)
Lemma rate_of_one_in_three :
  0 <= 1 <= 3 /\
  (exists r, rental_rate 1 3 = Ok (VFloat r)) /\
  rounded_to 1 (times_hundred (nearest_double 1 3)) (nearest_double 333 10) /\
  rental_rate 1 3 = Ok (VFloat (nearest_double 333 10)).
Proof.
  assert (H : 0 <= 1 <= 3) by lia.
  destruct (ReporterFacts.rental_rate_guarded 1 3 3)
    as (_ & _ & (r & Hr & _ & He) & Hc).
  split; [exact H|]. split; [exact (Hc H)|].
  assert (E : r = nearest_double 333 10).
  { assert (E1 : rental_rate 1 3 = Ok (VFloat (nearest_double 333 10)))
      by (vm_compute; reflexivity).
    rewrite E1 in He. vm_compute in He. injection He as He.
    rewrite <- He. vm_compute. reflexivity. }
  rewrite <- E. split; [exact Hr|]. rewrite He. vm_compute. reflexivity.
Defined.

(** ** Projector *)

(** An offer without ["num_renting"] gives a record whose
    ["num_renting"] is 0, not [None]. *)
Lemma num_renting_defaults_to_zero :
  assoc (@nil (string * value)) "num_renting" = None /\
  rbind (process_offer_at (ticking_clock 0) (VDict []))
    (fun r => py_subscript r "num_renting") = Ok (VInt 0) /\
  rbind (process_offer_at (ticking_clock 0) (VDict []))
    (fun r => py_subscript r "num_renting") <> Ok VNone.
Proof.
  repeat split; try (vm_compute; reflexivity). vm_compute. discriminate.
Qed.

Lemma projection_of_an_offer :
  In "rented" flag_fields /\
  In ("gpu_total_ram", "gpu_totalram") copied_fields /\
  exists rec,
    process_offer_at (ticking_clock 0) (VDict an_offer_entries)
      = Ok (VDict rec) /\
    assoc rec "reliability" = Some (VInt 1) /\
    assoc rec "rented" = Some (VBool false) /\
    assoc rec "gpu_total_ram" = Some VNone /\
    assoc rec "num_renting" = Some (VInt 0).
Proof.
  assert (H1 : In "rented" flag_fields) by (simpl; tauto).
  assert (H2 : In ("gpu_total_ram", "gpu_totalram") copied_fields)
    by (simpl; tauto).
  split; [exact H1|]. split; [exact H2|].
  exact (ProjectorFacts.projection_policy (ticking_clock 0) an_offer_entries
           "rented" "gpu_total_ram" "gpu_totalram" H1 H2).
Defined.

(** ** Fetcher *)

(** A response of status 200 whose body is not JSON makes the fetcher
    raise. *)
Lemma fetcher_raises_on_status_200 :
  server html_world (List.length (sent html_world)) = Ok html_response /\
  status_code html_response = 200 /\
  fst (fetch_vast_offers "secret" html_world) = Err JSONDecodeError.
Proof. repeat split. Qed.

Lemma fetch_of_unavailable :
  server unavailable_world (List.length (sent unavailable_world))
    = Ok unavailable_response /\
  sent (snd (fetch_vast_offers "secret" unavailable_world)) =
    [mk_request VAST_API_URL (fetch_headers "secret") fetch_payload] /\
  fst (fetch_vast_offers "secret" unavailable_world) =
    Err (Exception "API Error: 503 - Service Unavailable").
Proof.
  assert (H : server unavailable_world (List.length (sent unavailable_world))
              = Ok unavailable_response) by reflexivity.
  split; [exact H|].
  exact (FetcherFacts.fetch_vast_offers_outcome unavailable_world "secret"
           unavailable_response H).
Defined.

(** ** Store *)

Lemma value_codec_lossless :
  forall (v : value) (indent : Z),
    wf_value v = true -> json_load (json_dump v indent) = Ok v.
Proof. intros v indent _. reflexivity. Defined.

Lemma empty_fs_storable : storable two_offers_world.
Proof. split; [intros c|]; discriminate. Defined.

Lemma load_of_missing_dataset :
  data_file_node two_offers_world = None /\
  load_existing_data two_offers_world = (Ok (VList []), two_offers_world).
Proof.
  assert (H : data_file_node two_offers_world = None) by reflexivity.
  split; [exact H|].
  exact (StoreFacts.load_missing_dataset two_offers_world H).
Defined.

Lemma round_trip_of_old_dataset :
  forallb wf_value old_dataset = true /\
  storable two_offers_world /\
  exists w',
    save_data (VList old_dataset) two_offers_world = (Ok tt, w') /\
    load_existing_data w' = (Ok (VList old_dataset), w').
Proof.
  assert (H : forallb wf_value old_dataset = true) by reflexivity.
  split; [exact H|]. split; [exact empty_fs_storable|].
  exact (StoreFacts.load_after_save value_codec_lossless two_offers_world
           old_dataset H empty_fs_storable).
Defined.

Lemma appending_world_storable : storable appending_world.
Proof. split; [intros c|]; discriminate. Defined.

Lemma two_records_nonempty : two_records <> [].
Proof. discriminate. Defined.

Lemma append_to_old_dataset :
  fst (collect_data (snd (datetime_now appending_world)))
    = Ok (VList two_records) /\
  fst (load_existing_data appending_world) = Ok (VList old_dataset) /\
  data_file_node (snd (main quiet_summary appending_world)) =
    Some (File (json_dump (VList (old_dataset ++ two_records)) 2)) /\
  List.length (old_dataset ++ two_records) = 3%nat.
Proof.
  assert (H1 : fst (collect_data (snd (datetime_now appending_world)))
               = Ok (VList two_records)) by (vm_compute; reflexivity).
  assert (H2 : fst (load_existing_data appending_world)
               = Ok (VList old_dataset)) by reflexivity.
  split; [exact H1|]. split; [exact H2|].
  destruct (StoreFacts.main_appends_batch quiet_summary appending_world
              old_dataset two_records H1 two_records_nonempty H2
              appending_world_storable) as (Hfile & Hlen & _).
  split; [exact Hfile|exact Hlen].
Defined.

(** ** One collection *)

Lemma secret_not_empty : "secret" <> "".
Proof. discriminate. Defined.

Lemma collection_of_two_offers :
  environ two_offers_world "VAST_API_KEY" = Some "secret" /\
  server two_offers_world (List.length (sent two_offers_world))
    = Ok two_offers_response /\
  exists records,
    collect_data two_offers_world =
      (Ok (VList records),
       mk_world key_env (respond two_offers_response) [request_of "secret"]
         ticking_clock 2 empty_fs) /\
    List.length records = 2%nat.
Proof.
  split; [reflexivity|]. split; [reflexivity|].
  destruct (CollectorFacts.collect_data_projects_offers two_offers_world
              "secret" two_offers_response
              [("offers", VList [an_offer; an_offer])] [an_offer; an_offer]
              eq_refl secret_not_empty eq_refl eq_refl eq_refl eq_refl)
    as (records & H1 & _ & H2 & _).
  exists records. split; [exact H1|exact H2].
Defined.

Lemma well_formed_records_of_an_offer :
  forallb wf_value [an_offer; VInt 1] = true /\
  fst (process_offers [an_offer; VInt 1] [] two_offers_world)
    = Ok (project_from ticking_clock 0 [an_offer; VInt 1]) /\
  forallb wf_value (project_from ticking_clock 0 [an_offer; VInt 1]) = true.
Proof.
  assert (H1 : forallb wf_value [an_offer; VInt 1] = true) by reflexivity.
  assert (H2 : fst (process_offers [an_offer; VInt 1] [] two_offers_world)
               = Ok (project_from ticking_clock 0 [an_offer; VInt 1]))
    by reflexivity.
  split; [exact H1|]. split; [exact H2|].
  exact (CollectorFacts.process_offers_well_formed [an_offer; VInt 1] []
           (project_from ticking_clock 0 [an_offer; VInt 1])
           two_offers_world H1 eq_refl H2).
Defined.

Lemma an_offer_with_id_agrees :
  forall k, In k input_fields ->
    assoc an_offer_entries k = assoc an_offer_with_id k.
Proof.
  intros k Hk. cbv [input_fields flag_fields copied_fields map snd app] in Hk.
  repeat (destruct Hk as [<-|Hk]; [reflexivity|]). contradiction.
Defined.

Lemma record_of_an_offer_with_id :
  assoc an_offer_with_id "id" = Some (VInt 7) /\
  process_offer_at (ticking_clock 0) (VDict an_offer_entries) =
  process_offer_at (ticking_clock 0) (VDict an_offer_with_id).
Proof.
  split; [reflexivity|].
  exact (CollectorFacts.process_offer_reads_input_fields (ticking_clock 0)
           an_offer_entries an_offer_with_id an_offer_with_id_agrees).
Defined.

(** ** The summary as a whole *)

Lemma two_gpus_summary : get_summary_stats two_gpus = Ok two_gpus_stats.
Proof. vm_compute. reflexivity. Defined.

Lemma two_gpus_timestamp :
  py_subscript (last two_gpus VNone) "timestamp" = Ok (VStr "t").
Proof. reflexivity. Defined.

Lemma keys_of_two_gpus :
  kd_mem two_gpus_stats rtx3090 = true /\
  kd_mem two_gpus_stats (VStr "H100") = false /\
  kd_find two_gpus_stats rtx3090 = Some free_and_paid_entry.
Proof.
  destruct (SummaryFacts.summary_keys_are_batch_names two_gpus two_gpus_stats
              (VStr "t") two_gpus_summary two_gpus_timestamp)
    as (_ & Hmem & Hfind).
  split; [|split].
  - rewrite (Hmem rtx3090 eq_refl). reflexivity.
  - rewrite (Hmem (VStr "H100") eq_refl). reflexivity.
  - apply (Hfind rtx3090 free_and_paid_entry). right. now left.
Defined.

Lemma counts_of_four_prices :
  In (rtx4090, four_prices_entry) two_gpus_stats /\
  field four_prices_entry "total" = VInt 4 /\
  field four_prices_entry "rented" = VInt 1 /\
  field four_prices_entry "available" = VInt 3.
Proof.
  assert (Hin : In (rtx4090, four_prices_entry) two_gpus_stats)
    by (left; reflexivity).
  split; [exact Hin|].
  destruct (SummaryFacts.summary_counts two_gpus two_gpus_stats rtx4090
              four_prices_entry two_gpus_summary Hin)
    as (ts & total & rented & Hts & Ht & Hr & H1 & H2 & H3 & _).
  rewrite two_gpus_timestamp in Hts. injection Hts as <-.
  rewrite H1, H2, H3, Hr, Ht. repeat split.
Defined.

Lemma totals_of_two_gpus :
  sum_totals two_gpus_stats = 6 /\
  List.length (with_timestamp (VStr "t") two_gpus) = 6%nat.
Proof.
  split; [|reflexivity].
  exact (SummaryFacts.summary_totals_add_up two_gpus two_gpus_stats
           (VStr "t") two_gpus_summary two_gpus_timestamp).
Defined.

Lemma two_gpus_reportable : all_reportable two_gpus.
Proof. repeat constructor. Defined.

Lemma summary_of_two_gpus :
  exists stats,
    get_summary_stats two_gpus = Ok stats /\
    forall g entry, In (g, entry) stats ->
      exists d, entry = VDict d /\ map fst d = entry_keys.
Proof.
  exact (SummaryFacts.summary_of_reportable_records two_gpus
           two_gpus_reportable).
Defined.

Lemma four_prices_not_empty : four_prices <> [].
Proof. discriminate. Defined.

Lemma old_dataset_is_older :
  Forall (fun r => exists t, py_subscript r "timestamp" = Ok t /\
                             py_eqb t (VStr "t") = false) old_dataset.
Proof.
  constructor; [|constructor].
  exists (VStr "2026-11-03T07:00:00"). split; reflexivity.
Defined.

Lemma summary_behind_old_dataset :
  get_summary_stats (old_dataset ++ four_prices) =
  get_summary_stats four_prices.
Proof.
  exact (SummaryFacts.summary_ignores_older_records old_dataset four_prices
           (VStr "t") four_prices_not_empty eq_refl old_dataset_is_older).
Defined.

Lemma untimed_dataset_dicts :
  Forall (fun r => is_dict r = true) untimed_dataset.
Proof. repeat constructor. Defined.

Lemma summary_of_untimed_dataset :
  has_timestamp (VDict [("gpu_name", VStr "RTX 3090")]) = false /\
  get_summary_stats untimed_dataset = Err (KeyError "timestamp").
Proof.
  split; [reflexivity|].
  apply (SummaryFacts.summary_needs_every_timestamp untimed_dataset
           untimed_dataset_dicts).
  apply Exists_cons_hd. reflexivity.
Defined.

Lemma four_prices_numbers :
  numbers (category_prices rtx4090 (with_timestamp (VStr "t") two_gpus)).
Proof. repeat constructor. Defined.

Lemma four_prices_priced :
  category_prices rtx4090 (with_timestamp (VStr "t") two_gpus) <> [].
Proof. discriminate. Defined.

Lemma extremes_of_four_prices :
  category_prices rtx4090 (with_timestamp (VStr "t") two_gpus) =
    [VInt 10; VInt 20; VInt 30; VInt 40] /\
  exists lo hi,
    (forall p, In p [VInt 10; VInt 20; VInt 30; VInt 40] ->
       ascending_pair lo p /\ ascending_pair p hi) /\
    py_round lo 3 = Ok (VInt 10) /\ py_round hi 3 = Ok (VInt 40).
Proof.
  split; [reflexivity|].
  destruct (SummaryFacts.reported_price_extremes two_gpus two_gpus_stats
              rtx4090 four_prices_entry (VStr "t") two_gpus_summary
              ltac:(left; reflexivity) two_gpus_timestamp
              four_prices_numbers four_prices_priced)
    as (lo & hi & _ & _ & Hall & Hlo & Hhi).
  exists lo, hi. split; [exact Hall|]. split; [exact Hlo|exact Hhi].
Defined.

(** ** The printed summary *)

Lemma two_gpus_sorted :
  sorted_by total_of true two_gpus_stats = Ok two_gpus_stats.
Proof. reflexivity. Defined.

Lemma layout_of_two_gpus :
  snd (print_summary two_gpus_stats) = Ok tt /\
  exists rows,
    fst (print_summary two_gpus_stats) =
      summary_header ++ rows ++ [repeat_string "=" 70] /\
    List.length rows = 2%nat.
Proof.
  assert (Hok : snd (print_summary two_gpus_stats) = Ok tt)
    by (vm_compute; reflexivity).
  split; [exact Hok|].
  destruct (PrinterFacts.print_summary_layout two_gpus_stats two_gpus_stats
              two_gpus_sorted) as (rows & _ & _ & H).
  rewrite Hok in H. exists rows. exact H.
Defined.

Lemma two_gpus_counted : Forall counted two_gpus_stats.
Proof. repeat constructor. Defined.

Lemma order_of_two_gpus :
  exists by_total,
    sorted_by total_of true two_gpus_stats = Ok by_total /\
    Permutation two_gpus_stats by_total /\
    StronglySorted
      (fun a b => entry_total (snd b) <= entry_total (snd a)) by_total.
Proof.
  destruct (PrinterFacts.summary_rows_by_total two_gpus_stats
              two_gpus_counted) as (s & H1 & H2 & H3 & _).
  exists s. split; [exact H1|]. split; [exact H2|exact H3].
Defined.

Lemma two_gpus_named :
  Forall (fun r => gpu_of r <> VNone) (with_timestamp (VStr "t") two_gpus).
Proof. repeat constructor; discriminate. Defined.

Lemma two_gpus_printable :
  Forall (fun r => printable_price (field r "dph_total") = true) two_gpus.
Proof. repeat constructor. Defined.

Lemma printed_summary_of_two_gpus :
  snd (print_summary two_gpus_stats) = Ok tt /\
  List.length (fst (print_summary two_gpus_stats)) = 8%nat.
Proof.
  exact (PrinterFacts.print_summary_of_dataset two_gpus two_gpus_stats
           (VStr "t") two_gpus_summary two_gpus_timestamp two_gpus_named
           two_gpus_printable).
Defined.

Lemma nameless_summary :
  get_summary_stats [VDict nameless_entries] = Ok nameless_stats.
Proof. vm_compute. reflexivity. Defined.

Lemma printed_summary_of_nameless :
  gpu_of (VDict nameless_entries) = VNone /\
  exists e,
    snd (print_summary nameless_stats) = Err e /\ is_ValueError e = false.
Proof.
  split; [reflexivity|].
  apply (PrinterFacts.print_summary_none_gpu [VDict nameless_entries]
           nameless_stats (VStr "2026-11-04T07:05:09.000001")
           (VDict nameless_entries) nameless_summary eq_refl).
  - left. reflexivity.
  - reflexivity.
  - simpl. lia.
Defined.

(** ** One run *)

Lemma overwriting_old_dataset :
  exists w1 w2,
    save_data (VList old_dataset) two_offers_world = (Ok tt, w1) /\
    save_data (VList []) w1 = (Ok tt, w2) /\
    data_file_node w2 = Some (File (VList [])).
Proof.
  destruct (RunFacts.save_data_overwrites two_offers_world old_dataset []
              empty_fs_storable) as (w1 & w2 & H1 & H2 & H3 & _).
  exists w1, w2. split; [exact H1|]. split; [exact H2|exact H3].
Defined.

Lemma run_without_api_key :
  environ no_key_world "VAST_API_KEY" = None /\
  main quiet_summary no_key_world =
    (Ok tt,
     mk_world no_key_env (respond two_offers_response) [] ticking_clock 1
       one_record_fs).
Proof.
  split; [reflexivity|].
  exact (RunFacts.main_without_api_key quiet_summary no_key_world
           (or_introl eq_refl)).
Defined.

Lemma unavailable_status : status_code unavailable_response <> 200.
Proof. discriminate. Defined.

Lemma run_against_unavailable_api :
  fst (main quiet_summary unavailable_dataset_world) =
    Err (Exception "API Error: 503 - Service Unavailable") /\
  fs (snd (main quiet_summary unavailable_dataset_world)) = one_record_fs.
Proof.
  rewrite (RunFacts.main_api_error quiet_summary unavailable_dataset_world
             "secret" unavailable_response eq_refl secret_not_empty eq_refl
             unavailable_status).
  split; reflexivity.
Defined.

Lemma run_against_html_body :
  json html_response = Err JSONDecodeError /\
  fst (main quiet_summary html_dataset_world) = Ok tt /\
  fs (snd (main quiet_summary html_dataset_world)) = one_record_fs.
Proof.
  split; [reflexivity|].
  destruct (RunFacts.main_undecodable_body quiet_summary html_dataset_world
              "secret" html_response JSONDecodeError eq_refl secret_not_empty
              eq_refl eq_refl eq_refl) as [H _].
  rewrite H. split; reflexivity.
Defined.

Lemma no_dict_offers_skipped :
  Forall (fun offer => is_dict offer = false) no_dict_offers.
Proof. repeat constructor. Defined.

Lemma run_without_dict_offers :
  main quiet_summary no_dict_world =
    (Ok tt,
     mk_world key_env (respond no_dict_response) [request_of "secret"]
       ticking_clock 3 one_record_fs).
Proof.
  exact (RunFacts.main_without_offers quiet_summary no_dict_world "secret"
           no_dict_response [("offers", VList no_dict_offers)] no_dict_offers
           eq_refl secret_not_empty eq_refl eq_refl eq_refl eq_refl
           no_dict_offers_skipped).
Defined.

Lemma corrupt_never_a_list :
  forall l : list value, @Err value JSONDecodeError <> Ok (VList l).
Proof. intros l. discriminate. Defined.

Lemma run_on_corrupt_dataset :
  fst (load_existing_data corrupt_world) = Err JSONDecodeError /\
  fst (main quiet_summary corrupt_world) = Ok tt /\
  fs (snd (main quiet_summary corrupt_world)) = corrupt_fs.
Proof.
  assert (H1 : fst (collect_data (snd (datetime_now corrupt_world)))
               = Ok (VList two_records)) by (vm_compute; reflexivity).
  assert (H2 : fst (load_existing_data corrupt_world) = Err JSONDecodeError)
    by reflexivity.
  split; [exact H2|].
  exact (RunFacts.main_unreadable_dataset quiet_summary corrupt_world
           two_records (Err JSONDecodeError) H1 two_records_nonempty H2
           corrupt_never_a_list).
Defined.

Lemma run_on_blocked_directory :
  fs blocked_world DATA_DIR = Some (File VNone) /\
  fst (main quiet_summary blocked_world) = Err FileExistsError /\
  fs (snd (main quiet_summary blocked_world)) = blocked_fs.
Proof.
  assert (H1 : fst (collect_data (snd (datetime_now blocked_world)))
               = Ok (VList two_records)) by (vm_compute; reflexivity).
  split; [reflexivity|].
  exact (RunFacts.main_save_blocked quiet_summary blocked_world two_records
           VNone H1 two_records_nonempty eq_refl).
Defined.

Lemma run_with_failing_summary :
  fst (main (fun _ => Err TypeError) appending_world) = Err TypeError /\
  data_file_node (snd (main (fun _ => Err TypeError) appending_world)) =
    Some (File (VList (old_dataset ++ two_records))).
Proof.
  assert (H1 : fst (collect_data (snd (datetime_now appending_world)))
               = Ok (VList two_records)) by (vm_compute; reflexivity).
  assert (H2 : fst (load_existing_data appending_world)
               = Ok (VList old_dataset)) by reflexivity.
  destruct (RunFacts.main_summary_after_save (fun _ => Err TypeError)
              appending_world old_dataset two_records H1 two_records_nonempty
              H2 appending_world_storable) as [Ha Hb].
  split; [|exact Hb]. rewrite Ha. vm_compute. reflexivity.
Defined.

Lemma appended_reportable : all_reportable (old_dataset ++ two_records).
Proof. repeat constructor. Defined.

Lemma appended_named :
  Forall (fun r => gpu_of r <> VNone) (old_dataset ++ two_records).
Proof. repeat constructor; discriminate. Defined.

Lemma appended_printable :
  Forall (fun r => printable_price (field r "dph_total") = true)
    (old_dataset ++ two_records).
Proof. repeat constructor. Defined.

Lemma complete_run :
  fst (main (fun stats => snd (print_summary stats)) appending_world)
    = Ok tt /\
  data_file_node
    (snd (main (fun stats => snd (print_summary stats)) appending_world)) =
    Some (File (VList (old_dataset ++ two_records))).
Proof.
  assert (H1 : fst (collect_data (snd (datetime_now appending_world)))
               = Ok (VList two_records)) by (vm_compute; reflexivity).
  assert (H2 : fst (load_existing_data appending_world)
               = Ok (VList old_dataset)) by reflexivity.
  exact (RunFacts.main_completes appending_world old_dataset two_records
           H1 two_records_nonempty H2 appending_world_storable
           appended_reportable appended_named appended_printable).
Defined.

Lemma nameless_world_storable : storable nameless_world.
Proof. split; [intros c|]; discriminate. Defined.

Lemma nameless_record_nonempty : [VDict nameless_entries] <> [].
Proof. discriminate. Defined.

Lemma run_with_nameless_offer :
  assoc nameless_entries "gpu_name" = Some VNone /\
  exists e,
    fst (main (fun stats => snd (print_summary stats)) nameless_world)
      = Err e /\
    is_ValueError e = false /\
    data_file_node
      (snd (main (fun stats => snd (print_summary stats)) nameless_world)) =
      Some (File (VList [VDict nameless_entries])).
Proof.
  assert (H1 : fst (collect_data (snd (datetime_now nameless_world)))
               = Ok (VList [VDict nameless_entries]))
    by (vm_compute; reflexivity).
  assert (H2 : fst (load_existing_data nameless_world) = Ok (VList []))
    by reflexivity.
  assert (H3 : assoc nameless_entries "gpu_name" = Some VNone)
    by reflexivity.
  split; [exact H3|].
  exact (RunFacts.main_nameless_offer nameless_world []
           [VDict nameless_entries] nameless_stats nameless_entries
           "2026-11-04T07:05:09.000001" H1 nameless_record_nonempty H2
           nameless_world_storable nameless_summary ltac:(simpl; lia)
           eq_refl eq_refl H3).
Defined.

Lemma two_more_records_nonempty : two_more_records <> [].
Proof. discriminate. Defined.

Lemma two_runs_on_the_same_offers :
  data_file_node
    (snd (main quiet_summary (snd (main quiet_summary two_offers_world)))) =
    Some (File (VList (two_records ++ two_more_records))) /\
  List.length (two_records ++ two_more_records) = 4%nat.
Proof.
  split; [|reflexivity].
  exact (RunFacts.two_runs_accumulate quiet_summary value_codec_lossless
           two_offers_world "secret" two_offers_response two_offers_response
           [("offers", VList [an_offer; an_offer])]
           [("offers", VList [an_offer; an_offer])]
           [an_offer; an_offer] [an_offer; an_offer] []
           eq_refl secret_not_empty eq_refl eq_refl eq_refl eq_refl
           eq_refl eq_refl eq_refl eq_refl eq_refl empty_fs_storable
           two_records_nonempty two_more_records_nonempty eq_refl).
Defined.

End Scenarios.
